(** * Manifest-driven configuration generator of the MCP command-line client

    A shallow embedding of

    - [src/commands/manifest/generate.ts]: [generateCartesianProduct],
      [generateMatrixCombinations], [generateConditionalCombinations],
      [shouldPromptEnvVar], [buildServerConfig];
    - [src/commands/manifest/env-prompting.ts]: [promptForEnvVars];
    - [src/commands/manifest/validate.ts]: [validateServerConfig];
    - [src/types.ts]: the [ServerConfig] shapes and their type guards;

    followed by the properties of the combination generator, of the
    environment resolver, of the configuration builder and of the validator.

    Modelling conventions.

    - A JavaScript string is a [string]; a string is falsy exactly when it is
      empty ([truthy]).  [String.prototype.toLowerCase] is modelled on the
      ASCII range, the range of environment-variable names.
    - A [Record<string, T>] is an insertion-ordered association list with
      unique keys ([Obj.t]): [Obj.set] is the assignment [o[k] = v],
      [Obj.get] the read [o[k]] on own properties, [Obj.entries] is
      [Object.entries].  Keys that look like array indices, which
      JavaScript enumerates first, and inherited properties are outside the
      model.
    - An optional field [f?: T] is an [option T].
    - An array read [a[i]] is [nth_error a i]: [None] stands for
      [undefined]. *)

From Stdlib Require Import List String Ascii Bool Arith NArith Lia DecimalString.
Import ListNotations.
Open Scope string_scope.

(* ================================================================= *)
(** ** JavaScript strings and arrays *)

(** [!!s] for a string [s]. *)
Definition truthy (s : string) : bool := negb (s =? "").

(** [x || ''] where [x] is an array read: a string [s] stays [s] (the empty
    one included), [undefined] becomes the empty string. *)
Definition orEmpty (x : option string) : string :=
  match x with
  | Some s => s
  | None => ""
  end.

(** A template-literal hole [${x}] where [x] is an array or record read. *)
Definition interpolate (x : option string) : string :=
  match x with
  | Some s => s
  | None => "undefined"
  end.

(** [toLowerCase] on one character of the ASCII range. *)
Definition lowerAscii (c : ascii) : ascii :=
  let n := nat_of_ascii c in
  if ((65 <=? n)%nat && (n <=? 90)%nat)%bool then ascii_of_nat (n + 32) else c.

Fixpoint toLowerCase (s : string) : string :=
  match s with
  | EmptyString => EmptyString
  | String c s' => String (lowerAscii c) (toLowerCase s')
  end.

(** [a.includes(x)] on an array of strings. *)
Definition includes (a : list string) (x : string) : bool :=
  existsb (String.eqb x) a.

(** A string between double quotes, as the messages of the validator
    write field names. *)
Definition quoted (s : string) : string :=
  String (ascii_of_nat 34) (s ++ String (ascii_of_nat 34) EmptyString).

(** [a.join(sep)]. *)
Definition join (sep : string) (a : list string) : string := String.concat sep a.

(** The pairs (index, element) that [forEach((x, i) => ...)] and
    [map((x, i) => ...)] visit. *)
Definition indexed {A} (a : list A) : list (nat * A) :=
  combine (seq 0 (List.length a)) a.

(* ================================================================= *)
(** ** Records used as maps *)

Module Obj.

Definition t (V : Type) := list (string * V).

Definition empty {V} : t V := [].

Fixpoint get {V} (o : t V) (k : string) : option V :=
  match o with
  | [] => None
  | (k', v) :: o' => if k =? k' then Some v else get o' k
  end.

(** [o[k] = v]: an existing key keeps its place, a new key goes last. *)
Fixpoint set {V} (k : string) (v : V) (o : t V) : t V :=
  match o with
  | [] => [(k, v)]
  | (k', v') :: o' => if k =? k' then (k', v) :: o' else (k', v') :: set k v o'
  end.

Definition keys {V} (o : t V) : list string := map fst o.

Definition entries {V} (o : t V) : list (string * V) := o.

Definition has {V} (o : t V) (k : string) : bool :=
  match get o k with Some _ => true | None => false end.

(** [Object.assign(target, src)]. *)
Definition assign {V} (target src : t V) : t V :=
  fold_left (fun acc kv => set (fst kv) (snd kv) acc) (entries src) target.

(** [{ ...a, ...b, ...c }] for the list of sources [[a; b; c]]. *)
Definition spread {V} (srcs : list (t V)) : t V :=
  fold_left assign srcs empty.

End Obj.

(* ================================================================= *)
(** ** Data model ([generate.ts], [metadata-reader.ts]) *)

(** [dependsOn?: Record<string, string[]>]. *)
Definition DependsOn := option (Obj.t (list string)).

(** The parameter type of [generateMatrixCombinations] and
    [generateConditionalCombinations]:
    [{ name: string; choices: string[]; dependsOn?: Record<string, string[]> }]
    (the matrix generator reads [name] and [choices] only). *)
Module EnvDim.
Record t := mk {
  name : string;
  choices : list string;
  dependsOn : DependsOn;
}.
End EnvDim.

Module Combination.
Record t := mk {
  name : string;
  envKeys : list string;
  argNames : list string;
  defaults : Obj.t string;
  argDefaults : Obj.t string;
  dimensionValues : Obj.t string;
}.
End Combination.

(* ================================================================= *)
(** ** [generateCartesianProduct] *)

(** The parameter type [Array<{ name: string; choices?: string[] }>] is
    structural: the function reads the [choices] field only, here the
    projection [choicesOf]. *)
Section CartesianProduct.

Context {D : Type} (choicesOf : D -> option (list string)).

Fixpoint generateCartesianProduct (dimensions : list D) : list (list string) :=
  match dimensions with
  | [] => [[]]
  | first :: rest =>
      match choicesOf first with
      | None => [[]]
      | Some [] => [[]]
      | Some firstChoices =>
          match rest with
          | [] => map (fun c => [c]) firstChoices
          | _ :: _ =>
              let restProduct := generateCartesianProduct rest in
              flat_map
                (fun choice => map (fun restCombination => choice :: restCombination) restProduct)
                firstChoices
          end
      end
  end.

(** [!first.choices || first.choices.length === 0] and its negation. *)
Definition noChoices (d : D) : bool :=
  match choicesOf d with
  | None => true
  | Some [] => true
  | Some (_ :: _) => false
  end.

Definition hasChoices (d : D) : bool := negb (noChoices d).

(** [d.choices], an absent list read as the empty one. *)
Definition declaredChoices (d : D) : list string :=
  match choicesOf d with Some cs => cs | None => [] end.

End CartesianProduct.

(** The [choices] field of a declared dimension, where it is required. *)
Definition envChoices (d : EnvDim.t) : option (list string) := Some (EnvDim.choices d).

(* ================================================================= *)
(** ** [shouldPromptEnvVar] *)

(** The parameter [envVar: { dependsOn?: Record<string, string[]> }] is the
    optional field itself. *)
Definition shouldPromptEnvVar (dependsOn : DependsOn) (selectedValues : Obj.t string) : bool :=
  match dependsOn with
  | None => true
  | Some deps =>
      forallb
        (fun entry =>
           let '(depName, allowedValues) := entry in
           match Obj.get selectedValues depName with
           | None => false
           | Some selectedValue => truthy selectedValue && includes allowedValues selectedValue
           end)
        (Obj.entries deps)
  end.

(* ================================================================= *)
(** ** [generateMatrixCombinations] *)

(** The template literal [`${dim.name.toLowerCase()}-${value}`]. *)
Definition nameFragment (dimName value : string) : string :=
  toLowerCase dimName ++ "-" ++ value.

(** [nameParts.length > 0 ? nameParts.join('_') : fallback]. *)
Definition nameOfParts (fallback : string) (nameParts : list string) : string :=
  match nameParts with
  | [] => fallback
  | _ :: _ => join "_" nameParts
  end.

(** [dims.forEach((dim, i) => { target[dim.name] = values[i] || ''; })]. *)
Definition assignDimensionValues (dims : list EnvDim.t) (values : list string)
    (target : Obj.t string) : Obj.t string :=
  fold_left
    (fun acc idim =>
       let '(i, dim) := idim in
       Obj.set (EnvDim.name dim) (orEmpty (nth_error values i)) acc)
    (indexed dims) target.

Definition generateMatrixCombinations (envVars : list EnvDim.t) : list Combination.t :=
  let dimensions := envVars in
  let product := generateCartesianProduct envChoices dimensions in
  map
    (fun values =>
       let dimensionValues := assignDimensionValues dimensions values Obj.empty in
       let nameParts :=
         map (fun idim : nat * EnvDim.t =>
                let '(i, dim) := idim in
                nameFragment (EnvDim.name dim) (interpolate (nth_error values i)))
             (indexed dimensions) in
       Combination.mk
         (nameOfParts "minimal" nameParts)
         (map EnvDim.name dimensions)
         [] Obj.empty Obj.empty
         dimensionValues)
    product.

(* ================================================================= *)
(** ** [generateConditionalCombinations] *)

Definition isPrimary (e : EnvDim.t) : bool :=
  match EnvDim.dependsOn e with None => true | Some _ => false end.

Definition isConditional (e : EnvDim.t) : bool := negb (isPrimary e).

(** [dim.choices.length > 1]. *)
Definition multiChoice (dim : EnvDim.t) : bool :=
  (1 <? List.length (EnvDim.choices dim))%nat.

Definition minimalCombination : Combination.t :=
  Combination.mk "minimal" [] [] Obj.empty Obj.empty Obj.empty.

(** The body of the loop over [primaryProduct]: the combinations pushed for
    one tuple of primary values.  [primaryDims.indexOf(dim)] is the position
    of [dim] in [primaryDims] (the array holds distinct objects). *)
Definition combinationsForPrimary (primaryDims conditionalDims : list EnvDim.t)
    (primaryValues : list string) : list Combination.t :=
  let baseDimensionValues := assignDimensionValues primaryDims primaryValues Obj.empty in
  let applicableConditionals :=
    filter (fun cond => shouldPromptEnvVar (EnvDim.dependsOn cond) baseDimensionValues)
           conditionalDims in
  match applicableConditionals with
  | [] =>
      let nameParts :=
        map (fun idim : nat * EnvDim.t =>
               let '(i, dim) := idim in
               nameFragment (EnvDim.name dim) (interpolate (nth_error primaryValues i)))
            (filter (fun idim => multiChoice (snd idim)) (indexed primaryDims)) in
      [ Combination.mk
          (nameOfParts "default" nameParts)
          (map EnvDim.name primaryDims)
          [] Obj.empty Obj.empty
          (Obj.spread [baseDimensionValues]) ]
  | _ :: _ =>
      let conditionalProduct :=
        generateCartesianProduct envChoices applicableConditionals in
      map
        (fun condValues =>
           let fullDimensionValues :=
             assignDimensionValues applicableConditionals condValues
               (Obj.spread [baseDimensionValues]) in
           let allDims := (primaryDims ++ applicableConditionals)%list in
           let nameParts :=
             map (fun dim =>
                    nameFragment (EnvDim.name dim)
                      (interpolate (Obj.get fullDimensionValues (EnvDim.name dim))))
                 (filter multiChoice allDims) in
           Combination.mk
             (nameOfParts "default" nameParts)
             (map EnvDim.name (primaryDims ++ applicableConditionals)%list)
             [] Obj.empty Obj.empty
             fullDimensionValues)
        conditionalProduct
  end.

Definition generateConditionalCombinations (envVars : list EnvDim.t) : list Combination.t :=
  let primaryDims := filter isPrimary envVars in
  let conditionalDims := filter isConditional envVars in
  match primaryDims with
  | [] => [minimalCombination]
  | _ :: _ =>
      let primaryProduct :=
        generateCartesianProduct envChoices primaryDims in
      flat_map (combinationsForPrimary primaryDims conditionalDims) primaryProduct
  end.

(* ================================================================= *)
(** ** Manifest metadata ([metadata-reader.ts]) *)

Module EnvVarMetadata.
Record t := mk {
  name : string;
  value : option string;
  default : option string;
  description : string;
  placeholder : option string;
  choices : option (list string);
  isRequired : option bool;
  isSecret : bool;
  isMandatoryForMatrix : option bool;
  dependsOn : DependsOn;
}.
End EnvVarMetadata.

Module CliArgMetadata.
Record t := mk {
  name : string;
  value : option string;
  description : option string;
  choices : option (list string);
}.
End CliArgMetadata.

Inductive TransportType := Stdio | StreamableHttp.

Definition TransportType_eqb (a b : TransportType) : bool :=
  match a, b with
  | Stdio, Stdio => true
  | StreamableHttp, StreamableHttp => true
  | _, _ => false
  end.

(** [environmentVariables] and [packageArguments] are typed as required
    arrays; the generator's [|| []] is the identity on them. *)
Module PackageConfig.
Record t := mk {
  registryType : string;
  identifier : string;
  transportType : TransportType;
  transportUrl : option string;
  environmentVariables : list EnvVarMetadata.t;
  packageArguments : list CliArgMetadata.t;
}.
End PackageConfig.

Module ServerMetadata.
Record t := mk {
  name : string;
  description : string;
  version : string;
  title : string;
  packages : list PackageConfig.t;
}.
End ServerMetadata.

(** [MetadataReader.getPackageForTransport]. *)
Definition getPackageForTransport (metadata : ServerMetadata.t) (transport : TransportType)
    : option PackageConfig.t :=
  find (fun p => TransportType_eqb (PackageConfig.transportType p) transport)
       (ServerMetadata.packages metadata).

(** Truthiness of an optional boolean and of an optional string. *)
Definition isTrue (b : option bool) : bool :=
  match b with Some true => true | _ => false end.

Definition truthyOpt (s : option string) : bool :=
  match s with Some s => truthy s | None => false end.

(** [a ?? b]. *)
Definition nullish {A} (a b : option A) : option A :=
  match a with Some _ => a | None => b end.

(* ================================================================= *)
(** ** Configuration files ([types.ts]) *)

(** The fields the builder writes; it never sets the optional [type] of a
    stdio configuration nor the [headers] of an http one. *)

Module ServerConfigStdio.
Record t := mk {
  command : string;
  args : option (list string);
  env : option (Obj.t string);
}.
End ServerConfigStdio.

Module ServerConfigHttp.
Record t := mk {
  url : string;
  start : option ServerConfigStdio.t;
}.
End ServerConfigHttp.

(** The union [ServerConfigStdio | ServerConfigHttp]; [type: 'http'] is the
    constructor [HttpConfig]. *)
Inductive ServerConfig :=
| StdioConfig (c : ServerConfigStdio.t)
| HttpConfig (c : ServerConfigHttp.t).

(** The stdio-shaped object of a configuration: the configuration itself,
    or the [start] block of an http configuration. *)
Definition stdioShape (config : ServerConfig) : option ServerConfigStdio.t :=
  match config with
  | StdioConfig c => Some c
  | HttpConfig c => ServerConfigHttp.start c
  end.

(** [...(xs.length > 0 && { field: xs })]: the field is present only for a
    non-empty [xs]. *)
Definition omitIfEmpty {A} (xs : list A) : option (list A) :=
  match xs with
  | [] => None
  | _ :: _ => Some xs
  end.

(* ================================================================= *)
(** ** The host: process environment, terminal and user *)

(** What the prompts and the console show, in order. *)
Inductive Event :=
| Select (message : string) (choices : list (string * string))
| Input (secret : bool) (message : string) (default : option string) (rejectsEmpty : bool)
| Confirm (message : string) (default : bool)
| ConsoleLog (line : string).

Definition isPrompt (e : Event) : bool :=
  match e with
  | ConsoleLog _ => false
  | _ => true
  end.

(** [processEnv] is [process.env], [isTTY] is [process.stdin.isTTY]; the
    user answers a prompt knowing everything shown so far; [pathResolve] and
    [pathJoin] are Node's [path.resolve] and [path.join];
    [readServerMetadata] is the manifest lookup of [MetadataReader]
    (an error message, or the manifest). *)
Record Host := mkHost {
  processEnv : Obj.t string;
  isTTY : bool;
  answerText : list Event -> string;
  answerConfirm : list Event -> bool;
  pathResolve : string -> string;
  pathJoin : string -> string -> string;
  readServerMetadata : string -> string + ServerMetadata.t;
}.

(** Computations that append to the trace of events. *)
Definition M (A : Type) : Type := list Event -> A * list Event.

Definition ret {A} (a : A) : M A := fun trace => (a, trace).

Definition bind {A B} (m : M A) (f : A -> M B) : M B :=
  fun trace => let '(a, trace') := m trace in f a trace'.

Notation "x <- m ;; k" := (bind m (fun x => k))
  (at level 61, m at next level, right associativity).

Definition emit (e : Event) : M unit := fun trace => (tt, (trace ++ [e])%list).

Fixpoint foldM {A B} (f : A -> B -> M A) (l : list B) (a : A) : M A :=
  match l with
  | [] => ret a
  | b :: l' => a' <- f a b ;; foldM f l' a'
  end.

Section Prompts.

Context (host : Host).

Definition select (message : string) (choices : list (string * string)) : M string :=
  fun trace =>
    let trace' := (trace ++ [Select message choices])%list in
    (answerText host trace', trace').

(** [input] or, for a secret, [password]. *)
Definition promptFn (secret : bool) (message : string) (default : option string)
    (rejectsEmpty : bool) : M string :=
  fun trace =>
    let trace' := (trace ++ [Input secret message default rejectsEmpty])%list in
    (answerText host trace', trace').

Definition confirm (message : string) (default : bool) : M bool :=
  fun trace =>
    let trace' := (trace ++ [Confirm message default])%list in
    (answerConfirm host trace', trace').

Definition consoleLog (line : string) : M unit := emit (ConsoleLog line).

End Prompts.

(* ================================================================= *)
(** ** [env-prompting.ts] *)

Definition redactValue (value : string) (isSecret : bool) : string :=
  if negb isSecret then value
  else if (String.length value <=? 6)%nat then "XXX"
  else substring 0 4 value ++ "XXX".

(** [Object.keys(variables).find((k) => k.toLowerCase() === varName.toLowerCase())]
    and the replacement of one match [{varName}]. *)
Definition replaceToken (variables : Obj.t string) (varName : string) : string :=
  match find (fun k => toLowerCase k =? toLowerCase varName) (Obj.keys variables) with
  | Some key =>
      if truthy key then interpolate (Obj.get variables key)
      else "{" ++ varName ++ "}"
  | None => "{" ++ varName ++ "}"
  end.

(** [template.replace(/\{([^}]+)\}/g, ...)], read left to right: [pending]
    is [None] outside braces and [Some name] after an open brace followed by
    the characters [name], none of them a closing brace. *)
Fixpoint replaceTokens (variables : Obj.t string) (pending : option string) (s : string)
    : string :=
  match s with
  | EmptyString =>
      match pending with
      | None => ""
      | Some varName => "{" ++ varName
      end
  | String c s' =>
      match pending with
      | None =>
          if (c =? "{")%char then replaceTokens variables (Some "") s'
          else String c (replaceTokens variables None s')
      | Some varName =>
          if (c =? "}")%char then
            (if truthy varName then replaceToken variables varName else "{}")
            ++ replaceTokens variables None s'
          else replaceTokens variables (Some (varName ++ String c "")) s'
      end
  end.

Definition substituteTemplateVars (template : option string) (variables : option (Obj.t string))
    : option string :=
  match template, variables with
  | Some t, Some vars => if truthy t then Some (replaceTokens vars None t) else template
  | _, _ => template
  end.

Definition getDynamicPlaceholder (envVar : EnvVarMetadata.t) (variables : option (Obj.t string))
    : option string :=
  substituteTemplateVars (EnvVarMetadata.placeholder envVar) variables.

Module PromptOptions.
Record t := mk {
  yes : option bool;
  templateVars : option (Obj.t string);
}.
End PromptOptions.

(** [envVar.choices && envVar.choices.length > 0 && envVar.choices[0]]:
    the first choice when the list is non-empty and that choice is a
    non-empty string. *)
Definition usableFirstChoice (choices : option (list string)) : option string :=
  match choices with
  | Some (c :: _) => if truthy c then Some c else None
  | _ => None
  end.

(** [envVar.choices && envVar.choices.length > 0]. *)
Definition declaresChoices (choices : option (list string)) : bool :=
  match choices with
  | Some (_ :: _) => true
  | _ => false
  end.

Definition isWhitespace (c : ascii) : bool :=
  let n := nat_of_ascii c in
  ((n =? 32) || ((9 <=? n) && (n <=? 13)))%nat.

(** [value.trim() === '']. *)
Fixpoint isBlank (s : string) : bool :=
  match s with
  | EmptyString => true
  | String c s' => isWhitespace c && isBlank s'
  end.

Definition skipOptional : string := "Skip (optional)".
Definition enterCustomValue : string := "Enter custom value".

(** A list of strings offered by [select]: name and value coincide. *)
Definition plainChoices (l : list string) : list (string * string) :=
  map (fun c => (c, c)) l.

Section PromptForEnvVars.

Context (host : Host).

(** The body of the loop of [promptForEnvVars]: one variable. *)
Definition promptForEnvVar (serverName : string) (options : PromptOptions.t)
    (env : Obj.t string) (envVar : EnvVarMetadata.t) : M (Obj.t string) :=
  let name := EnvVarMetadata.name envVar in
  let choices := EnvVarMetadata.choices envVar in
  let isRequired := isTrue (EnvVarMetadata.isRequired envVar) in
  let isSecret := EnvVarMetadata.isSecret envVar in
  let yes := isTrue (PromptOptions.yes options) in
  let envValue := Obj.get (processEnv host) name in
  let defaultValue := nullish (EnvVarMetadata.default envVar) (EnvVarMetadata.value envVar) in
  if truthyOpt defaultValue then
    ret (Obj.set name (interpolate defaultValue) env)
  else if truthyOpt envValue && negb yes && isTTY host then
    let envValue := interpolate envValue in
    let redactedValue := redactValue envValue isSecret in
    let useEnvChoice := redactedValue ++ " (environment)" in
    if declaresChoices choices then
      let offered :=
        ([useEnvChoice] ++ match choices with Some cs => cs | None => [] end
         ++ [enterCustomValue]
         ++ (if negb isRequired then [skipOptional] else []))%list in
      let message := "[" ++ serverName ++ "] " ++ name in
      value <- select host message (plainChoices offered) ;;
      if value =? useEnvChoice then ret (Obj.set name envValue env)
      else if value =? skipOptional then ret env
      else if value =? enterCustomValue then
        customValue <-
          promptFn host isSecret ("[" ++ serverName ++ "] " ++ name ++ " (enter value)")
            None isRequired ;;
        ret (Obj.set name customValue env)
      else ret (Obj.set name value env)
    else
      let actionChoices :=
        List.app
          [("Use " ++ useEnvChoice, "use-env"); ("Enter new value", "enter-new")]
          (if negb isRequired then [(skipOptional, "skip")] else []) in
      let message := "[" ++ serverName ++ "] " ++ name in
      action <- select host message actionChoices ;;
      if action =? "use-env" then ret (Obj.set name envValue env)
      else if action =? "skip" then ret env
      else
        newValue <-
          promptFn host isSecret ("[" ++ serverName ++ "] " ++ name ++ " (enter value)")
            None isRequired ;;
        ret (Obj.set name newValue env)
  else if yes then
    match usableFirstChoice choices with
    | Some firstChoice => ret (Obj.set name firstChoice env)
    | None =>
        if isRequired then
          _ <- consoleLog ("   ⚠️  Skipping " ++ name) ;;
          ret env
        else ret env
    end
  else
    match usableFirstChoice choices with
    | Some firstChoice =>
        if isTTY host then
          let offered :=
            (match choices with Some cs => cs | None => [] end
             ++ (if negb isRequired then [skipOptional] else []))%list in
          value <- select host ("[" ++ serverName ++ "] " ++ name) (plainChoices offered) ;;
          if negb (value =? skipOptional) then ret (Obj.set name value env)
          else ret env
        else ret (Obj.set name firstChoice env)
    | None =>
        if isRequired then
          if isTTY host then
            let placeholder := getDynamicPlaceholder envVar (PromptOptions.templateVars options) in
            value <-
              promptFn host isSecret ("[" ++ serverName ++ "] " ++ name ++ " (required)")
                (if truthyOpt placeholder then placeholder else None) true ;;
            ret (Obj.set name value env)
          else ret env
        else if negb isRequired && negb yes && isTTY host then
          let description := EnvVarMetadata.description envVar in
          shouldSet <-
            confirm host
              ("[" ++ serverName ++ "] Set optional " ++ name ++ "? ("
               ++ (if truthy description then description else "optional") ++ ")")
              false ;;
          if shouldSet then
            let placeholder := getDynamicPlaceholder envVar (PromptOptions.templateVars options) in
            value <-
              promptFn host isSecret ("[" ++ serverName ++ "] " ++ name)
                (if truthyOpt placeholder then placeholder else None) false ;;
            if truthy value && negb (isBlank value) then ret (Obj.set name value env)
            else ret env
          else ret env
        else ret env
    end.

Definition promptForEnvVars (serverName : string) (envVars : list EnvVarMetadata.t)
    (options : PromptOptions.t) : M (Obj.t string) :=
  foldM (promptForEnvVar serverName options) envVars Obj.empty.

End PromptForEnvVars.

(* ================================================================= *)
(** ** [buildServerConfig] ([generate.ts]) *)

(** [String(n)] for a port number. *)
Definition stringOfNumber (n : N) : string := NilEmpty.string_of_uint (N.to_uint n).

Module BuildParams.
Record t := mk {
  combination : Combination.t;
  transport : string;
  packageName : string;
  packageDir : option string;
  binPath : option string;
  metadata : ServerMetadata.t;
  metadataReader : ServerMetadata.t -> TransportType -> option PackageConfig.t;
  httpHost : option string;
  httpPort : option N;
  useSource : option bool;
  quick : option bool;
  optionalVarsToPrompt : option (list string);
}.
End BuildParams.

(** The loop separating [dimensionValues] into [(envDimensions, argDimensions)]. *)
Definition separateDimensions (allPackageArgNames : list string)
    (dimensionValues : Obj.t string) : Obj.t string * Obj.t string :=
  fold_left
    (fun acc entry =>
       let '(envDimensions, argDimensions) := acc in
       let '(key, value) := entry in
       if includes allPackageArgNames key
       then (envDimensions, Obj.set key value argDimensions)
       else (Obj.set key value envDimensions, argDimensions))
    (Obj.entries dimensionValues) (Obj.empty, Obj.empty).

(** The loop computing [filteredDefaults]. *)
Definition filterDefaults (allEnvVars : list EnvVarMetadata.t)
    (combination : Combination.t) : Obj.t string :=
  fold_left
    (fun filteredDefaults entry =>
       let '(envName, envValue) := entry in
       match find (fun e => EnvVarMetadata.name e =? envName) allEnvVars with
       | None => Obj.set envName envValue filteredDefaults
       | Some envVarMeta =>
           if shouldPromptEnvVar (EnvVarMetadata.dependsOn envVarMeta)
                (Combination.dimensionValues combination)
           then Obj.set envName envValue filteredDefaults
           else filteredDefaults
       end)
    (Obj.entries (Combination.defaults combination)) Obj.empty.

(** The three-way choice of [envVarsToPrompt]; the [Set<string>] filter is a
    list, empty exactly when the set has size 0. *)
Definition selectEnvVarsToPrompt (optionalVarsToPrompt : option (list string))
    (allEnvVars envVarsMatchingDependsOn : list EnvVarMetadata.t)
    (prePopulatedEnvKeys : list string) (dimensionValues : Obj.t string)
    : list EnvVarMetadata.t :=
  match optionalVarsToPrompt with
  | None =>
      filter (fun envVar => negb (includes prePopulatedEnvKeys (EnvVarMetadata.name envVar)))
             envVarsMatchingDependsOn
  | Some [] =>
      filter (fun envVar =>
                negb (includes prePopulatedEnvKeys (EnvVarMetadata.name envVar))
                && isTrue (EnvVarMetadata.isRequired envVar))
             envVarsMatchingDependsOn
  | Some selected =>
      let requiredVars :=
        filter (fun envVar =>
                  negb (includes prePopulatedEnvKeys (EnvVarMetadata.name envVar))
                  && isTrue (EnvVarMetadata.isRequired envVar))
               envVarsMatchingDependsOn in
      let selectedOptionalVars :=
        filter (fun envVar =>
                  negb (isTrue (EnvVarMetadata.isRequired envVar))
                  && includes selected (EnvVarMetadata.name envVar)
                  && negb (includes prePopulatedEnvKeys (EnvVarMetadata.name envVar))
                  && shouldPromptEnvVar (EnvVarMetadata.dependsOn envVar) dimensionValues)
               allEnvVars in
      (requiredVars ++ selectedOptionalVars)%list
  end.

(** The stdio-shaped object literal
    [{ command, ...(args.length > 0 && { args }), ...(Object.keys(env).length > 0 && { env }) }]. *)
Definition stdioObject (command : string) (args : list string) (env : Obj.t string)
    : ServerConfigStdio.t :=
  ServerConfigStdio.mk command (omitIfEmpty args) (omitIfEmpty env).

(** [params.transport === 'http' ? 'streamable-http' : 'stdio']. *)
Definition transportTypeOf (transport : string) : TransportType :=
  if transport =? "http" then StreamableHttp else Stdio.

(** [params.transport === 'http' || params.transport === 'streamable-http']. *)
Definition isHttpTransport (transport : string) : bool :=
  (transport =? "http") || (transport =? "streamable-http").

Definition PromptFn : Type :=
  string -> list EnvVarMetadata.t -> PromptOptions.t -> M (Obj.t string).

Section BuildServerConfig.

Context (host : Host).

(** The environment of the configuration: everything up to
    [const env = { ...filteredDefaults, ...envDimensions, ...promptedEnv }]
    for the package [pkg] of the transport. *)
Definition resolveEnv (envPromptFn : PromptFn) (params : BuildParams.t)
    (pkg : PackageConfig.t) : M (Obj.t string) :=
  let combination := BuildParams.combination params in
  let dimensionValues := Combination.dimensionValues combination in
  let allPackageArgNames := map CliArgMetadata.name (PackageConfig.packageArguments pkg) in
  let '(envDimensions, _) := separateDimensions allPackageArgNames dimensionValues in
  let relevantEnvVars :=
    filter (fun envVar => includes (Combination.envKeys combination) (EnvVarMetadata.name envVar))
           (PackageConfig.environmentVariables pkg) in
  let envVarsMatchingDependsOn :=
    filter (fun envVar => shouldPromptEnvVar (EnvVarMetadata.dependsOn envVar) dimensionValues)
           relevantEnvVars in
  let allEnvVars := PackageConfig.environmentVariables pkg in
  let filteredDefaults := filterDefaults allEnvVars combination in
  let envDefaultKeys := Obj.keys filteredDefaults in
  let envDimensionKeys := Obj.keys envDimensions in
  let prePopulatedEnvKeys := (envDefaultKeys ++ envDimensionKeys)%list in
  let envVarsToPrompt :=
    selectEnvVarsToPrompt (BuildParams.optionalVarsToPrompt params)
      allEnvVars envVarsMatchingDependsOn prePopulatedEnvKeys dimensionValues in
  let promptContext := Combination.name combination ++ "/" ++ BuildParams.transport params in
  let templateVars :=
    let t0 := Obj.empty in
    let t1 := match BuildParams.httpHost params with
              | Some h => if truthy h then Obj.set "HOST" h t0 else t0
              | None => t0
              end in
    match BuildParams.httpPort params with
    | Some p => if (p =? 0)%N then t1 else Obj.set "PORT" (stringOfNumber p) t1
    | None => t1
    end in
  promptedEnv <-
    envPromptFn promptContext envVarsToPrompt
      (PromptOptions.mk (BuildParams.quick params) (Some templateVars)) ;;
  ret (Obj.spread [filteredDefaults; envDimensions; promptedEnv]).

(** [command] and the initial [args], or the message of the error thrown. *)
Definition baseCommand (params : BuildParams.t) : string + (string * list string) :=
  if isTrue (BuildParams.useSource params) then
    match BuildParams.packageDir params with
    | None => inl "packageDir is required when useSource is true"
    | Some packageDir =>
        if negb (truthy packageDir) then inl "packageDir is required when useSource is true"
        else
          match BuildParams.binPath params with
          | None => inl "binPath is required when useSource is true (check package.json bin entry)"
          | Some binPath =>
              if negb (truthy binPath)
              then inl "binPath is required when useSource is true (check package.json bin entry)"
              else
                let absolutePackageDir := pathResolve host packageDir in
                let relativePath := pathJoin host absolutePackageDir binPath in
                inr ("node", [relativePath])
          end
    end
  else inr ("npx", ["-y"; BuildParams.packageName params]).

(** The final [args]: the named arguments, then the port for http. *)
Definition completeArgs (params : BuildParams.t) (pkg : PackageConfig.t)
    (args : list string) : list string :=
  let combination := BuildParams.combination params in
  let allPackageArgNames := map CliArgMetadata.name (PackageConfig.packageArguments pkg) in
  let '(_, argDimensions) :=
    separateDimensions allPackageArgNames (Combination.dimensionValues combination) in
  let allArgValues := Obj.spread [Combination.argDefaults combination; argDimensions] in
  let args :=
    fold_left (fun args entry => let '(argName, argValue) := entry in
                                 (args ++ [argName; argValue])%list)
              (Obj.entries allArgValues) args in
  if isHttpTransport (BuildParams.transport params) then
    let port := match BuildParams.httpPort params with Some p => p | None => 3000%N end in
    (args ++ ["--port"; stringOfNumber port])%list
  else args.

(** The result is the configuration, or the message of the error thrown. *)
Definition buildServerConfig (envPromptFn : PromptFn) (params : BuildParams.t)
    : M (string + ServerConfig) :=
  let transportType := transportTypeOf (BuildParams.transport params) in
  match BuildParams.metadataReader params (BuildParams.metadata params) transportType with
  | None => ret (inl ("No " ++ BuildParams.transport params ++ " transport available"))
  | Some pkg =>
      env <- resolveEnv envPromptFn params pkg ;;
      match baseCommand params with
      | inl message => ret (inl message)
      | inr (command, args0) =>
          let args := completeArgs params pkg args0 in
          if isHttpTransport (BuildParams.transport params) then
            let startBlock := stdioObject command args env in
            let httpHost :=
              match BuildParams.httpHost params with Some h => h | None => "localhost" end in
            let httpPort :=
              match BuildParams.httpPort params with Some p => p | None => 3000%N end in
            ret (inr (HttpConfig
                        (ServerConfigHttp.mk
                           ("http://" ++ httpHost ++ ":" ++ stringOfNumber httpPort ++ "/mcp")
                           (Some startBlock))))
          else ret (inr (StdioConfig (stdioObject command args env)))
      end
  end.

End BuildServerConfig.

(* ================================================================= *)
(** ** [validateServerConfig] ([validate.ts]) *)

(** A parsed [args] field: an array of strings, or some other JSON value. *)
Inductive JsonArgs :=
| ArgsArray (items : list string)
| ArgsNotArray.

(** A stdio-shaped object as parsed from a configuration file: every field
    may be missing. *)
Module ParsedStdio.
Record t := mk {
  command : option string;
  args : option JsonArgs;
  env : option (Obj.t string);
}.
End ParsedStdio.

(** A server entry as parsed from a configuration file. *)
Module ParsedServerConfig.
Record t := mk {
  type : option string;
  url : option string;
  command : option string;
  args : option JsonArgs;
  env : option (Obj.t string);
  start : option ParsedStdio.t;
}.
End ParsedServerConfig.

Inductive Severity := SeverityError | SeverityWarning.

Module ValidationResult.
Record t := mk {
  valid : bool;
  severity : option Severity;
  message : option string;
}.
End ValidationResult.

Definition failure (s : Severity) (message : string) : ValidationResult.t :=
  ValidationResult.mk false (Some s) (Some message).

Definition isHttpServer (config : ParsedServerConfig.t) : bool :=
  match ParsedServerConfig.type config with
  | Some t => t =? "http"
  | None => false
  end.

Definition isStdioServer (config : ParsedServerConfig.t) : bool :=
  negb (isHttpServer config).

(** [args !== undefined && !Array.isArray(args)]. *)
Definition argsNotArray (args : option JsonArgs) : bool :=
  match args with
  | Some ArgsNotArray => true
  | _ => false
  end.

(** [args || []], read after the structural check. *)
Definition argsOrEmpty (args : option JsonArgs) : list string :=
  match args with
  | Some (ArgsArray items) => items
  | _ => []
  end.

Definition isLineTerminator (c : ascii) : bool :=
  let n := nat_of_ascii c in ((n =? 10) || (n =? 13))%nat.

Fixpoint endsWithBrace (s : string) : bool :=
  match s with
  | EmptyString => false
  | String c EmptyString => (c =? "}")%char
  | String c s' => negb (isLineTerminator c) && endsWithBrace s'
  end.

(** [envValue.match(/^\$\{.*\}$/)]: a dollar sign, an opening brace, any
    characters but line terminators (here: line feed and carriage return),
    and a closing brace at the very end. *)
Definition isPlaceholder (envValue : string) : bool :=
  match envValue with
  | String "$" (String "{" s') => endsWithBrace s'
  | _ => false
  end.

(** The first block of [validateServerConfig]: the structural error, if any. *)
Definition structuralError (config : ParsedServerConfig.t) : option ValidationResult.t :=
  if isHttpServer config then
    if negb (truthyOpt (ParsedServerConfig.url config)) then
      Some (failure SeverityError ("HTTP server missing required " ++ quoted "url" ++ " field"))
    else
      match ParsedServerConfig.start config with
      | Some start =>
          if negb (truthyOpt (ParsedStdio.command start)) then
            Some (failure SeverityError
                    ("HTTP server " ++ quoted "start" ++ " block missing required "
                     ++ quoted "command" ++ " field"))
          else if argsNotArray (ParsedStdio.args start) then
            Some (failure SeverityError ("HTTP server " ++ quoted "start.args" ++ " field must be an array"))
          else None
      | None => None
      end
  else
    if negb (truthyOpt (ParsedServerConfig.command config)) then
      Some (failure SeverityError ("Stdio server missing required " ++ quoted "command" ++ " field"))
    else if argsNotArray (ParsedServerConfig.args config) then
      Some (failure SeverityError ("Stdio server " ++ quoted "args" ++ " field must be an array"))
    else None.

(** [isStdioServer(serverConfig) ? serverConfig.env : serverConfig.start?.env]. *)
Definition envToCheck (config : ParsedServerConfig.t) : option (Obj.t string) :=
  if isStdioServer config then ParsedServerConfig.env config
  else match ParsedServerConfig.start config with
       | Some start => ParsedStdio.env start
       | None => None
       end.

(** [envToCheck?.[name]]. *)
Definition configuredValue (env : option (Obj.t string)) (name : string) : option string :=
  match env with
  | Some e => Obj.get e name
  | None => None
  end.

(** The filter computing [missingEnvVars]. *)
Definition missingEnvVars (pkg : PackageConfig.t) (env : option (Obj.t string))
    : list EnvVarMetadata.t :=
  filter
    (fun v =>
       if negb (isTrue (EnvVarMetadata.isRequired v)) then false
       else
         let envValue := configuredValue env (EnvVarMetadata.name v) in
         negb (truthyOpt envValue) || isPlaceholder (interpolate envValue))
    (PackageConfig.environmentVariables pkg).

(** [arg.split('=')[0]]. *)
Fixpoint beforeEquals (arg : string) : string :=
  match arg with
  | EmptyString => EmptyString
  | String c s' => if (c =? "=")%char then EmptyString else String c (beforeEquals s')
  end.

Definition unknownArgs (pkg : PackageConfig.t) (argsToCheck : list string) : list string :=
  let validArgNames := map CliArgMetadata.name (PackageConfig.packageArguments pkg) in
  filter
    (fun arg =>
       if negb (prefix "--" arg) then false
       else
         let argName := beforeEquals arg in
         if negb (truthy argName) then false
         else negb (includes validArgNames argName))
    argsToCheck.

Section Validate.

Context (host : Host).

Definition validateServerConfig (serverName : string) (serverConfig : ParsedServerConfig.t)
    : ValidationResult.t :=
  match structuralError serverConfig with
  | Some result => result
  | None =>
      match readServerMetadata host serverName with
      | inl errorMessage =>
          failure SeverityWarning
            ("Cannot verify: server package not found (" ++ errorMessage ++ ")")
      | inr metadata =>
          let transport := if isHttpServer serverConfig then StreamableHttp else Stdio in
          match getPackageForTransport metadata transport with
          | None =>
              failure SeverityError
                ("No "
                 ++ (if isHttpServer serverConfig then "streamable-http" else "stdio")
                 ++ " transport configuration found in server.json")
          | Some pkg =>
              let missing := missingEnvVars pkg (envToCheck serverConfig) in
              match missing with
              | _ :: _ =>
                  let varNames := join ", " (map EnvVarMetadata.name missing) in
                  failure SeverityWarning
                    ("Missing or placeholder required env vars: " ++ varNames)
              | [] =>
                  let argsToCheck :=
                    if isStdioServer serverConfig
                    then argsOrEmpty (ParsedServerConfig.args serverConfig)
                    else match ParsedServerConfig.start serverConfig with
                         | Some start => argsOrEmpty (ParsedStdio.args start)
                         | None => []
                         end in
                  match unknownArgs pkg argsToCheck with
                  | (_ :: _) as unknown =>
                      failure SeverityWarning
                        ("Unknown arguments: " ++ join ", " unknown
                         ++ ". May be outdated - consider regenerating config.")
                  | [] => ValidationResult.mk true None None
                  end
              end
          end
      end
  end.

End Validate.

(** A generated configuration as the validator reads it back from the file
    ([JSON.stringify] then [JSON.parse]). *)
Definition parsedStdio (c : ServerConfigStdio.t) : ParsedStdio.t :=
  ParsedStdio.mk
    (Some (ServerConfigStdio.command c))
    (option_map ArgsArray (ServerConfigStdio.args c))
    (ServerConfigStdio.env c).

Definition parsedConfig (config : ServerConfig) : ParsedServerConfig.t :=
  match config with
  | StdioConfig c =>
      ParsedServerConfig.mk None None
        (Some (ServerConfigStdio.command c))
        (option_map ArgsArray (ServerConfigStdio.args c))
        (ServerConfigStdio.env c)
        None
  | HttpConfig c =>
      ParsedServerConfig.mk (Some "http") (Some (ServerConfigHttp.url c))
        None None None
        (option_map parsedStdio (ServerConfigHttp.start c))
  end.

(* ================================================================= *)
(** ** The product in the words of the specification *)

(** Every ordered tuple of one choice per dimension, in dimension order,
    choices in declaration order within each dimension. *)
Fixpoint allTuples (choiceLists : list (list string)) : list (list string) :=
  match choiceLists with
  | [] => [[]]
  | cs :: rest => flat_map (fun c => map (cons c) (allTuples rest)) cs
  end.

(** [k1 * ... * kn]. *)
Definition productOfLengths (choiceLists : list (list string)) : nat :=
  fold_right Nat.mul 1 (map (@List.length string) choiceLists).

(* ================================================================= *)
(** ** Statements of the specification that the code is checked against *)

(** Cartesian completeness as the specification words it, for one list of
    dimensions: with choices everywhere, [k1 * ... * kn] tuples, pairwise
    distinct, each one choice per dimension in dimension order, every such
    tuple present. *)
Definition cartesianCompleteness {D} (choicesOf : D -> option (list string))
    (dimensions : list D) : Prop :=
  forallb (hasChoices choicesOf) dimensions = true ->
  let product := generateCartesianProduct choicesOf dimensions in
  let choiceLists := map (declaredChoices choicesOf) dimensions in
  List.length product = productOfLengths choiceLists /\
  NoDup product /\
  (forall tuple, In tuple product <-> Forall2 (fun c cs => In c cs) tuple choiceLists).

(** "An empty choices list in a non-first position yields zero tuples". *)
Definition emptyLaterYieldsNoTuples {D} (choicesOf : D -> option (list string))
    (before : list D) (d : D) (after : list D) : Prop :=
  before <> [] ->
  forallb (hasChoices choicesOf) before = true ->
  noChoices choicesOf d = true ->
  generateCartesianProduct choicesOf (before ++ d :: after)%list = [].

(** "When no active dimension has more than one choice the name is
    default", for every combination of the conditional generator. *)
Definition defaultNameWithoutMultiChoice (envVars : list EnvDim.t) : Prop :=
  forall c,
    In c (generateConditionalCombinations envVars) ->
    (forall d, In d envVars -> In (EnvDim.name d) (Combination.envKeys c) ->
               multiChoice d = false) ->
    Combination.name c = "default".

(** The values a name fragment of dimension [d] can carry: a declared choice
    of an active dimension of that name, or, when a tuple was cut short by
    an empty choice list, the empty string or the text [undefined]. *)
Definition fragmentValueOf (active : list EnvDim.t) (d : EnvDim.t) (v : string) : Prop :=
  v = "undefined" \/ v = "" \/
  exists d', In d' active /\ EnvDim.name d' = EnvDim.name d /\ In v (EnvDim.choices d').

(** A variable without usable first choice: no choice list, an empty one,
    or one that starts with the empty string. *)
Definition noUsableChoice (choices : option (list string)) : Prop :=
  choices = None \/ choices = Some [] \/ exists cs, choices = Some ("" :: cs).

(** The warning line of quick mode for a required variable that is skipped. *)
Definition skippingWarning (name : string) : Event :=
  ConsoleLog ("   ⚠️  Skipping " ++ name).

(** "In quick mode a variable without default that declares a non-empty
    choices list resolves to its first choice". *)
Definition quickUsesFirstChoice (host : Host) (serverName : string)
    (options : PromptOptions.t) (envVar : EnvVarMetadata.t) : Prop :=
  isTrue (PromptOptions.yes options) = true ->
  EnvVarMetadata.default envVar = None ->
  EnvVarMetadata.value envVar = None ->
  forall c cs env trace,
    EnvVarMetadata.choices envVar = Some (c :: cs) ->
    Obj.get (fst (promptForEnvVar host serverName options env envVar trace))
            (EnvVarMetadata.name envVar) = Some c.

(* ================================================================= *)
(** ** Example manifests and hosts *)

(** A host without terminal: no environment variable is set, no manifest is
    installed. *)
Definition batchHost : Host :=
  mkHost Obj.empty false (fun _ => "") (fun _ => false)
    (fun p => p) (fun dir file => dir ++ "/" ++ file) (fun _ => inl "not found").

Definition quickOptions : PromptOptions.t := PromptOptions.mk (Some true) None.

Definition LOG_FORMAT : EnvVarMetadata.t :=
  EnvVarMetadata.mk "LOG_FORMAT" None None "Log format" None
    (Some ["json"; "text"]) None false None None.

(** A required variable whose first declared choice is the empty string. *)
Definition REGION_blank_first : EnvVarMetadata.t :=
  EnvVarMetadata.mk "REGION" None None "Region" None
    (Some [""; "eu"]) (Some true) false None None.

Definition AUTH_MODE_var : EnvVarMetadata.t :=
  EnvVarMetadata.mk "AUTH_MODE" None None "Auth mode" None
    (Some ["loopback-oauth"; "dcr"]) None false None None.

Definition LOG_LEVEL_var : EnvVarMetadata.t :=
  EnvVarMetadata.mk "LOG_LEVEL" None (Some "info") "Log level" None None None false None None.

Definition DCR_STORE_URI_var : EnvVarMetadata.t :=
  EnvVarMetadata.mk "DCR_STORE_URI" None (Some "file://~/.mcp/dcr.json") "DCR store" None
    None None false None (Some [("AUTH_MODE", ["dcr"])]).

(** A second declaration of [DCR_STORE_URI], without condition. *)
Definition DCR_STORE_URI_unconditional : EnvVarMetadata.t :=
  EnvVarMetadata.mk "DCR_STORE_URI" None None "DCR store" None None None false None None.

(** A required variable that is relevant under [AUTH_MODE = dcr] only. *)
Definition DCR_CLIENT_ID_var : EnvVarMetadata.t :=
  EnvVarMetadata.mk "DCR_CLIENT_ID" None None "DCR client id" None
    None (Some true) false None (Some [("AUTH_MODE", ["dcr"])]).

Definition stdioPackage (environmentVariables : list EnvVarMetadata.t) : PackageConfig.t :=
  PackageConfig.mk "npm" "@test/server" Stdio None environmentVariables [].

Definition testServer (environmentVariables : list EnvVarMetadata.t) : ServerMetadata.t :=
  ServerMetadata.mk "test-server" "Test" "1.0.0" "Test" [stdioPackage environmentVariables].

Definition quickStdioParams (metadata : ServerMetadata.t) (combination : Combination.t)
    : BuildParams.t :=
  BuildParams.mk combination "stdio" "@test/server" None None metadata
    getPackageForTransport None None None (Some true) None.

(** The loopback combination with a default for the conditional
    [DCR_STORE_URI]. *)
Definition loopbackWithDefaults : Combination.t :=
  Combination.mk "auth_mode-loopback-oauth" ["AUTH_MODE"] []
    [("LOG_LEVEL", "info"); ("DCR_STORE_URI", "file://~/.mcp/dcr.json")] []
    [("AUTH_MODE", "loopback-oauth")].

(** The same, where [DCR_STORE_URI] is also given as a dimension value. *)
Definition loopbackWithStoreDimension : Combination.t :=
  Combination.mk "auth_mode-loopback-oauth" ["AUTH_MODE"; "DCR_STORE_URI"] []
    [("DCR_STORE_URI", "file://~/.mcp/dcr.json")] []
    [("AUTH_MODE", "loopback-oauth"); ("DCR_STORE_URI", "memory://")].

(* ================================================================= *)
(** ** Statements about the configuration builder and the validator *)

(** The [env] object of a configuration; an absent one has no key. *)
Definition emittedEnv (config : ServerConfig) : Obj.t string :=
  match stdioShape config with
  | Some shape =>
      match ServerConfigStdio.env shape with
      | Some env => env
      | None => Obj.empty
      end
  | None => Obj.empty
  end.

(** "A default whose variable is declared with a [dependsOn] that fails for
    the combination never appears in the emitted [env]". *)
Definition defaultNeverLeaks (host : Host) (params : BuildParams.t) : Prop :=
  forall pkg name envVar trace config,
    BuildParams.metadataReader params (BuildParams.metadata params)
      (transportTypeOf (BuildParams.transport params)) = Some pkg ->
    In name (Obj.keys (Combination.defaults (BuildParams.combination params))) ->
    In envVar (PackageConfig.environmentVariables pkg) ->
    EnvVarMetadata.name envVar = name ->
    shouldPromptEnvVar (EnvVarMetadata.dependsOn envVar)
      (Combination.dimensionValues (BuildParams.combination params)) = false ->
    fst (buildServerConfig host (promptForEnvVars host) params trace) = inr config ->
    Obj.has (emittedEnv config) name = false.

(** The values the validator can evaluate a [dependsOn] against: the [env]
    of the configuration itself. *)
Definition configuredEnv (config : ParsedServerConfig.t) : Obj.t string :=
  match envToCheck config with
  | Some env => env
  | None => Obj.empty
  end.

(** "The missing-variable check skips a required variable whose [dependsOn]
    does not hold for the values of the configuration". *)
Definition validatorSkipsUnmetDependsOn (pkg : PackageConfig.t)
    (config : ParsedServerConfig.t) : Prop :=
  forall v,
    In v (PackageConfig.environmentVariables pkg) ->
    isTrue (EnvVarMetadata.isRequired v) = true ->
    shouldPromptEnvVar (EnvVarMetadata.dependsOn v) (configuredEnv config) = false ->
    ~ In v (missingEnvVars pkg (envToCheck config)).

(** A host where the manifest of every server name is [metadata]. *)
Definition hostWithManifest (metadata : ServerMetadata.t) : Host :=
  mkHost Obj.empty false (fun _ => "") (fun _ => false)
    (fun p => p) (fun dir file => dir ++ "/" ++ file) (fun _ => inr metadata).

(** The configuration generated for the loopback combination, as read back
    from its file. *)
Definition loopbackConfigFile : ParsedServerConfig.t :=
  parsedConfig
    (StdioConfig
       (ServerConfigStdio.mk "npx" (Some ["-y"; "@test/server"])
          (Some [("AUTH_MODE", "loopback-oauth")]))).

(** The dimensions of the scenario of the specification. *)
Definition AUTH_MODE : EnvDim.t := EnvDim.mk "AUTH_MODE" ["loopback-oauth"; "dcr"] None.

Definition DCR_MODE : EnvDim.t :=
  EnvDim.mk "DCR_MODE" ["self-hosted"; "external"] (Some [("AUTH_MODE", ["dcr"])]).

(** A dimension whose choice list repeats an entry. *)
Definition repeatedChoice : EnvDim.t := EnvDim.mk "MODE" ["a"; "a"] None.

(** [DCR_MODE] with a single choice. *)
Definition DCR_MODE_single : EnvDim.t :=
  EnvDim.mk "DCR_MODE" ["self-hosted"] (Some [("AUTH_MODE", ["dcr"])]).

(** A dimension with an empty choice list. *)
Definition noChoiceDim : EnvDim.t := EnvDim.mk "REGION" [] None.

Definition loopbackDefaultsParams : BuildParams.t :=
  quickStdioParams (testServer [AUTH_MODE_var; LOG_LEVEL_var; DCR_STORE_URI_var])
    loopbackWithDefaults.

(** No dimension, installed mode, stdio, package [@org/server]. *)
Definition minimalStdioParams : BuildParams.t :=
  BuildParams.mk minimalCombination "stdio" "@org/server" None None (testServer [])
    getPackageForTransport None None None None None.

Definition dcrPackage : PackageConfig.t := stdioPackage [AUTH_MODE_var; DCR_CLIENT_ID_var].


(* ================================================================= *)
(** ** Configuration choices ([generate.ts]) *)

Module ConfigChoice.
Record t := mk {
  combination : Combination.t;
  transport : string;
  label : string;
}.
End ConfigChoice.

Definition TRANSPORT_MAP : Obj.t string :=
  [("stdio", "stdio"); ("http", "streamable-http")].

(** [TRANSPORT_MAP[t] || t], for the transport names the callers pass: a
    name that finds an inherited property of the object literal, such as
    [constructor], is outside the model. *)
Definition internalTransport (t : string) : string :=
  match Obj.get TRANSPORT_MAP t with
  | Some transport => if truthy transport then transport else t
  | None => t
  end.

Definition createConfigChoices (combinations : list Combination.t) (transports : list string)
    : list ConfigChoice.t :=
  flat_map
    (fun combination =>
       map (fun t =>
              ConfigChoice.mk combination (internalTransport t)
                (Combination.name combination ++ " (" ++ t ++ ")"))
           transports)
    combinations.


(* ================================================================= *)
(** ** [extractServerName] ([generate.ts]) *)

(** The text before the first slash and the text after it. *)
Fixpoint splitAtSlash (s : string) : option (string * string) :=
  match s with
  | EmptyString => None
  | String c s' =>
      if (c =? "/")%char then Some (EmptyString, s')
      else match splitAtSlash s' with
           | Some (before, after) => Some (String c before, after)
           | None => None
           end
  end.

(** [packageName.replace(/^@[^/]+\//, '')]: an at sign, one or more
    characters other than a slash, and a slash are removed from the start. *)
Definition stripScope (packageName : string) : string :=
  match packageName with
  | String "@" rest =>
      match splitAtSlash rest with
      | Some (org, after) => if truthy org then after else packageName
      | None => packageName
      end
  | _ => packageName
  end.

Definition extractServerName (packageName : string) : string :=
  let withoutOrg := stripScope packageName in
  if truthy withoutOrg then withoutOrg else "server".

(* ================================================================= *)
(** ** Matrix mode of [generateCommand] ([generate.ts]) *)

(** [envVar.isMandatoryForMatrix !== false]. *)
Definition mandatoryForMatrix (envVar : EnvVarMetadata.t) : bool :=
  match EnvVarMetadata.isMandatoryForMatrix envVar with
  | Some false => false
  | _ => true
  end.

(** Step 5: the environment variables that span the matrix. *)
Definition envVarsWithChoices (stdioPackage : PackageConfig.t) : list EnvVarMetadata.t :=
  filter (fun envVar =>
            declaresChoices (EnvVarMetadata.choices envVar) && mandatoryForMatrix envVar)
         (PackageConfig.environmentVariables stdioPackage).

Definition envVarsForMatrix (stdioPackage : PackageConfig.t) : list EnvDim.t :=
  map (fun envVar =>
         EnvDim.mk (EnvVarMetadata.name envVar)
           (match EnvVarMetadata.choices envVar with Some cs => cs | None => [] end)
           (EnvVarMetadata.dependsOn envVar))
      (envVarsWithChoices stdioPackage).

(** The loop collecting the defaults of the variables outside the matrix. *)
Definition matrixDefaults (stdioPackage : PackageConfig.t) : Obj.t string :=
  fold_left
    (fun defaults envVar =>
       if negb (existsb (fun e => EnvVarMetadata.name e =? EnvVarMetadata.name envVar)
                        (envVarsWithChoices stdioPackage))
       then
         let defaultValue :=
           nullish (EnvVarMetadata.default envVar) (EnvVarMetadata.value envVar) in
         if truthyOpt defaultValue
         then Obj.set (EnvVarMetadata.name envVar) (interpolate defaultValue) defaults
         else defaults
       else defaults)
    (PackageConfig.environmentVariables stdioPackage) Obj.empty.

(** [combo.defaults = defaults]. *)
Definition withDefaults (defaults : Obj.t string) (combo : Combination.t) : Combination.t :=
  Combination.mk (Combination.name combo) (Combination.envKeys combo)
    (Combination.argNames combo) defaults (Combination.argDefaults combo)
    (Combination.dimensionValues combo).

(** The combinations matrix mode generates files for. *)
Definition matrixCombinations (stdioPackage : PackageConfig.t) : list Combination.t :=
  let defaults := matrixDefaults stdioPackage in
  let combinations := generateConditionalCombinations (envVarsForMatrix stdioPackage) in
  map (withDefaults defaults) combinations.

(* ================================================================= *)
(** ** Interactive combinations of [generateCommand] ([generate.ts]) *)

Inductive DimensionType := EnvDimension | ArgDimension.

Module Dimension.
Record t := mk {
  name : string;
  type : DimensionType;
  choices : list string;
}.
End Dimension.

Inductive ConfigurationMode := ModeEnv | ModeArgs | ModeBoth | ModeNone.

Definition dimensionChoices (d : Dimension.t) : option (list string) :=
  Some (Dimension.choices d).

Definition isSkip (value : string) : bool := value =? "skip".

(** [dim.choices.filter((c) => c !== 'skip').length > 1]. *)
Definition severalRealChoices (dim : Dimension.t) : bool :=
  (1 <? List.length (filter (fun c => negb (isSkip c)) (Dimension.choices dim)))%nat.

(** The first loop of step 11: the parts of the name. *)
Definition interactiveNameParts (dimensions : list Dimension.t) (choiceValues : list string)
    : list string :=
  fold_left
    (fun nameParts ivalue =>
       let '(i, value) := ivalue in
       match nth_error dimensions i with
       | Some dim =>
           if negb (isSkip value) && severalRealChoices dim
           then (nameParts ++ [value])%list
           else nameParts
       | None => nameParts
       end)
    (indexed choiceValues) [].

(** The second loop of step 11: the dimension values. *)
Definition interactiveDimensionValues (dimensions : list Dimension.t)
    (choiceValues : list string) : Obj.t string :=
  fold_left
    (fun dimensionValues ivalue =>
       let '(i, value) := ivalue in
       match nth_error dimensions i with
       | Some dimension =>
           if negb (isSkip value)
           then Obj.set (Dimension.name dimension) value dimensionValues
           else dimensionValues
       | None => dimensionValues
       end)
    (indexed choiceValues) Obj.empty.

Definition configuresEnv (configMode : ConfigurationMode) : bool :=
  match configMode with ModeEnv | ModeBoth => true | _ => false end.

Definition configuresArgs (configMode : ConfigurationMode) : bool :=
  match configMode with ModeArgs | ModeBoth => true | _ => false end.

(** Step 11: one combination per tuple of the selected choices. *)
Definition interactiveCombinations (configMode : ConfigurationMode)
    (stdioPackage : PackageConfig.t) (defaults argDefaults : Obj.t string)
    (dimensionsWithFilteredChoices : list Dimension.t) : list Combination.t :=
  map
    (fun choiceValues =>
       let nameParts := interactiveNameParts dimensionsWithFilteredChoices choiceValues in
       let name :=
         match nameParts with
         | [] => "defaults"
         | _ :: _ => toLowerCase (join "-" nameParts)
         end in
       let dimensionValues :=
         interactiveDimensionValues dimensionsWithFilteredChoices choiceValues in
       let allEnvKeys :=
         map EnvVarMetadata.name (PackageConfig.environmentVariables stdioPackage) in
       let allArgNames :=
         map CliArgMetadata.name (PackageConfig.packageArguments stdioPackage) in
       Combination.mk name
         (if configuresEnv configMode then allEnvKeys else [])
         (if configuresArgs configMode then allArgNames else [])
         defaults argDefaults dimensionValues)
    (generateCartesianProduct dimensionChoices dimensionsWithFilteredChoices).

(* ================================================================= *)
(** ** [generateConfigObject] and [generateConfigFile] ([generate.ts]) *)

Module MCPConfiguration.
Record t := mk {
  mcpServers : Obj.t ServerConfig;
}.
End MCPConfiguration.

Definition generateConfigObject (host : Host) (envPromptFn : PromptFn)
    (serverName : string) (params : BuildParams.t) : M (string + MCPConfiguration.t) :=
  result <- buildServerConfig host envPromptFn params ;;
  match result with
  | inl message => ret (inl message)
  | inr serverConfig =>
      ret (inr (MCPConfiguration.mk (Obj.set serverName serverConfig Obj.empty)))
  end.

(** The file system as [generateConfigFile] uses it: [mkdirSync] and
    [writeFileSync] give the message of the error they throw, if any. *)
Record FileSystem := mkFileSystem {
  existsSync : string -> bool;
  mkdirSync : string -> option string;
  writeFileSync : string -> string -> option string;
}.

Inductive FileEffect :=
| MadeDirectory (path : string)
| WroteFile (path content : string).

Definition newline : string := String (ascii_of_nat 10) EmptyString.

(** [params.transport === 'streamable-http' ? 'http' : params.transport]
    and the name of the file. *)
Definition configFilename (combination : Combination.t) (transport : string) : string :=
  let transportName := if transport =? "streamable-http" then "http" else transport in
  ".mcp." ++ Combination.name combination ++ "-" ++ transportName ++ ".json".

(** The result is the boolean returned and the effects on the file system;
    the lines of [console.error] are recorded like those of [console.log].
    [stringify] is [JSON.stringify(config, null, 2)]. *)
Definition generateConfigFile (host : Host) (fs : FileSystem)
    (stringify : MCPConfiguration.t -> string) (envPromptFn : PromptFn)
    (serverName outputDir : string) (params : BuildParams.t)
    : M (bool * list FileEffect) :=
  let filename := configFilename (BuildParams.combination params) (BuildParams.transport params) in
  let filepath := pathJoin host outputDir filename in
  shouldOverwrite <-
    (if existsSync fs filepath && isTTY host
     then confirm host (filename ++ " already exists. Overwrite?") false
     else ret true) ;;
  if negb shouldOverwrite then
    _ <- consoleLog ("   ‚è≠Ô∏è  Skipped " ++ filename) ;;
    ret (false, [])
  else
    match mkdirSync fs outputDir with
    | Some message =>
        _ <- consoleLog ("   ‚ùå " ++ filename ++ ": " ++ message) ;;
        ret (false, [])
    | None =>
        result <- generateConfigObject host envPromptFn serverName params ;;
        match result with
        | inl message =>
            _ <- consoleLog ("   ‚ùå " ++ filename ++ ": " ++ message) ;;
            ret (false, [MadeDirectory outputDir])
        | inr config =>
            let content := stringify config ++ newline in
            match writeFileSync fs filepath content with
            | Some message =>
                _ <- consoleLog ("   ‚ùå " ++ filename ++ ": " ++ message) ;;
                ret (false, [MadeDirectory outputDir])
            | None =>
                _ <- consoleLog ("   ‚úÖ " ++ filename) ;;
                ret (true, [MadeDirectory outputDir; WroteFile filepath content])
            end
        end
    end.

(* ================================================================= *)
(** ** [validateCommand] ([validate.ts]) *)

(** What [JSON.parse] makes of the file: the message of its syntax error, or
    the [mcpServers] member when it is an object. *)
Inductive ParsedFile :=
| NotJson (message : string)
| Json (mcpServers : option (Obj.t ParsedServerConfig.t)).

(** The lines printed for one server, and whether it has an error and a
    warning. *)
Definition reportServer (host : Host) (flags : bool * bool)
    (entry : string * ParsedServerConfig.t) : M (bool * bool) :=
  let '(hasErrors, hasWarnings) := flags in
  let '(serverName, serverConfig) := entry in
  let validation := validateServerConfig host serverName serverConfig in
  if ValidationResult.valid validation then
    _ <- consoleLog ("  ✅ " ++ serverName ++ ": Valid configuration") ;;
    ret (hasErrors, hasWarnings)
  else
    match ValidationResult.severity validation with
    | Some SeverityError =>
        _ <- consoleLog ("  ❌ " ++ serverName ++ ": "
                         ++ interpolate (ValidationResult.message validation)) ;;
        ret (true, hasWarnings)
    | _ =>
        _ <- consoleLog ("  ⚠️  " ++ serverName ++ ": "
                         ++ interpolate (ValidationResult.message validation)) ;;
        ret (hasErrors, true)
    end.

(** [file] is [None] when the file does not exist.  The result is the
    message of the error thrown, if any. *)
Definition validateCommand (host : Host) (filePath : string) (file : option ParsedFile)
    : M (option string) :=
  match file with
  | None => ret (Some ("File not found: " ++ filePath))
  | Some (NotJson message) => ret (Some ("Invalid JSON: " ++ message))
  | Some (Json None) => ret (Some ("Config must have " ++ quoted "mcpServers" ++ " object"))
  | Some (Json (Some mcpServers)) =>
      _ <- consoleLog ("✅ " ++ filePath ++ " has valid JSON structure" ++ newline) ;;
      _ <- consoleLog ("Server Configuration Validation:" ++ newline) ;;
      match Obj.entries mcpServers with
      | [] =>
          _ <- consoleLog "  ⚠️  No servers configured" ;;
          ret None
      | servers =>
          flags <- foldM (reportServer host) servers (false, false) ;;
          let '(hasErrors, hasWarnings) := flags in
          _ <- consoleLog "" ;;
          if hasErrors then ret (Some "Validation failed with errors")
          else if hasWarnings then
            _ <- consoleLog "⚠️  Validation passed with warnings" ;;
            ret None
          else
            _ <- consoleLog "✅ All validations passed" ;;
            ret None
      end
  end.

(* ================================================================= *)
(** ** Further example data and statements *)

(** A combination with the one dimension value [AUTH_MODE = oauth]. *)
Definition oauthCombination : Combination.t :=
  Combination.mk "oauth" ["AUTH_MODE"] [] [] [] [("AUTH_MODE", "oauth")].

(** A variable with choices that is excluded from the matrix. *)
Definition LOG_LEVEL_optional : EnvVarMetadata.t :=
  EnvVarMetadata.mk "LOG_LEVEL" None (Some "info") "Log level" None
    (Some ["debug"; "info"]) None false (Some false) None.

(** A stdio package for matrix mode: one dimension, one excluded variable
    with a default, one conditional default. *)
Definition matrixPackage : PackageConfig.t :=
  stdioPackage [AUTH_MODE_var; LOG_LEVEL_optional; DCR_STORE_URI_var].

(** The dimension [AUTH_MODE] after step 9, where the user kept [oauth]
    and ticked [skip]. *)
Definition AUTH_MODE_selected : Dimension.t :=
  Dimension.mk "AUTH_MODE" EnvDimension ["oauth"; "skip"].

(** The two combinations of step 11 for [AUTH_MODE_selected]. *)
Definition skippedCombination : Combination.t :=
  Combination.mk "defaults" ["AUTH_MODE"] [] [("LOG_LEVEL", "info")] [] [].

Definition oauthSelectedCombination : Combination.t :=
  Combination.mk "defaults" ["AUTH_MODE"] [] [("LOG_LEVEL", "info")] []
    [("AUTH_MODE", "oauth")].

(** A required secret without default and without choices. *)
Definition API_KEY_required : EnvVarMetadata.t :=
  EnvVarMetadata.mk "API_KEY" None None "Key of the service" None None
    (Some true) true None None.

(** A terminal where [LOG_LEVEL] is set in the process environment. *)
Definition interactiveHost : Host :=
  mkHost [("LOG_LEVEL", "debug")] true (fun _ => "debug") (fun _ => true)
    (fun p => p) (fun a b => a ++ "/" ++ b) (fun _ => inl "not installed").

(** The parameters of a choice for the transport [http], whose internal
    name is [streamable-http], and the configuration built for it. *)
Definition httpChoiceParams : BuildParams.t :=
  BuildParams.mk minimalCombination "streamable-http" "@org/server" None None (testServer [])
    getPackageForTransport None None None None None.

Definition httpChoiceConfig : ServerConfig :=
  HttpConfig
    (ServerConfigHttp.mk "http://localhost:3000/mcp"
       (Some (ServerConfigStdio.mk "npx" (Some ["-y"; "@org/server"; "--port"; "3000"]) None))).

(** A package with the named argument [--log-level], and a combination
    with an env dimension and an arg dimension. *)
Definition logLevelArg : CliArgMetadata.t :=
  CliArgMetadata.mk "--log-level" None None (Some ["debug"; "info"]).

Definition packageWithArg : PackageConfig.t :=
  PackageConfig.mk "npm" "@test/server" Stdio None [AUTH_MODE_var] [logLevelArg].

Definition dcrDebugCombination : Combination.t :=
  Combination.mk "dcr-debug" ["AUTH_MODE"] ["--log-level"] [] []
    [("AUTH_MODE", "dcr"); ("--log-level", "debug")].

Definition dcrDebugParams : BuildParams.t :=
  BuildParams.mk dcrDebugCombination "stdio" "@test/server" None None
    (ServerMetadata.mk "test-server" "Test" "1.0.0" "Test" [packageWithArg])
    getPackageForTransport None None None None None.

Definition dcrDebugConfig : ServerConfig :=
  StdioConfig
    (ServerConfigStdio.mk "npx" (Some ["-y"; "@test/server"; "--log-level"; "debug"])
       (Some [("AUTH_MODE", "dcr")])).

(** A manifest with a stdio and a streamable-http package, neither of which
    declares a package argument. *)
Definition httpManifest : ServerMetadata.t :=
  ServerMetadata.mk "test-server" "Test" "1.0.0" "Test"
    [stdioPackage []; PackageConfig.mk "npm" "@org/server" StreamableHttp None [] []].

(** The test of [validateCommand] that sets [hasErrors]: the result is not
    valid and its severity is [error]. *)
Definition isErrorResult (validation : ValidationResult.t) : bool :=
  negb (ValidationResult.valid validation)
  && match ValidationResult.severity validation with
     | Some SeverityError => true
     | _ => false
     end.

(** A manifest whose stdio package requires [API_KEY]. *)
Definition apiKeyManifest : ServerMetadata.t := testServer [API_KEY_required].

(** A file system where every path exists and nothing fails. *)
Definition existingFiles : FileSystem :=
  mkFileSystem (fun _ => true) (fun _ => None) (fun _ _ => None).

(** A user on a terminal who declines every confirmation. *)
Definition decliningHost : Host :=
  mkHost Obj.empty true (fun _ => "") (fun _ => false)
    (fun p => p) (fun dir file => dir ++ "/" ++ file) (fun _ => inl "not found").

(** A conditional dimension that depends on the conditional [DCR_MODE]. *)
Definition DCR_OPTION_chained : EnvDim.t :=
  EnvDim.mk "DCR_OPTION" ["a"; "b"] (Some [("DCR_MODE", ["external"])]).

(** The combination generated for [AUTH_MODE = dcr], [DCR_MODE = external]. *)
Definition dcrExternalCombination : Combination.t :=
  Combination.mk "auth_mode-dcr_dcr_mode-external" ["AUTH_MODE"; "DCR_MODE"] [] [] []
    [("AUTH_MODE", "dcr"); ("DCR_MODE", "external")].

(** A user who answers a selection with one of the values offered. *)
Definition answersFromChoices (host : Host) : Prop :=
  forall trace message choices,
    choices <> [] ->
    In (answerText host (trace ++ [Select message choices])%list) (map snd choices).

(** A user on a terminal who takes the first value offered and types
    [typed] when asked for text. *)
Definition firstChoiceHost : Host :=
  mkHost Obj.empty true
    (fun trace =>
       match last trace (ConsoleLog "") with
       | Select _ ((_, value) :: _) => value
       | _ => "typed"
       end)
    (fun _ => true)
    (fun p => p) (fun dir file => dir ++ "/" ++ file) (fun _ => inl "not found").

(** An entry for a remote http server, and a manifest whose
    streamable-http package requires [API_KEY]. *)
Definition remoteServerEntry : ParsedServerConfig.t :=
  ParsedServerConfig.mk (Some "http") (Some "https://example.com/mcp") None None None None.

Definition remotePackage : PackageConfig.t :=
  PackageConfig.mk "npm" "@org/server" StreamableHttp None
    [LOG_LEVEL_var; API_KEY_required] [].

Definition remoteManifest : ServerMetadata.t :=
  ServerMetadata.mk "test-server" "Test" "1.0.0" "Test" [stdioPackage []; remotePackage].

(* ================================================================= *)
(** * Properties *)

(** ** The cartesian product *)

Section CartesianProductFacts.

Context {D : Type} (choicesOf : D -> option (list string)).

Let gcp := generateCartesianProduct choicesOf.

Lemma flat_map_singleton {A B} (f : A -> B) (l : list A) :
  flat_map (fun x => [f x]) l = map f l.
Proof. induction l as [|x l IH]; simpl; [reflexivity | now rewrite IH]. Qed.

Lemma hasChoices_inv d :
  hasChoices choicesOf d = true ->
  exists c cs, choicesOf d = Some (c :: cs).
Proof.
  unfold hasChoices, noChoices.
  destruct (choicesOf d) as [[|c cs]|]; simpl; try discriminate.
  intros _. now exists c, cs.
Qed.

Lemma noChoices_product d rest :
  noChoices choicesOf d = true -> gcp (d :: rest) = [[]].
Proof.
  unfold gcp, noChoices. simpl.
  destruct (choicesOf d) as [[|c cs]|]; simpl; try discriminate; reflexivity.
Qed.

(** With choices everywhere the source computes the specified product. *)
Lemma product_allTuples dims :
  forallb (hasChoices choicesOf) dims = true ->
  gcp dims = allTuples (map (declaredChoices choicesOf) dims).
Proof.
  induction dims as [|first rest IH]; [reflexivity|].
  simpl forallb. intros H. apply andb_true_iff in H as [Hf Hr].
  specialize (IH Hr).
  destruct (hasChoices_inv _ Hf) as (c & cs & Hc).
  assert (Hd : declaredChoices choicesOf first = c :: cs)
    by (unfold declaredChoices; now rewrite Hc).
  unfold gcp in *. cbn [generateCartesianProduct map allTuples].
  rewrite Hc, Hd.
  destruct rest as [|r rest'].
  - symmetry. apply (flat_map_singleton (fun c => [c]) (c :: cs)).
  - rewrite IH. reflexivity.
Qed.

(** The product is never the empty list of tuples. *)
Lemma product_nonempty dims : gcp dims <> [].
Proof.
  unfold gcp.
  induction dims as [|first rest IH]; [discriminate|].
  cbn [generateCartesianProduct].
  destruct (choicesOf first) as [[|c cs]|]; try discriminate.
  remember (generateCartesianProduct choicesOf rest) as restProduct eqn:E.
  destruct rest as [|r rest']; [discriminate|].
  destruct restProduct as [|t ts]; [contradiction | discriminate].
Qed.

(** An empty or missing choice list cuts the product at that dimension. *)
Lemma product_truncated pre d post :
  forallb (hasChoices choicesOf) pre = true ->
  noChoices choicesOf d = true ->
  gcp (pre ++ d :: post) = gcp pre.
Proof.
  intros Hpre Hd.
  induction pre as [|first rest IH].
  - simpl app. now rewrite noChoices_product.
  - simpl forallb in Hpre. apply andb_true_iff in Hpre as [Hf Hr].
    specialize (IH Hr).
    destruct (hasChoices_inv _ Hf) as (c & cs & Hc).
    unfold gcp in *. simpl. rewrite Hc.
    destruct rest as [|r rest'].
    + simpl app. change (generateCartesianProduct choicesOf (d :: post)) with (gcp (d :: post)).
      rewrite noChoices_product by assumption.
      symmetry. apply (flat_map_singleton (fun c => [c]) (c :: cs)).
    + simpl app in *. rewrite IH. reflexivity.
Qed.

(** Every entry of a tuple is a declared choice of the dimension at its
    position. *)
Lemma product_entries dims t i x :
  In t (gcp dims) -> nth_error t i = Some x ->
  exists d, nth_error dims i = Some d /\ In x (declaredChoices choicesOf d).
Proof.
  unfold gcp. revert t i.
  induction dims as [|first rest IH]; intros t i Ht Hx.
  - destruct Ht as [<-|[]]. now destruct i.
  - cbn [generateCartesianProduct] in Ht.
    assert (Hempty : ~ In t [[]]) by (intros [<-|[]]; now destruct i).
    destruct (choicesOf first) as [[|c cs]|] eqn:Ec; try contradiction.
    assert (Hd : declaredChoices choicesOf first = c :: cs)
      by (unfold declaredChoices; now rewrite Ec).
    destruct rest as [|r rest'].
    + apply in_map_iff in Ht as (x0 & <- & Hx0).
      destruct i as [|i]; [|now destruct i].
      injection Hx as <-. exists first. rewrite Hd. now split.
    + apply in_flat_map in Ht as (x0 & Hx0 & Ht).
      apply in_map_iff in Ht as (t' & <- & Ht').
      destruct i as [|i].
      * injection Hx as <-. exists first. rewrite Hd. now split.
      * simpl in Hx. destruct (IH t' i Ht' Hx) as (d & Hd' & Hin).
        exists d. now split.
Qed.

End CartesianProductFacts.

Section AllTuplesFacts.

Lemma allTuples_length css :
  List.length (allTuples css) = productOfLengths css.
Proof.
  unfold productOfLengths.
  induction css as [|cs rest IH]; [reflexivity|].
  simpl. rewrite <- IH.
  apply flat_map_constant_length. intros c _. apply length_map.
Qed.

Lemma allTuples_In css t :
  In t (allTuples css) <-> Forall2 (fun c cs => In c cs) t css.
Proof.
  revert t. induction css as [|cs rest IH]; intros t; simpl.
  - split.
    + intros [<-|[]]. constructor.
    + intros H. inversion H. now left.
  - rewrite in_flat_map. split.
    + intros (c & Hc & Ht). apply in_map_iff in Ht as (t' & <- & Ht').
      constructor; [assumption | now apply IH].
    + intros H. inversion H as [|c cs' t' rest' Hc Ht']; subst.
      exists c. split; [assumption|]. apply in_map. now apply IH.
Qed.

Lemma allTuples_NoDup css :
  Forall (@NoDup string) css -> NoDup (allTuples css).
Proof.
  induction 1 as [|cs rest Hcs Hrest IH]; simpl.
  - constructor; [intros [] | constructor].
  - induction Hcs as [|c cs Hc Hcs IHcs]; simpl; [constructor|].
    apply NoDup_app.
    + apply NoDup_map_NoDup_ForallPairs; [|assumption].
      intros x y _ _ E. now inversion E.
    + assumption.
    + intros t Ht Ht'.
      apply in_map_iff in Ht as (t1 & <- & _).
      apply in_flat_map in Ht' as (c' & Hc' & Ht').
      apply in_map_iff in Ht' as (t2 & E & _).
      inversion E; subst. contradiction.
Qed.

End AllTuplesFacts.

(* ================================================================= *)
(** ** Records used as maps *)

Section ObjFacts.

Context {V : Type}.

Lemma get_set_same (k : string) (v : V) o : Obj.get (Obj.set k v o) k = Some v.
Proof.
  induction o as [|[k' v'] o IH]; simpl.
  - now rewrite String.eqb_refl.
  - destruct (k =? k') eqn:E; simpl; rewrite E; [reflexivity | exact IH].
Qed.

Lemma get_set_other (k k' : string) (v : V) o :
  k <> k' -> Obj.get (Obj.set k v o) k' = Obj.get o k'.
Proof.
  intros Hne. induction o as [|[k0 v0] o IH]; simpl.
  - apply not_eq_sym, String.eqb_neq in Hne. now rewrite Hne.
  - destruct (k =? k0) eqn:E; simpl.
    + apply String.eqb_eq in E. subst k0.
      apply not_eq_sym, String.eqb_neq in Hne. now rewrite Hne.
    + now rewrite IH.
Qed.

Lemma in_keys_set (k k' : string) (v : V) o :
  In k' (Obj.keys (Obj.set k v o)) <-> k' = k \/ In k' (Obj.keys o).
Proof.
  unfold Obj.keys. induction o as [|[k0 v0] o IH]; simpl.
  - intuition auto.
  - destruct (k =? k0) eqn:E; simpl.
    + apply String.eqb_eq in E. subst k0. intuition auto.
    + rewrite IH. intuition auto.
Qed.

Lemma get_None_iff o (k : string) :
  @Obj.get V o k = None <-> ~ In k (Obj.keys o).
Proof.
  unfold Obj.keys. induction o as [|[k0 v0] o IH]; simpl.
  - intuition auto.
  - destruct (k =? k0) eqn:E.
    + apply String.eqb_eq in E. subst. split; [discriminate | intros H; exfalso; auto].
    + apply String.eqb_neq in E. rewrite IH. intuition auto.
Qed.

Lemma has_true_iff o (k : string) :
  @Obj.has V o k = true <-> In k (Obj.keys o).
Proof.
  unfold Obj.has. destruct (Obj.get o k) eqn:E.
  - split; [intros _ | reflexivity].
    destruct (in_dec string_dec k (Obj.keys o)) as [H|H]; [exact H|].
    apply get_None_iff in H. congruence.
  - apply get_None_iff in E. split; [discriminate | contradiction].
Qed.

Lemma in_keys_assign (target src : Obj.t V) k :
  In k (Obj.keys (Obj.assign target src)) <-> In k (Obj.keys target) \/ In k (Obj.keys src).
Proof.
  unfold Obj.assign, Obj.entries. revert target.
  induction src as [|[k0 v0] src IH]; intros target; simpl.
  - intuition auto.
  - rewrite IH, in_keys_set. simpl. intuition auto.
Qed.

Lemma in_keys_spread (srcs : list (Obj.t V)) k :
  In k (Obj.keys (Obj.spread srcs)) <-> exists src, In src srcs /\ In k (Obj.keys src).
Proof.
  unfold Obj.spread.
  assert (G : forall acc,
             In k (Obj.keys (fold_left Obj.assign srcs acc)) <->
             In k (Obj.keys acc) \/ exists src, In src srcs /\ In k (Obj.keys src)).
  { induction srcs as [|s srcs IH]; intros acc; simpl.
    - split; [auto | intros [H|(src & [] & _)]; exact H].
    - rewrite IH, in_keys_assign. split.
      + intros [[H|H]|(src & Hs & Hk)]; eauto 6.
      + intros [H|(src & [<-|Hs] & Hk)]; eauto 6. }
  rewrite G. simpl. split; [intros [[]|H]; exact H | auto].
Qed.

Lemma get_assign_not_in (target src : Obj.t V) k :
  ~ In k (Obj.keys src) -> Obj.get (Obj.assign target src) k = Obj.get target k.
Proof.
  unfold Obj.assign, Obj.entries. revert target.
  induction src as [|[k0 v0] src IH]; intros target Hk; simpl; [reflexivity|].
  simpl in Hk. rewrite IH by tauto. apply get_set_other. tauto.
Qed.

Lemma get_Some_In o (k : string) (v : V) : Obj.get o k = Some v -> In (k, v) o.
Proof.
  induction o as [|[k0 v0] o IH]; simpl; [discriminate|].
  destruct (k =? k0) eqn:E.
  - apply String.eqb_eq in E. subst. intros H. injection H as <-. now left.
  - intros H. right. now apply IH.
Qed.

Lemma in_entries_set (k k0 : string) (v v0 : V) o :
  In (k, v) (Obj.set k0 v0 o) -> (k = k0 /\ v = v0) \/ In (k, v) o.
Proof.
  induction o as [|[k1 v1] o IH]; simpl.
  - intros [H|[]]. injection H as <- <-. now left.
  - destruct (k0 =? k1) eqn:E; simpl.
    + apply String.eqb_eq in E. subst k1.
      intros [H|H]; [injection H as <- <-; now left | now right; right].
    + intros [H|H]; [now right; left|].
      apply IH in H as [H|H]; [now left | now right; right].
Qed.

Lemma in_entries_assign (target src : Obj.t V) (k : string) (v : V) :
  In (k, v) (Obj.assign target src) -> In (k, v) target \/ In (k, v) src.
Proof.
  unfold Obj.assign, Obj.entries. revert target.
  induction src as [|[k0 v0] src IH]; intros target; simpl; [auto|].
  intros H. apply IH in H as [H|H]; [|now right; right].
  apply in_entries_set in H as [[-> ->]|H]; [right; now left | now left].
Qed.

End ObjFacts.

(* ================================================================= *)
(** ** Arrays with their indices *)

Lemma map_snd_indexed {A} (l : list A) : map snd (indexed l) = l.
Proof.
  unfold indexed. generalize 0.
  induction l as [|x l IH]; intros n; simpl; [reflexivity | now rewrite IH].
Qed.

Lemma map_snd_filter {A B} (p : B -> bool) (l : list (A * B)) :
  map snd (filter (fun x => p (snd x)) l) = filter p (map snd l).
Proof.
  induction l as [|x l IH]; simpl; [reflexivity|].
  destruct (p (snd x)); simpl; now rewrite IH.
Qed.

Lemma combine_map_map {A B C} (f : A -> B) (g : A -> C) (l : list A) :
  combine (map f l) (map g l) = map (fun x => (f x, g x)) l.
Proof. induction l as [|x l IH]; simpl; [reflexivity | now rewrite IH]. Qed.

Lemma in_indexed {A} (l : list A) (i : nat) (x : A) :
  In (i, x) (indexed l) -> nth_error l i = Some x.
Proof.
  unfold indexed.
  assert (G : forall start, In (i, x) (combine (seq start (List.length l)) l) ->
                            start <= i /\ nth_error l (i - start) = Some x).
  { induction l as [|y l IH]; intros start; simpl; [intros []|].
    intros [H|H].
    - injection H as <- <-. split; [lia|]. now rewrite Nat.sub_diag.
    - apply IH in H as [Hle H]. split; [lia|].
      replace (i - start) with (S (i - S start)) by lia. exact H. }
  intros H. apply G in H as [_ H]. now rewrite Nat.sub_0_r in H.
Qed.

Lemma Forall2_map_map {A B C} (R : B -> C -> Prop) (f : A -> B) (g : A -> C) (l : list A) :
  (forall x, In x l -> R (f x) (g x)) -> Forall2 R (map f l) (map g l).
Proof.
  induction l as [|x l IH]; intros H; simpl; constructor.
  - apply H. now left.
  - apply IH. intros y Hy. apply H. now right.
Qed.

Lemma filter_none {A} (p : A -> bool) (l : list A) :
  (forall x, In x l -> p x = false) -> filter p l = [].
Proof.
  induction l as [|x l IH]; intros H; simpl; [reflexivity|].
  rewrite (H x) by now left. apply IH. intros y Hy. apply H. now right.
Qed.

(* ================================================================= *)
(** ** Dimension values of a combination *)

Lemma in_keys_assignDimensionValues dims values target k :
  In k (Obj.keys (assignDimensionValues dims values target)) <->
  In k (Obj.keys target) \/ In k (map EnvDim.name dims).
Proof.
  unfold assignDimensionValues.
  rewrite <- (map_snd_indexed dims) at 2.
  generalize (indexed dims) as l. intros l. revert target.
  induction l as [|[i dim] l IH]; intros target; simpl.
  - intuition auto.
  - rewrite IH, in_keys_set. intuition auto.
Qed.

Lemma in_entries_assignDimensionValues dims values target k v :
  In (k, v) (assignDimensionValues dims values target) ->
  In (k, v) target \/
  exists i d, nth_error dims i = Some d /\ EnvDim.name d = k /\
              v = orEmpty (nth_error values i).
Proof.
  unfold assignDimensionValues.
  assert (G : forall (l : list (nat * EnvDim.t)) (acc : Obj.t string),
    In (k, v) (fold_left
                 (fun acc idim =>
                    let '(i, dim) := idim in
                    Obj.set (EnvDim.name dim) (orEmpty (nth_error values i)) acc) l acc) ->
    In (k, v) acc \/
    exists i d, In (i, d) l /\ EnvDim.name d = k /\ v = orEmpty (nth_error values i)).
  { induction l as [|[i d] l IH]; intros acc; simpl; [auto|].
    intros H. apply IH in H as [H|(i' & d' & H1 & H2 & H3)].
    - apply in_entries_set in H as [[-> ->]|H]; [|now left].
      right. exists i, d. repeat split. now left.
    - right. exists i', d'. repeat split; auto. }
  intros H. apply G in H as [H|(i & d & H1 & H2 & H3)]; [now left|].
  right. exists i, d. split; [now apply in_indexed|]. now split.
Qed.

(** A recorded dimension value is a declared choice of a dimension of that
    name, or empty. *)
Lemma recorded_value dims values k v :
  In values (generateCartesianProduct envChoices dims) ->
  In (k, v) (assignDimensionValues dims values Obj.empty) ->
  v = "" \/ exists d, In d dims /\ EnvDim.name d = k /\ In v (EnvDim.choices d).
Proof.
  intros Hv H.
  apply in_entries_assignDimensionValues in H as [[]|(i & d & Hd & Hk & ->)].
  destruct (nth_error values i) as [x|] eqn:Ex; [|now left].
  right. destruct (product_entries _ _ _ _ _ Hv Ex) as (d0 & Hd0 & Hin).
  rewrite Hd in Hd0. injection Hd0 as <-.
  exists d. split; [now apply nth_error_In in Hd|]. now split.
Qed.

(** The shape of every combination pushed for one tuple of primary values. *)
Lemma combinationsForPrimary_shape primaryDims conditionalDims primaryValues c :
  In primaryValues (generateCartesianProduct envChoices primaryDims) ->
  In c (combinationsForPrimary primaryDims conditionalDims primaryValues) ->
  exists applicable values,
    incl applicable conditionalDims /\
    Combination.envKeys c = map EnvDim.name (primaryDims ++ applicable)%list /\
    Combination.argNames c = [] /\
    (forall k, In k (Obj.keys (Combination.dimensionValues c)) <->
               In k (map EnvDim.name (primaryDims ++ applicable)%list)) /\
    Forall2 (fragmentValueOf (primaryDims ++ applicable)%list)
      (filter multiChoice (primaryDims ++ applicable)%list) values /\
    Combination.name c =
      nameOfParts "default"
        (map (fun dv => nameFragment (EnvDim.name (fst dv)) (snd dv))
             (combine (filter multiChoice (primaryDims ++ applicable)%list) values)).
Proof.
  intros Hpv. unfold combinationsForPrimary.
  pose proof (recorded_value primaryDims primaryValues) as Hrec.
  specialize (fun k v => Hrec k v Hpv).
  set (base := assignDimensionValues primaryDims primaryValues Obj.empty) in *.
  set (applicable := filter _ conditionalDims).
  assert (Hincl : incl applicable conditionalDims) by (apply incl_filter).
  assert (Hbase : forall k, In k (Obj.keys (Obj.spread [base])) <->
                            In k (map EnvDim.name primaryDims)).
  { intros k. rewrite in_keys_spread. unfold base. split.
    - intros (src & [<-|[]] & Hk).
      apply in_keys_assignDimensionValues in Hk as [[]|Hk]. exact Hk.
    - intros Hk. eexists. split; [left; reflexivity|].
      apply in_keys_assignDimensionValues. now right. }
  clearbody base applicable.
  destruct applicable as [|a applicable'] eqn:Eapp.
  - intros [<-|[]]. exists [].
    exists (map (fun idim : nat * EnvDim.t => interpolate (nth_error primaryValues (fst idim)))
                (filter (fun idim => multiChoice (snd idim)) (indexed primaryDims))).
    rewrite app_nil_r. simpl.
    repeat split; try apply Hbase.
    + apply incl_nil_l.
    + rewrite <- (map_snd_indexed primaryDims) at 2.
      rewrite <- map_snd_filter. apply Forall2_map_map.
      intros [i d] Hid. apply filter_In in Hid as [Hid _]. apply in_indexed in Hid.
      simpl. destruct (nth_error primaryValues i) as [x|] eqn:Ex; [|now left].
      right; right.
      destruct (product_entries _ _ _ _ _ Hpv Ex) as (d0 & Hd0 & Hin).
      rewrite Hid in Hd0. injection Hd0 as <-.
      exists d. split; [now apply nth_error_In in Hid|]. now split.
    + f_equal. rewrite <- (map_snd_indexed primaryDims) at 2.
      rewrite <- map_snd_filter, combine_map_map, map_map.
      apply map_ext. intros [i dim]. reflexivity.
  - rewrite <- Eapp in *. clear Eapp a applicable'.
    intros Hc. apply in_map_iff in Hc as (condValues & <- & Hcv).
    exists applicable.
    set (full := assignDimensionValues applicable condValues (Obj.spread [base])).
    exists (map (fun dim => interpolate (Obj.get full (EnvDim.name dim)))
                (filter multiChoice (primaryDims ++ applicable)%list)).
    simpl. repeat split; try assumption.
    + unfold full. intros Hk.
      apply in_keys_assignDimensionValues in Hk as [Hk|Hk];
        rewrite map_app, in_app_iff; [left; now apply Hbase | now right].
    + unfold full. rewrite map_app, in_app_iff. intros [Hk|Hk];
        apply in_keys_assignDimensionValues; [left; now apply Hbase | now right].
    + rewrite <- (map_id (filter multiChoice (primaryDims ++ applicable)%list)) at 1.
      apply Forall2_map_map. intros d _.
      destruct (Obj.get full (EnvDim.name d)) as [x|] eqn:Ex; [|now left].
      right. apply get_Some_In in Ex. unfold full in Ex.
      apply in_entries_assignDimensionValues in Ex as [Ex|(i & d0 & Hd0 & Hk & ->)].
      * unfold Obj.spread in Ex. simpl in Ex.
        apply in_entries_assign in Ex as [[]|Ex].
        apply Hrec in Ex as [->|(d0 & Hd0 & Hk & Hin)]; [now left|].
        right. exists d0. split; [apply in_or_app; now left | now split].
      * destruct (nth_error condValues i) as [y|] eqn:Ey; [|now left].
        right. destruct (product_entries _ _ _ _ _ Hcv Ey) as (d1 & Hd1 & Hin).
        rewrite Hd0 in Hd1. injection Hd1 as <-.
        exists d0. split; [|now split].
        apply in_or_app. right. now apply nth_error_In in Hd0.
    + f_equal.
      rewrite <- (map_id (filter multiChoice (primaryDims ++ applicable)%list)) at 2.
      rewrite combine_map_map, map_map. reflexivity.
Qed.

Lemma generateConditionalCombinations_primary envVars c :
  filter isPrimary envVars <> [] ->
  In c (generateConditionalCombinations envVars) ->
  exists primaryValues,
    In primaryValues (generateCartesianProduct envChoices (filter isPrimary envVars)) /\
    In c (combinationsForPrimary (filter isPrimary envVars) (filter isConditional envVars)
            primaryValues).
Proof.
  unfold generateConditionalCombinations.
  destruct (filter isPrimary envVars) as [|p ps] eqn:E; [congruence|].
  intros _ Hc. apply in_flat_map in Hc as (pv & Hpv & Hc). now exists pv.
Qed.

Lemma generateConditionalCombinations_no_primary envVars :
  filter isPrimary envVars = [] ->
  generateConditionalCombinations envVars = [minimalCombination].
Proof. unfold generateConditionalCombinations. now intros ->. Qed.

(* ================================================================= *)
(** ** The combination generator *)



(** C2 (cartesian completeness), amended.  With choices in every dimension
    the product is the list of all tuples of one choice per dimension, in
    dimension order and with the choices in declaration order: it has
    [k1 * ... * kn] tuples, a tuple belongs to it exactly when it picks one
    choice per dimension, and, when no choice list repeats an entry, the
    tuples are pairwise distinct and each occurs exactly once.  The product
    of no dimension is one empty tuple. *)
Theorem cartesian_product_complete {D} (choicesOf : D -> option (list string))
    (dimensions : list D) :
  forallb (hasChoices choicesOf) dimensions = true ->
  let product := generateCartesianProduct choicesOf dimensions in
  let choiceLists := map (declaredChoices choicesOf) dimensions in
  product = allTuples choiceLists /\
  List.length product = productOfLengths choiceLists /\
  (forall tuple, In tuple product <-> Forall2 (fun c cs => In c cs) tuple choiceLists) /\
  (Forall (@NoDup string) choiceLists ->
   NoDup product /\
   forall tuple, Forall2 (fun c cs => In c cs) tuple choiceLists ->
                 count_occ (list_eq_dec string_dec) product tuple = 1) /\
  generateCartesianProduct choicesOf [] = [[]].
Proof.
  intros H product choiceLists.
  assert (E : product = allTuples choiceLists) by (apply product_allTuples; exact H).
  split; [exact E|]. rewrite E.
  split; [apply allTuples_length|].
  split; [intros tuple; apply allTuples_In|].
  split; [|reflexivity].
  intros Hnd. pose proof (allTuples_NoDup _ Hnd) as Hp.
  split; [exact Hp|].
  intros tuple Ht.
  apply (proj1 (NoDup_count_occ' (list_eq_dec string_dec) (allTuples choiceLists)) Hp).
  now apply allTuples_In.
Qed.

Lemma cartesian_product_complete_witness :
  forallb (hasChoices envChoices) [AUTH_MODE; DCR_MODE] = true /\
  generateCartesianProduct envChoices [AUTH_MODE; DCR_MODE] =
    [["loopback-oauth"; "self-hosted"]; ["loopback-oauth"; "external"];
     ["dcr"; "self-hosted"]; ["dcr"; "external"]] /\
  List.length (generateCartesianProduct envChoices [AUTH_MODE; DCR_MODE]) = 4.
Proof.
  split; [reflexivity|].
  destruct (cartesian_product_complete envChoices [AUTH_MODE; DCR_MODE] eq_refl)
    as (E & L & _).
  split; [exact E | exact L].
Defined.

(** C2 as the specification states it fails for a choice list that repeats
    an entry: the product of [MODE: [a, a]] holds the tuple [[a]] twice. *)
Lemma cartesian_product_repeated_choice :
  generateCartesianProduct envChoices [repeatedChoice] = [["a"]; ["a"]] /\
  ~ cartesianCompleteness envChoices [repeatedChoice].
Proof.
  split; [reflexivity|].
  intros H. destruct (H eq_refl) as (_ & Hnd & _).
  simpl in Hnd. inversion Hnd as [|x l Hin _]; subst.
  apply Hin. now left.
Qed.

(** C3 (no primary variable).  When every variable declares a [dependsOn],
    the result is the single combination named [minimal], whose keys,
    defaults and dimension values are all empty: the conditional variables
    are dropped. *)
Theorem no_primary_fallback (envVars : list EnvDim.t) :
  Forall (fun e => EnvDim.dependsOn e <> None) envVars ->
  generateConditionalCombinations envVars =
    [Combination.mk "minimal" [] [] Obj.empty Obj.empty Obj.empty].
Proof.
  intros H. apply generateConditionalCombinations_no_primary.
  induction H as [|e l He _ IH]; [reflexivity|].
  simpl. unfold isPrimary at 1.
  destruct (EnvDim.dependsOn e); [exact IH | congruence].
Qed.

Lemma no_primary_fallback_witness :
  Forall (fun e => EnvDim.dependsOn e <> None) [DCR_MODE] /\
  generateConditionalCombinations [DCR_MODE] =
    [Combination.mk "minimal" [] [] Obj.empty Obj.empty Obj.empty].
Proof.
  assert (H : Forall (fun e => EnvDim.dependsOn e <> None) [DCR_MODE])
    by (repeat constructor; discriminate).
  split; [exact H | exact (no_primary_fallback [DCR_MODE] H)].
Defined.

(** C4 (naming), amended.  The matrix generator names the combination of
    no dimension [minimal].  In the conditional generator with at least one
    primary variable, every combination has a list of active dimensions (the
    primary ones, then conditional ones) whose names are its [envKeys] and
    whose values are all recorded in [dimensionValues]; its name is built
    from one fragment per active dimension with more than one choice, in
    order, each made of the lowercased name of that dimension and a value
    of it, so a dimension with exactly one choice contributes none; and the
    name is [default] when no active dimension has more than one choice. *)
Theorem naming_by_multi_choice (envVars : list EnvDim.t) (c : Combination.t) :
  filter isPrimary envVars <> [] ->
  In c (generateConditionalCombinations envVars) ->
  map Combination.name (generateMatrixCombinations []) = ["minimal"] /\
  exists applicable values,
    let active := (filter isPrimary envVars ++ applicable)%list in
    incl applicable (filter isConditional envVars) /\
    Combination.envKeys c = map EnvDim.name active /\
    (forall d, In d active ->
               Obj.has (Combination.dimensionValues c) (EnvDim.name d) = true) /\
    (forall d, List.length (EnvDim.choices d) = 1 -> ~ In d (filter multiChoice active)) /\
    Forall2 (fragmentValueOf active) (filter multiChoice active) values /\
    Combination.name c =
      nameOfParts "default"
        (map (fun dv => nameFragment (EnvDim.name (fst dv)) (snd dv))
             (combine (filter multiChoice active) values)) /\
    ((forall d, In d active -> multiChoice d = false) -> Combination.name c = "default").
Proof.
  intros Hp Hc. split; [reflexivity|].
  destruct (generateConditionalCombinations_primary _ _ Hp Hc) as (pv & Hin & Hpv).
  destruct (combinationsForPrimary_shape _ _ _ _ Hin Hpv)
    as (applicable & values & Hincl & Hkeys & _ & Hdv & Hvalues & Hname).
  exists applicable, values. cbv zeta.
  repeat split; try assumption.
  - intros d Hd. apply has_true_iff, Hdv. now apply in_map.
  - intros d Hone Hd. apply filter_In in Hd as [_ Hm].
    unfold multiChoice in Hm. rewrite Hone in Hm. discriminate.
  - intros Hnone. rewrite Hname.
    rewrite (filter_none multiChoice _ Hnone). reflexivity.
Qed.

Lemma naming_by_multi_choice_witness :
  let envVars := [AUTH_MODE; DCR_MODE_single] in
  let c := Combination.mk "auth_mode-dcr" ["AUTH_MODE"; "DCR_MODE"] [] [] []
             [("AUTH_MODE", "dcr"); ("DCR_MODE", "self-hosted")] in
  filter isPrimary envVars <> [] /\
  In c (generateConditionalCombinations envVars) /\
  map Combination.name (generateMatrixCombinations []) = ["minimal"] /\
  exists applicable values,
    let active := (filter isPrimary envVars ++ applicable)%list in
    incl applicable (filter isConditional envVars) /\
    Combination.envKeys c = map EnvDim.name active /\
    (forall d, In d active ->
               Obj.has (Combination.dimensionValues c) (EnvDim.name d) = true) /\
    (forall d, List.length (EnvDim.choices d) = 1 -> ~ In d (filter multiChoice active)) /\
    Forall2 (fragmentValueOf active) (filter multiChoice active) values /\
    Combination.name c =
      nameOfParts "default"
        (map (fun dv => nameFragment (EnvDim.name (fst dv)) (snd dv))
             (combine (filter multiChoice active) values)) /\
    ((forall d, In d active -> multiChoice d = false) -> Combination.name c = "default").
Proof.
  intros envVars c.
  assert (Hp : filter isPrimary envVars <> []) by discriminate.
  assert (Hc : In c (generateConditionalCombinations envVars)) by (right; left; reflexivity).
  split; [exact Hp|]. split; [exact Hc|].
  exact (naming_by_multi_choice envVars c Hp Hc).
Defined.

(** C4 as the specification states it fails when there is no primary
    variable: the only combination has no active dimension at all and is
    named [minimal], not [default]. *)
Lemma default_name_no_primary :
  map Combination.name (generateConditionalCombinations []) = ["minimal"] /\
  ~ defaultNameWithoutMultiChoice [].
Proof.
  split; [reflexivity|].
  intros H.
  assert (E : Combination.name minimalCombination = "default").
  { apply H; [now left | intros d []]. }
  discriminate E.
Qed.

(** C8 (combination invariant).  In every combination of either generator
    each key of [dimensionValues] is one of [envKeys] or [argNames]. *)
Theorem dimension_keys_listed (envVars : list EnvDim.t) (c : Combination.t) :
  In c (generateMatrixCombinations envVars) \/ In c (generateConditionalCombinations envVars) ->
  incl (Obj.keys (Combination.dimensionValues c))
       (Combination.envKeys c ++ Combination.argNames c)%list.
Proof.
  intros [Hc|Hc] k Hk; apply in_or_app; left.
  - unfold generateMatrixCombinations in Hc.
    apply in_map_iff in Hc as (values & <- & _). simpl in *.
    apply in_keys_assignDimensionValues in Hk as [[]|Hk]. exact Hk.
  - destruct (filter isPrimary envVars) as [|p ps] eqn:E.
    + rewrite (generateConditionalCombinations_no_primary _ E) in Hc.
      destruct Hc as [<-|[]]. destruct Hk.
    + assert (Hp : filter isPrimary envVars <> []) by (rewrite E; discriminate).
      destruct (generateConditionalCombinations_primary _ _ Hp Hc) as (pv & Hin & Hpv).
      destruct (combinationsForPrimary_shape _ _ _ _ Hin Hpv)
        as (applicable & values & _ & Hkeys & _ & Hdv & _).
      rewrite Hkeys. now apply Hdv.
Qed.

Lemma dimension_keys_listed_witness :
  let c := Combination.mk "auth_mode-dcr_dcr_mode-external" ["AUTH_MODE"; "DCR_MODE"] [] [] []
             [("AUTH_MODE", "dcr"); ("DCR_MODE", "external")] in
  (In c (generateMatrixCombinations [AUTH_MODE; DCR_MODE]) \/
   In c (generateConditionalCombinations [AUTH_MODE; DCR_MODE])) /\
  incl (Obj.keys (Combination.dimensionValues c))
       (Combination.envKeys c ++ Combination.argNames c)%list.
Proof.
  intros c.
  assert (H : In c (generateMatrixCombinations [AUTH_MODE; DCR_MODE]) \/
              In c (generateConditionalCombinations [AUTH_MODE; DCR_MODE]))
    by (right; right; right; left; reflexivity).
  split; [exact H | exact (dimension_keys_listed [AUTH_MODE; DCR_MODE] c H)].
Defined.

(** C10 (empty choice lists), amended.  A dimension whose choice list is
    missing or empty cuts the product at its position: when every dimension
    before it has choices, the result is the product of those dimensions
    alone, whatever follows.  In first position this is one empty tuple.
    The result is never the empty list of tuples. *)
Theorem empty_choices_truncate {D} (choicesOf : D -> option (list string))
    (before : list D) (d : D) (after : list D) :
  forallb (hasChoices choicesOf) before = true ->
  noChoices choicesOf d = true ->
  generateCartesianProduct choicesOf (before ++ d :: after)%list =
    generateCartesianProduct choicesOf before /\
  generateCartesianProduct choicesOf (d :: after) = [[]] /\
  generateCartesianProduct choicesOf (before ++ d :: after)%list <> [].
Proof.
  intros Hb Hd. split; [|split].
  - now apply product_truncated.
  - now apply noChoices_product.
  - apply product_nonempty.
Qed.

Lemma empty_choices_truncate_witness :
  forallb (hasChoices envChoices) [AUTH_MODE] = true /\
  noChoices envChoices noChoiceDim = true /\
  generateCartesianProduct envChoices [AUTH_MODE; noChoiceDim; DCR_MODE] =
    generateCartesianProduct envChoices [AUTH_MODE] /\
  generateCartesianProduct envChoices [noChoiceDim; DCR_MODE] = [[]] /\
  generateCartesianProduct envChoices [AUTH_MODE; noChoiceDim; DCR_MODE] <> [].
Proof.
  split; [reflexivity|]. split; [reflexivity|].
  exact (empty_choices_truncate envChoices [AUTH_MODE] noChoiceDim [DCR_MODE]
           eq_refl eq_refl).
Defined.

(** C10 as stated fails in its last part: with [AUTH_MODE] first and an
    empty choice list second, the result is the two tuples of [AUTH_MODE],
    not zero tuples. *)
Lemma empty_later_choices_keep_tuples :
  generateCartesianProduct envChoices [AUTH_MODE; noChoiceDim] =
    [["loopback-oauth"]; ["dcr"]] /\
  ~ emptyLaterYieldsNoTuples envChoices [AUTH_MODE] noChoiceDim [].
Proof.
  split; [reflexivity|].
  intros H.
  assert (E : generateCartesianProduct envChoices [AUTH_MODE; noChoiceDim] = []).
  { apply (H ltac:(discriminate) eq_refl eq_refl). }
  discriminate E.
Qed.

(* ================================================================= *)
(** ** The environment resolver *)

Ltac run_prompt :=
  unfold bind, ret, select, promptFn, confirm, consoleLog, emit; simpl.

Lemma usableFirstChoice_None choices :
  usableFirstChoice choices = None <-> noUsableChoice choices.
Proof.
  unfold usableFirstChoice, noUsableChoice, truthy.
  destruct choices as [[|c cs]|].
  - split; [auto | reflexivity].
  - destruct (String.eqb_spec c "") as [->|Hne]; simpl.
    + split; [intros _; right; right; now exists cs | reflexivity].
    + split; [discriminate|].
      intros [H|[H|(cs' & H)]]; try discriminate. injection H as -> _. congruence.
  - split; [auto | reflexivity].
Qed.

(** C9 (quick mode), amended.  With the quick option set, a variable
    without declared default or value resolves as follows, and no prompt is
    issued for it: when its choice list starts with a non-empty string, that
    first choice is its value; otherwise (no choices, an empty list, or a
    list that starts with the empty string) it gets no value, with one
    warning line when it is required and nothing at all when it is
    optional. *)
Theorem quick_mode_resolution (host : Host) (serverName : string)
    (options : PromptOptions.t) (env : Obj.t string) (envVar : EnvVarMetadata.t)
    (trace : list Event) :
  isTrue (PromptOptions.yes options) = true ->
  EnvVarMetadata.default envVar = None ->
  EnvVarMetadata.value envVar = None ->
  let name := EnvVarMetadata.name envVar in
  let result := promptForEnvVar host serverName options env envVar trace in
  (forall c cs, EnvVarMetadata.choices envVar = Some (c :: cs) -> c <> "" ->
                result = (Obj.set name c env, trace)) /\
  (noUsableChoice (EnvVarMetadata.choices envVar) ->
   isTrue (EnvVarMetadata.isRequired envVar) = true ->
   result = (env, (trace ++ [skippingWarning name])%list)) /\
  (noUsableChoice (EnvVarMetadata.choices envVar) ->
   isTrue (EnvVarMetadata.isRequired envVar) = false ->
   result = (env, trace)) /\
  (exists shown, snd result = (trace ++ shown)%list /\
                 Forall (fun e => isPrompt e = false) shown).
Proof.
  intros Hyes Hd Hv name result.
  assert (E : result =
              match usableFirstChoice (EnvVarMetadata.choices envVar) with
              | Some firstChoice => (Obj.set name firstChoice env, trace)
              | None =>
                  if isTrue (EnvVarMetadata.isRequired envVar)
                  then (env, (trace ++ [skippingWarning name])%list)
                  else (env, trace)
              end).
  { unfold result, promptForEnvVar. rewrite Hd, Hv, Hyes. simpl.
    rewrite andb_false_r. simpl.
    destruct (usableFirstChoice (EnvVarMetadata.choices envVar)); [reflexivity|].
    destruct (isTrue (EnvVarMetadata.isRequired envVar)); reflexivity. }
  rewrite E. repeat split.
  - intros c cs Hc Hne. rewrite Hc. simpl. unfold truthy.
    apply String.eqb_neq in Hne. now rewrite Hne.
  - intros Hn ->. now rewrite (proj2 (usableFirstChoice_None _) Hn).
  - intros Hn ->. now rewrite (proj2 (usableFirstChoice_None _) Hn).
  - destruct (usableFirstChoice (EnvVarMetadata.choices envVar)).
    + exists []. simpl. now rewrite app_nil_r.
    + destruct (isTrue (EnvVarMetadata.isRequired envVar)).
      * exists [skippingWarning name]. split; [reflexivity|]. now repeat constructor.
      * exists []. simpl. now rewrite app_nil_r.
Qed.

Lemma quick_mode_resolution_witness :
  isTrue (PromptOptions.yes quickOptions) = true /\
  EnvVarMetadata.default LOG_FORMAT = None /\
  EnvVarMetadata.value LOG_FORMAT = None /\
  promptForEnvVar batchHost "server" quickOptions Obj.empty LOG_FORMAT [] =
    ([("LOG_FORMAT", "json")], []).
Proof.
  repeat (split; [reflexivity|]).
  refine (proj1 (quick_mode_resolution batchHost "server" quickOptions Obj.empty
                   LOG_FORMAT [] eq_refl eq_refl eq_refl) "json" ["text"] eq_refl _).
  discriminate.
Defined.

(** C9 as stated fails for a choice list that starts with the empty string:
    the required variable [REGION] with choices [["", "eu"]] gets no value
    in quick mode, only the warning. *)
Lemma quick_mode_blank_first_choice :
  promptForEnvVar batchHost "server" quickOptions Obj.empty REGION_blank_first [] =
    (Obj.empty, [skippingWarning "REGION"]) /\
  ~ quickUsesFirstChoice batchHost "server" quickOptions REGION_blank_first.
Proof.
  split; [reflexivity|].
  intros H.
  specialize (H eq_refl eq_refl eq_refl "" ["eu"] Obj.empty [] eq_refl).
  discriminate H.
Qed.

(** Quick mode issues no prompt at all, whatever the variables. *)
Lemma quick_mode_never_prompts (host : Host) (serverName : string)
    (options : PromptOptions.t) (envVars : list EnvVarMetadata.t) :
  isTrue (PromptOptions.yes options) = true ->
  forall env trace,
  exists shown,
    snd (foldM (promptForEnvVar host serverName options) envVars env trace)
      = (trace ++ shown)%list /\
    Forall (fun e => isPrompt e = false) shown.
Proof.
  intros Hyes. induction envVars as [|envVar envVars IH]; intros env trace.
  - exists []. simpl. now rewrite app_nil_r.
  - simpl. unfold bind at 1.
    assert (Hstep : exists shown,
              snd (promptForEnvVar host serverName options env envVar trace)
                = (trace ++ shown)%list /\
              Forall (fun e => isPrompt e = false) shown).
    { unfold promptForEnvVar. rewrite Hyes.
      destruct (truthyOpt _); [exists []; simpl; now rewrite app_nil_r|].
      simpl. rewrite andb_false_r. simpl.
      destruct (usableFirstChoice _); [exists []; simpl; now rewrite app_nil_r|].
      destruct (isTrue (EnvVarMetadata.isRequired envVar)).
      - eexists. split; [reflexivity|]. now repeat constructor.
      - exists []. simpl. now rewrite app_nil_r. }
    destruct (promptForEnvVar host serverName options env envVar trace) as [env' trace'].
    destruct Hstep as (shown1 & E1 & H1). simpl in E1. subst trace'.
    destruct (IH env' (trace ++ shown1)%list) as (shown2 & -> & H2).
    exists (shown1 ++ shown2)%list. split; [now rewrite app_assoc|].
    apply Forall_app. now split.
Qed.

(** A variable is resolved under its own name only. *)
Lemma promptForEnvVar_keys (host : Host) (serverName : string)
    (options : PromptOptions.t) (env : Obj.t string) (envVar : EnvVarMetadata.t)
    (trace : list Event) (k : string) :
  In k (Obj.keys (fst (promptForEnvVar host serverName options env envVar trace))) ->
  In k (Obj.keys env) \/ k = EnvVarMetadata.name envVar.
Proof.
  unfold promptForEnvVar. run_prompt.
  repeat match goal with
         | |- context [if ?b then _ else _] => destruct b; simpl
         | |- context [match usableFirstChoice ?c with _ => _ end] =>
             destruct (usableFirstChoice c); simpl
         end;
    intros H; try (apply in_keys_set in H); tauto.
Qed.

Lemma promptForEnvVars_keys (host : Host) (serverName : string)
    (envVars : list EnvVarMetadata.t) (options : PromptOptions.t)
    (trace : list Event) (k : string) :
  In k (Obj.keys (fst (promptForEnvVars host serverName envVars options trace))) ->
  In k (map EnvVarMetadata.name envVars).
Proof.
  unfold promptForEnvVars.
  assert (G : forall env trace,
             In k (Obj.keys (fst (foldM (promptForEnvVar host serverName options)
                                    envVars env trace))) ->
             In k (Obj.keys env) \/ In k (map EnvVarMetadata.name envVars)).
  { induction envVars as [|envVar envVars IH]; intros env tr; simpl; [auto|].
    unfold bind at 1.
    pose proof (promptForEnvVar_keys host serverName options env envVar tr k) as Hstep.
    destruct (promptForEnvVar host serverName options env envVar tr) as [env' tr'].
    intros H. apply IH in H. simpl in Hstep. intuition auto. }
  intros H. apply G in H as [[]|H]. exact H.
Qed.

(* ================================================================= *)
(** ** The configuration builder *)

(** A default is kept only when no declaration of its name is found, or the
    first one passes its [dependsOn]. *)
Lemma filterDefaults_keys allEnvVars combination k :
  In k (Obj.keys (filterDefaults allEnvVars combination)) ->
  In k (Obj.keys (Combination.defaults combination)) /\
  match find (fun e => EnvVarMetadata.name e =? k) allEnvVars with
  | None => True
  | Some envVarMeta =>
      shouldPromptEnvVar (EnvVarMetadata.dependsOn envVarMeta)
        (Combination.dimensionValues combination) = true
  end.
Proof.
  unfold filterDefaults, Obj.entries.
  assert (G : forall (l : list (string * string)) (acc : Obj.t string),
    In k (Obj.keys (fold_left
      (fun filteredDefaults entry =>
         let '(envName, envValue) := entry in
         match find (fun e => EnvVarMetadata.name e =? envName) allEnvVars with
         | None => Obj.set envName envValue filteredDefaults
         | Some envVarMeta =>
             if shouldPromptEnvVar (EnvVarMetadata.dependsOn envVarMeta)
                  (Combination.dimensionValues combination)
             then Obj.set envName envValue filteredDefaults
             else filteredDefaults
         end) l acc)) ->
    In k (Obj.keys acc) \/
    (In k (map fst l) /\
     match find (fun e => EnvVarMetadata.name e =? k) allEnvVars with
     | None => True
     | Some envVarMeta =>
         shouldPromptEnvVar (EnvVarMetadata.dependsOn envVarMeta)
           (Combination.dimensionValues combination) = true
     end)).
  { induction l as [|[envName envValue] l IH]; intros acc; simpl; [auto|].
    intros H. apply IH in H as [H|[H1 H2]]; [|now auto].
    destruct (find (fun e => EnvVarMetadata.name e =? envName) allEnvVars)
      as [meta|] eqn:Ef.
    - destruct (shouldPromptEnvVar _ _) eqn:Es; [|now auto].
      apply in_keys_set in H as [->|H]; [|now auto].
      right. split; [now left|]. now rewrite Ef.
    - apply in_keys_set in H as [->|H]; [|now auto].
      right. split; [now left|]. now rewrite Ef. }
  intros H. apply G in H as [[]|H]. exact H.
Qed.

(** An env dimension is a dimension value that is not a package argument. *)
Lemma separateDimensions_env_keys allPackageArgNames dimensionValues k :
  In k (Obj.keys (fst (separateDimensions allPackageArgNames dimensionValues))) ->
  In k (Obj.keys dimensionValues) /\ includes allPackageArgNames k = false.
Proof.
  unfold separateDimensions, Obj.entries.
  assert (G : forall (l : list (string * string)) (acc : Obj.t string * Obj.t string),
    In k (Obj.keys (fst (fold_left
      (fun acc entry =>
         let '(envDimensions, argDimensions) := acc in
         let '(key, value) := entry in
         if includes allPackageArgNames key
         then (envDimensions, Obj.set key value argDimensions)
         else (Obj.set key value envDimensions, argDimensions)) l acc))) ->
    In k (Obj.keys (fst acc)) \/
    (In k (map fst l) /\ includes allPackageArgNames k = false)).
  { induction l as [|[key value] l IH]; intros [envD argD]; simpl; [auto|].
    intros H. apply IH in H as [H|[H1 H2]]; [|now auto].
    destruct (includes allPackageArgNames key) eqn:Ei; simpl in H; [now auto|].
    apply in_keys_set in H as [->|H]; auto. }
  intros H. apply G in H as [[]|H]. exact H.
Qed.

(** Every variable handed to the prompt is declared by the package and
    passes its [dependsOn]. *)
Lemma selectEnvVarsToPrompt_relevant optionalVarsToPrompt allEnvVars matching
    prePopulatedEnvKeys dimensionValues envVar :
  (forall e, In e matching ->
             In e allEnvVars /\
             shouldPromptEnvVar (EnvVarMetadata.dependsOn e) dimensionValues = true) ->
  In envVar (selectEnvVarsToPrompt optionalVarsToPrompt allEnvVars matching
               prePopulatedEnvKeys dimensionValues) ->
  In envVar allEnvVars /\
  shouldPromptEnvVar (EnvVarMetadata.dependsOn envVar) dimensionValues = true.
Proof.
  intros Hm. unfold selectEnvVarsToPrompt.
  destruct optionalVarsToPrompt as [[|sel selected]|].
  - intros H. apply filter_In in H as [H _]. now apply Hm.
  - intros H. apply in_app_or in H as [H|H]; apply filter_In in H as [H Hf].
    + now apply Hm.
    + split; [exact H|]. now apply andb_true_iff in Hf as [_ Hf].
  - intros H. apply filter_In in H as [H _]. now apply Hm.
Qed.

Lemma includes_true_iff (a : list string) (x : string) :
  includes a x = true <-> In x a.
Proof.
  unfold includes. rewrite existsb_exists. split.
  - intros (y & Hy & E). apply String.eqb_eq in E. now subst.
  - intros H. exists x. split; [exact H | apply String.eqb_refl].
Qed.

(** The keys of the merged environment of a configuration. *)
Lemma resolveEnv_keys host params pkg trace k :
  In k (Obj.keys (fst (resolveEnv (promptForEnvVars host) params pkg trace))) ->
  let combination := BuildParams.combination params in
  let dimensionValues := Combination.dimensionValues combination in
  In k (Obj.keys (filterDefaults (PackageConfig.environmentVariables pkg) combination)) \/
  (In k (Obj.keys dimensionValues) /\
   ~ In k (map CliArgMetadata.name (PackageConfig.packageArguments pkg))) \/
  (exists envVar, In envVar (PackageConfig.environmentVariables pkg) /\
                  EnvVarMetadata.name envVar = k /\
                  shouldPromptEnvVar (EnvVarMetadata.dependsOn envVar) dimensionValues = true).
Proof.
  unfold resolveEnv.
  pose proof (separateDimensions_env_keys
                (map CliArgMetadata.name (PackageConfig.packageArguments pkg))
                (Combination.dimensionValues (BuildParams.combination params)) k) as Hsep.
  destruct (separateDimensions _ _) as [envDimensions argDimensions].
  unfold bind, ret.
  match goal with
  | |- context [promptForEnvVars host ?ctx ?vars ?opts trace] =>
      pose proof (promptForEnvVars_keys host ctx vars opts trace k) as Hprompt;
      destruct (promptForEnvVars host ctx vars opts trace) as [promptedEnv trace']
  end.
  simpl fst. intros H. apply in_keys_spread in H as (src & Hsrc & Hk).
  simpl in Hsrc. destruct Hsrc as [<-|[<-|[<-|[]]]].
  - now left.
  - right; left. destruct (Hsep Hk) as [H1 H2]. split; [exact H1|].
    intros Hin. apply includes_true_iff in Hin. congruence.
  - right; right. apply Hprompt in Hk. apply in_map_iff in Hk as (envVar & <- & HIn).
    apply selectEnvVarsToPrompt_relevant in HIn as [H1 H2].
    + exists envVar. now repeat split.
    + intros e He. apply filter_In in He as [He Hs].
      apply filter_In in He as [He _]. now split.
Qed.

(** A configuration that is returned is assembled from the package of the
    transport, the command line and the merged environment. *)
Lemma buildServerConfig_returns host envPromptFn params trace config :
  fst (buildServerConfig host envPromptFn params trace) = inr config ->
  exists pkg command args0,
    BuildParams.metadataReader params (BuildParams.metadata params)
      (transportTypeOf (BuildParams.transport params)) = Some pkg /\
    baseCommand host params = inr (command, args0) /\
    stdioShape config =
      Some (stdioObject command (completeArgs params pkg args0)
              (fst (resolveEnv envPromptFn params pkg trace))).
Proof.
  unfold buildServerConfig.
  destruct (BuildParams.metadataReader params _ _) as [pkg|]; [|discriminate].
  unfold bind.
  destruct (resolveEnv envPromptFn params pkg trace) as [env trace'] eqn:Er.
  destruct (baseCommand host params) as [message|[command args0]] eqn:Eb; [discriminate|].
  intros H. exists pkg, command, args0.
  split; [reflexivity|]. split; [reflexivity|]. rewrite Er.
  destruct (isHttpTransport (BuildParams.transport params));
    unfold ret in H; simpl in H; injection H as <-; reflexivity.
Qed.

Lemma emittedEnv_stdioObject config command args env :
  stdioShape config = Some (stdioObject command args env) ->
  emittedEnv config = env.
Proof.
  unfold emittedEnv. intros ->. simpl. now destruct env.
Qed.

(** C5 (default filtering), amended.  Take a name with a default in the
    combination.  When the package declares a variable of that name, every
    declaration of that name fails its [dependsOn] for the dimension values
    of the combination, and the name is not itself an env dimension of the
    combination (a key of [dimensionValues] is a package argument), the
    [env] of the configuration that is built does not contain the name. *)
Theorem default_filtered_by_dependsOn (host : Host) (params : BuildParams.t)
    (pkg : PackageConfig.t) (name : string) (trace : list Event) (config : ServerConfig) :
  let combination := BuildParams.combination params in
  let dimensionValues := Combination.dimensionValues combination in
  BuildParams.metadataReader params (BuildParams.metadata params)
    (transportTypeOf (BuildParams.transport params)) = Some pkg ->
  In name (Obj.keys (Combination.defaults combination)) ->
  (exists envVar, In envVar (PackageConfig.environmentVariables pkg) /\
                  EnvVarMetadata.name envVar = name) ->
  (forall envVar, In envVar (PackageConfig.environmentVariables pkg) ->
                  EnvVarMetadata.name envVar = name ->
                  shouldPromptEnvVar (EnvVarMetadata.dependsOn envVar) dimensionValues = false) ->
  (In name (Obj.keys dimensionValues) ->
   In name (map CliArgMetadata.name (PackageConfig.packageArguments pkg))) ->
  fst (buildServerConfig host (promptForEnvVars host) params trace) = inr config ->
  ~ In name (Obj.keys (filterDefaults (PackageConfig.environmentVariables pkg) combination)) /\
  Obj.has (emittedEnv config) name = false.
Proof.
  cbv zeta. intros Hpkg Hdef (declared & Hin & Hname) Hfail Hdim Hret.
  assert (Hfd : ~ In name (Obj.keys (filterDefaults
                                       (PackageConfig.environmentVariables pkg)
                                       (BuildParams.combination params)))).
  { intros H. apply filterDefaults_keys in H as [_ H].
    destruct (find (fun e => EnvVarMetadata.name e =? name)
                   (PackageConfig.environmentVariables pkg)) as [meta|] eqn:Ef.
    - apply find_some in Ef as [Hm En]. apply String.eqb_eq in En.
      rewrite (Hfail meta Hm En) in H. discriminate.
    - apply (find_none _ _ Ef) in Hin. rewrite Hname, String.eqb_refl in Hin.
      discriminate. }
  split; [exact Hfd|].
  destruct (buildServerConfig_returns _ _ _ _ _ Hret)
    as (pkg' & command & args0 & Hpkg' & _ & Hshape).
  rewrite Hpkg in Hpkg'. injection Hpkg' as <-.
  rewrite (emittedEnv_stdioObject _ _ _ _ Hshape).
  destruct (Obj.has _ name) eqn:Eh; [|reflexivity]. exfalso.
  apply has_true_iff, resolveEnv_keys in Eh.
  destruct Eh as [H|[[H1 H2]|(envVar & H1 & H2 & H3)]].
  - now apply Hfd.
  - apply H2, Hdim, H1.
  - rewrite (Hfail envVar H1 H2) in H3. discriminate.
Qed.

Lemma default_filtered_by_dependsOn_witness :
  let config :=
    StdioConfig
      (ServerConfigStdio.mk "npx" (Some ["-y"; "@test/server"])
         (Some [("LOG_LEVEL", "info"); ("AUTH_MODE", "loopback-oauth")])) in
  buildServerConfig batchHost (promptForEnvVars batchHost) loopbackDefaultsParams [] =
    (inr config, []) /\
  ~ In "DCR_STORE_URI"
      (Obj.keys (filterDefaults [AUTH_MODE_var; LOG_LEVEL_var; DCR_STORE_URI_var]
                   loopbackWithDefaults)) /\
  Obj.has (emittedEnv config) "DCR_STORE_URI" = false.
Proof.
  intros config. split; [reflexivity|].
  refine (default_filtered_by_dependsOn batchHost loopbackDefaultsParams
            (stdioPackage [AUTH_MODE_var; LOG_LEVEL_var; DCR_STORE_URI_var])
            "DCR_STORE_URI" [] config eq_refl _ _ _ _ eq_refl).
  - right; left; reflexivity.
  - exists DCR_STORE_URI_var. split; [right; right; left|]; reflexivity.
  - intros envVar [<-|[<-|[<-|[]]]]; try discriminate. reflexivity.
  - intros [H|[]]. discriminate H.
Defined.

(** C5 as stated fails in two ways.  A name that is also an env dimension
    of the combination stays in [env] with its dimension value; and with two
    declarations of one name, the first without condition, the default
    itself stays although the second declaration fails its [dependsOn]. *)
Lemma default_leaks_as_dimension_or_duplicate :
  let viaDimension :=
    quickStdioParams (testServer [AUTH_MODE_var; DCR_STORE_URI_var])
      loopbackWithStoreDimension in
  let viaDuplicate :=
    quickStdioParams (testServer [AUTH_MODE_var; DCR_STORE_URI_unconditional; DCR_STORE_URI_var])
      loopbackWithDefaults in
  (option_map ServerConfigStdio.env
     (match fst (buildServerConfig batchHost (promptForEnvVars batchHost) viaDimension []) with
      | inr config => stdioShape config
      | inl _ => None
      end)
   = Some (Some [("AUTH_MODE", "loopback-oauth"); ("DCR_STORE_URI", "memory://")]) /\
   ~ defaultNeverLeaks batchHost viaDimension) /\
  (option_map ServerConfigStdio.env
     (match fst (buildServerConfig batchHost (promptForEnvVars batchHost) viaDuplicate []) with
      | inr config => stdioShape config
      | inl _ => None
      end)
   = Some (Some [("LOG_LEVEL", "info"); ("DCR_STORE_URI", "file://~/.mcp/dcr.json");
                 ("AUTH_MODE", "loopback-oauth")]) /\
   ~ defaultNeverLeaks batchHost viaDuplicate).
Proof.
  cbv zeta. split; (split; [reflexivity|]); intros H.
  - specialize (H (stdioPackage [AUTH_MODE_var; DCR_STORE_URI_var]) "DCR_STORE_URI"
                  DCR_STORE_URI_var [] _ eq_refl (or_introl eq_refl)
                  (or_intror (or_introl eq_refl)) eq_refl eq_refl eq_refl).
    discriminate H.
  - specialize (H (stdioPackage [AUTH_MODE_var; DCR_STORE_URI_unconditional; DCR_STORE_URI_var])
                  "DCR_STORE_URI" DCR_STORE_URI_var [] _ eq_refl
                  (or_intror (or_introl eq_refl))
                  (or_intror (or_intror (or_introl eq_refl))) eq_refl eq_refl eq_refl).
    discriminate H.
Qed.

Lemma omitIfEmpty_not_empty {A} (xs : list A) : omitIfEmpty xs <> Some [].
Proof. destruct xs; discriminate. Qed.

Lemma omitIfEmpty_None {A} (xs : list A) : omitIfEmpty xs = None <-> xs = [].
Proof. destruct xs; simpl; split; congruence. Qed.

(** C7 (empty-field omission).  Whatever the prompt function, a
    configuration that is built has a stdio-shaped object (itself, or its
    [start] block for http) whose [env] field is the merged environment when
    that is non-empty and is absent when it is empty, and likewise for
    [args]: neither field is ever present and empty. *)
Theorem empty_fields_omitted (host : Host) (envPromptFn : PromptFn)
    (params : BuildParams.t) (trace : list Event) (config : ServerConfig) :
  fst (buildServerConfig host envPromptFn params trace) = inr config ->
  exists shape pkg command args0,
    stdioShape config = Some shape /\
    BuildParams.metadataReader params (BuildParams.metadata params)
      (transportTypeOf (BuildParams.transport params)) = Some pkg /\
    baseCommand host params = inr (command, args0) /\
    let env := fst (resolveEnv envPromptFn params pkg trace) in
    let args := completeArgs params pkg args0 in
    ServerConfigStdio.env shape = omitIfEmpty env /\
    ServerConfigStdio.args shape = omitIfEmpty args /\
    (env = [] -> ServerConfigStdio.env shape = None) /\
    (args = [] -> ServerConfigStdio.args shape = None) /\
    ServerConfigStdio.env shape <> Some [] /\
    ServerConfigStdio.args shape <> Some [].
Proof.
  intros H.
  destruct (buildServerConfig_returns _ _ _ _ _ H)
    as (pkg & command & args0 & Hpkg & Hcmd & Hshape).
  eexists _, pkg, command, args0.
  split; [exact Hshape|]. split; [exact Hpkg|]. split; [exact Hcmd|].
  cbv zeta. simpl.
  split; [reflexivity|]. split; [reflexivity|].
  split; [now intros ->|]. split; [now intros ->|].
  split; apply omitIfEmpty_not_empty.
Qed.

(** The scenario of the specification: no dimension, installed mode, stdio:
    [{command: "npx", args: ["-y", "@org/server"]}] without [env] key. *)
Lemma empty_fields_omitted_witness :
  fst (buildServerConfig batchHost (promptForEnvVars batchHost) minimalStdioParams [])
    = inr (StdioConfig (ServerConfigStdio.mk "npx" (Some ["-y"; "@org/server"]) None)) /\
  exists shape pkg command args0,
    stdioShape (StdioConfig (ServerConfigStdio.mk "npx" (Some ["-y"; "@org/server"]) None))
      = Some shape /\
    BuildParams.metadataReader minimalStdioParams (BuildParams.metadata minimalStdioParams)
      (transportTypeOf (BuildParams.transport minimalStdioParams)) = Some pkg /\
    baseCommand batchHost minimalStdioParams = inr (command, args0) /\
    let env := fst (resolveEnv (promptForEnvVars batchHost) minimalStdioParams pkg []) in
    let args := completeArgs minimalStdioParams pkg args0 in
    ServerConfigStdio.env shape = omitIfEmpty env /\
    ServerConfigStdio.args shape = omitIfEmpty args /\
    (env = [] -> ServerConfigStdio.env shape = None) /\
    (args = [] -> ServerConfigStdio.args shape = None) /\
    ServerConfigStdio.env shape <> Some [] /\
    ServerConfigStdio.args shape <> Some [].
Proof.
  split; [reflexivity|].
  exact (empty_fields_omitted batchHost (promptForEnvVars batchHost) minimalStdioParams []
           _ eq_refl).
Defined.

(* ================================================================= *)
(** ** The validator *)

(** C6 (validator and [dependsOn]), amended.  The missing-variable check of
    the validator does not read [dependsOn]: when the structure is accepted
    and the manifest and its package for the transport are found, every
    required variable of the package whose configured value is absent,
    empty or a placeholder is among the variables reported, and the result
    is the warning that lists them, whether or not the variable's
    [dependsOn] holds for the values of the configuration. *)
Theorem validator_reports_missing_required (host : Host) (serverName : string)
    (config : ParsedServerConfig.t) (metadata : ServerMetadata.t)
    (pkg : PackageConfig.t) (v : EnvVarMetadata.t) :
  structuralError config = None ->
  readServerMetadata host serverName = inr metadata ->
  getPackageForTransport metadata (if isHttpServer config then StreamableHttp else Stdio)
    = Some pkg ->
  In v (PackageConfig.environmentVariables pkg) ->
  isTrue (EnvVarMetadata.isRequired v) = true ->
  (let envValue := configuredValue (envToCheck config) (EnvVarMetadata.name v) in
   truthyOpt envValue = false \/ isPlaceholder (interpolate envValue) = true) ->
  let missing := missingEnvVars pkg (envToCheck config) in
  In v missing /\
  validateServerConfig host serverName config =
    failure SeverityWarning
      ("Missing or placeholder required env vars: "
       ++ join ", " (map EnvVarMetadata.name missing)).
Proof.
  cbv zeta. intros Hs Hm Hp Hv Hr Hval.
  assert (Hin : In v (missingEnvVars pkg (envToCheck config))).
  { unfold missingEnvVars. apply filter_In. split; [exact Hv|].
    rewrite Hr. simpl. destruct Hval as [->| ->]; [reflexivity | apply orb_true_r]. }
  split; [exact Hin|].
  unfold validateServerConfig. rewrite Hs, Hm, Hp.
  destruct (missingEnvVars pkg (envToCheck config)); [destruct Hin | reflexivity].
Qed.

Lemma validator_reports_missing_required_witness :
  shouldPromptEnvVar (EnvVarMetadata.dependsOn DCR_CLIENT_ID_var)
    (configuredEnv loopbackConfigFile) = false /\
  In DCR_CLIENT_ID_var (missingEnvVars dcrPackage (envToCheck loopbackConfigFile)) /\
  validateServerConfig (hostWithManifest (testServer [AUTH_MODE_var; DCR_CLIENT_ID_var]))
    "test" loopbackConfigFile =
    failure SeverityWarning "Missing or placeholder required env vars: DCR_CLIENT_ID".
Proof.
  split; [reflexivity|].
  refine (validator_reports_missing_required
            (hostWithManifest (testServer [AUTH_MODE_var; DCR_CLIENT_ID_var]))
            "test" loopbackConfigFile (testServer [AUTH_MODE_var; DCR_CLIENT_ID_var])
            dcrPackage DCR_CLIENT_ID_var eq_refl eq_refl eq_refl _ eq_refl _).
  - right; left; reflexivity.
  - left; reflexivity.
Defined.

(** C6 as stated fails: for the configuration generated for
    [AUTH_MODE = loopback-oauth], the required [DCR_CLIENT_ID], declared with
    [dependsOn AUTH_MODE: [dcr]], is reported as missing. *)
Lemma validator_reports_unmet_dependsOn :
  validateServerConfig (hostWithManifest (testServer [AUTH_MODE_var; DCR_CLIENT_ID_var]))
    "test" loopbackConfigFile =
    failure SeverityWarning "Missing or placeholder required env vars: DCR_CLIENT_ID" /\
  ~ validatorSkipsUnmetDependsOn dcrPackage loopbackConfigFile.
Proof.
  split; [reflexivity|].
  intros H.
  apply (H DCR_CLIENT_ID_var); [right; left; reflexivity | reflexivity | reflexivity |].
  left; reflexivity.
Qed.

(* ================================================================= *)
(** ** The tests of the repository, on the model *)

(** [shouldPromptEnvVar]: no [dependsOn]; satisfied; value not allowed;
    dependency not selected; several allowed values; all dependencies
    required. *)
Example shouldPrompt_without_dependsOn : shouldPromptEnvVar None [] = true.
Proof. reflexivity. Qed.

Example shouldPrompt_satisfied :
  shouldPromptEnvVar (Some [("AUTH_MODE", ["dcr"])]) [("AUTH_MODE", "dcr")] = true.
Proof. reflexivity. Qed.

Example shouldPrompt_not_allowed :
  shouldPromptEnvVar (Some [("AUTH_MODE", ["dcr"])]) [("AUTH_MODE", "loopback-oauth")] = false.
Proof. reflexivity. Qed.

Example shouldPrompt_not_selected :
  shouldPromptEnvVar (Some [("AUTH_MODE", ["dcr"])]) [] = false.
Proof. reflexivity. Qed.

Example shouldPrompt_several_allowed :
  map (fun v => shouldPromptEnvVar (Some [("AUTH_MODE", ["loopback-oauth"; "dcr"])])
                  [("AUTH_MODE", v)])
      ["loopback-oauth"; "dcr"; "service-account"] = [true; true; false].
Proof. reflexivity. Qed.

Example shouldPrompt_all_required :
  let dependsOn := Some [("AUTH_MODE", ["dcr"]); ("DCR_MODE", ["external"])] in
  map (shouldPromptEnvVar dependsOn)
      [ [("AUTH_MODE", "dcr"); ("DCR_MODE", "external")];
        [("AUTH_MODE", "dcr"); ("DCR_MODE", "self-hosted")];
        [("AUTH_MODE", "loopback-oauth"); ("DCR_MODE", "external")];
        [("AUTH_MODE", "loopback-oauth")] ]
  = [true; false; false; false].
Proof. reflexivity. Qed.

(** Two conditional dimensions with the same [dependsOn]: one combination
    for loopback, four for dcr. *)
Example conditional_two_dependants :
  List.length
    (generateConditionalCombinations
       [ AUTH_MODE; DCR_MODE;
         EnvDim.mk "DCR_OPTION" ["option1"; "option2"] (Some [("AUTH_MODE", ["dcr"])]) ]) = 5.
Proof. reflexivity. Qed.

(** A conditional dimension with one choice is left out of the name. *)
Example conditional_single_choice_names :
  map Combination.name (generateConditionalCombinations [AUTH_MODE; DCR_MODE_single]) =
    ["auth_mode-loopback-oauth"; "auth_mode-dcr"].
Proof. reflexivity. Qed.

(** The http scenario of the specification. *)
Example http_scenario :
  fst (buildServerConfig batchHost (promptForEnvVars batchHost)
         (BuildParams.mk minimalCombination "http" "@org/server" None None
            (ServerMetadata.mk "test-server" "Test" "1.0.0" "Test"
               [PackageConfig.mk "npm" "@org/server" StreamableHttp None [] []])
            getPackageForTransport (Some "localhost") (Some 3000%N) None None None)
         [])
  = inr (HttpConfig
           (ServerConfigHttp.mk "http://localhost:3000/mcp"
              (Some (ServerConfigStdio.mk "npx"
                       (Some ["-y"; "@org/server"; "--port"; "3000"]) None)))).
Proof. reflexivity. Qed.

(** An [args] field that is not an array is a structural error. *)
Example validator_args_not_array :
  ValidationResult.severity
    (validateServerConfig (hostWithManifest (testServer [])) "drive"
       (ParsedServerConfig.mk None None (Some "npx") (Some ArgsNotArray) (Some []) None))
  = Some SeverityError.
Proof. reflexivity. Qed.

(** A placeholder counts as a missing value. *)
Example validator_placeholder :
  isPlaceholder "${GOOGLE_CLIENT_ID}" = true /\ isPlaceholder "client-id" = false.
Proof. split; reflexivity. Qed.

(* ================================================================= *)
(** ** Configuration choices *)

Lemma includes_false_iff (a : list string) (x : string) :
  includes a x = false <-> ~ In x a.
Proof.
  rewrite <- includes_true_iff. destruct (includes a x); split; congruence.
Qed.



(** X2.  For the transport names [stdio], [http] and [streamable-http]
    the transport of a choice is never the short name [http]: [http]
    becomes [streamable-http] and the other two stay.  So, for every
    choice, [buildServerConfig] reads the package declared for stdio, while
    the configuration it builds is http-shaped exactly when the user-facing
    transport is [http] or [streamable-http]. *)
Theorem choices_read_stdio_package (combinations : list Combination.t)
    (transports : list string) (choice : ConfigChoice.t) :
  (forall t, In t transports -> t = "stdio" \/ t = "http" \/ t = "streamable-http") ->
  In choice (createConfigChoices combinations transports) ->
  ConfigChoice.transport choice <> "http" /\
  transportTypeOf (ConfigChoice.transport choice) = Stdio /\
  exists combination t,
    In combination combinations /\ In t transports /\
    ConfigChoice.combination choice = combination /\
    ConfigChoice.label choice = Combination.name combination ++ " (" ++ t ++ ")" /\
    ConfigChoice.transport choice = (if t =? "http" then "streamable-http" else t) /\
    isHttpTransport (ConfigChoice.transport choice) = isHttpTransport t.
Proof.
  unfold createConfigChoices. intros Hnames H.
  apply in_flat_map in H as (combination & Hc & H).
  apply in_map_iff in H as (t & <- & Ht). simpl.
  assert (E : internalTransport t = if t =? "http" then "streamable-http" else t).
  { destruct (Hnames t Ht) as [-> | [-> | ->]]; reflexivity. }
  assert (Hne : internalTransport t <> "http").
  { rewrite E. destruct (String.eqb_spec t "http"); [discriminate | assumption]. }
  split; [exact Hne|]. split.
  - unfold transportTypeOf. apply String.eqb_neq in Hne. now rewrite Hne.
  - exists combination, t. repeat split; try assumption.
    rewrite E. destruct (String.eqb_spec t "http") as [->|_]; reflexivity.
Qed.

Lemma choices_read_stdio_package_witness :
  let choice := ConfigChoice.mk oauthCombination "streamable-http" "oauth (http)" in
  (forall t, In t ["stdio"; "http"] -> t = "stdio" \/ t = "http" \/ t = "streamable-http") /\
  In choice (createConfigChoices [oauthCombination] ["stdio"; "http"]) /\
  ConfigChoice.transport choice <> "http" /\
  transportTypeOf (ConfigChoice.transport choice) = Stdio.
Proof.
  intros choice.
  assert (Hnames : forall t, In t ["stdio"; "http"] ->
                             t = "stdio" \/ t = "http" \/ t = "streamable-http").
  { intros t [<-|[<-|[]]]; auto. }
  assert (H : In choice (createConfigChoices [oauthCombination] ["stdio"; "http"]))
    by (right; left; reflexivity).
  split; [exact Hnames|]. split; [exact H|].
  destruct (choices_read_stdio_package [oauthCombination] ["stdio"; "http"] choice Hnames H)
    as (H1 & H2 & _).
  split; [exact H1 | exact H2].
Defined.

(* ================================================================= *)
(** ** Server names *)

Lemma splitAtSlash_app (org rest : string) :
  (forall c, In c (list_ascii_of_string org) -> c <> "/"%char) ->
  splitAtSlash (org ++ String "/" rest) = Some (org, rest).
Proof.
  induction org as [|c org IH]; intros H; simpl.
  - reflexivity.
  - destruct (Ascii.eqb_spec c "/") as [->|_].
    + exfalso. apply (H "/"%char); [now left | reflexivity].
    + rewrite IH; [reflexivity|]. intros c' Hc'. apply H. now right.
Qed.

(** X3.  [extractServerName] never returns the empty string; it removes a
    leading scope [@org/] (the organisation non-empty and without slash),
    keeps a name that does not start with an at sign, and gives [server]
    when nothing is left. *)
Theorem extractServerName_scope (org name packageName : string) :
  org <> "" ->
  (forall c, In c (list_ascii_of_string org) -> c <> "/"%char) ->
  extractServerName packageName <> "" /\
  extractServerName ("@" ++ org ++ "/" ++ name) = (if name =? "" then "server" else name) /\
  (forall c rest, packageName = String c rest -> c <> "@"%char ->
                  extractServerName packageName = packageName) /\
  extractServerName "" = "server".
Proof.
  intros Horg Hslash. repeat split.
  - unfold extractServerName, truthy.
    destruct (String.eqb_spec (stripScope packageName) "") as [E|E]; [discriminate | exact E].
  - unfold extractServerName, stripScope. simpl.
    rewrite splitAtSlash_app by assumption.
    unfold truthy. apply String.eqb_neq in Horg. rewrite Horg. simpl.
    now destruct (name =? "").
  - intros c rest -> Hc. unfold extractServerName.
    assert (E : stripScope (String c rest) = String c rest).
    { unfold stripScope.
      destruct c as [[] [] [] [] [] [] [] []]; try reflexivity. now elim Hc. }
    rewrite E. reflexivity.
Qed.

Lemma extractServerName_scope_witness :
  "mcp-z" <> "" /\
  (forall c, In c (list_ascii_of_string "mcp-z") -> c <> "/"%char) /\
  extractServerName "@mcp-z/server-drive" = "server-drive" /\
  extractServerName "@mcp-z/" = "server".
Proof.
  assert (H1 : "mcp-z" <> "") by discriminate.
  assert (H2 : forall c, In c (list_ascii_of_string "mcp-z") -> c <> "/"%char).
  { intros c Hc. simpl in Hc.
    repeat (destruct Hc as [<-|Hc]; [discriminate|]). destruct Hc. }
  split; [exact H1|]. split; [exact H2|].
  split.
  - exact (proj1 (proj2 (extractServerName_scope "mcp-z" "server-drive" "" H1 H2))).
  - exact (proj1 (proj2 (extractServerName_scope "mcp-z" "" "" H1 H2))).
Defined.

(* ================================================================= *)
(** ** Matrix mode *)

(** The dimension values of a conditional combination belong to declared
    variables. *)
Lemma conditional_keys_declared envVars c k :
  In c (generateConditionalCombinations envVars) ->
  In k (Obj.keys (Combination.dimensionValues c)) ->
  In k (map EnvDim.name envVars).
Proof.
  intros Hc Hk.
  destruct (filter isPrimary envVars) as [|p ps] eqn:E.
  - rewrite (generateConditionalCombinations_no_primary _ E) in Hc.
    destruct Hc as [<-|[]]. destruct Hk.
  - assert (Hp : filter isPrimary envVars <> []) by (rewrite E; discriminate).
    destruct (generateConditionalCombinations_primary _ _ Hp Hc) as (pv & Hin & Hpv).
    destruct (combinationsForPrimary_shape _ _ _ _ Hin Hpv)
      as (applicable & values & Hincl & _ & _ & Hdv & _).
    apply Hdv in Hk. rewrite map_app, in_app_iff in Hk.
    destruct Hk as [Hk|Hk]; apply in_map_iff in Hk as (d & <- & Hd);
      apply in_map_iff; exists d; (split; [reflexivity|]).
    + apply filter_In in Hd. tauto.
    + apply Hincl, filter_In in Hd. tauto.
Qed.

Lemma matrixDefaults_keys stdioPackage k :
  In k (Obj.keys (matrixDefaults stdioPackage)) ->
  (exists envVar, In envVar (PackageConfig.environmentVariables stdioPackage) /\
                  EnvVarMetadata.name envVar = k /\
                  truthyOpt (nullish (EnvVarMetadata.default envVar)
                                     (EnvVarMetadata.value envVar)) = true) /\
  ~ In k (map EnvVarMetadata.name (envVarsWithChoices stdioPackage)).
Proof.
  unfold matrixDefaults.
  generalize (envVarsWithChoices stdioPackage) as withChoices. intros withChoices.
  assert (G : forall (l : list EnvVarMetadata.t) (acc : Obj.t string),
    In k (Obj.keys (fold_left
      (fun defaults envVar =>
         if negb (existsb (fun e => EnvVarMetadata.name e =? EnvVarMetadata.name envVar)
                          withChoices)
         then
           let defaultValue :=
             nullish (EnvVarMetadata.default envVar) (EnvVarMetadata.value envVar) in
           if truthyOpt defaultValue
           then Obj.set (EnvVarMetadata.name envVar) (interpolate defaultValue) defaults
           else defaults
         else defaults) l acc)) ->
    In k (Obj.keys acc) \/
    ((exists envVar, In envVar l /\ EnvVarMetadata.name envVar = k /\
                     truthyOpt (nullish (EnvVarMetadata.default envVar)
                                        (EnvVarMetadata.value envVar)) = true) /\
     ~ In k (map EnvVarMetadata.name withChoices))).
  { induction l as [|envVar l IH]; intros acc; simpl; [auto|].
    intros H. apply IH in H as [H|[(e & He & Hn & Ht) Hno]].
    - destruct (existsb _ withChoices) eqn:Ex; simpl in H; [now left|].
      destruct (truthyOpt _) eqn:Et; [|now left].
      apply in_keys_set in H as [->|H]; [|now left].
      right. split; [exists envVar; now repeat split; try left|].
      intros Hin. apply in_map_iff in Hin as (e & En & He).
      assert (Hex : existsb (fun e0 => EnvVarMetadata.name e0 =? EnvVarMetadata.name envVar)
                            withChoices = true).
      { apply existsb_exists. exists e. split; [exact He|]. rewrite En. apply String.eqb_refl. }
      congruence.
    - right. split; [exists e; now repeat split; try right | exact Hno]. }
  intros H. apply G in H as [[]|H]. exact H.
Qed.

(** X4.  In every combination of matrix mode the defaults and the
    dimension values are about different variables: a dimension value
    belongs to a declared variable with choices that is not excluded from
    the matrix, a default to a declared variable with a non-empty default
    (or legacy value) that is not such a variable, and no name is both. *)
Theorem matrix_defaults_and_dimensions (stdioPackage : PackageConfig.t)
    (c : Combination.t) (k : string) :
  In c (matrixCombinations stdioPackage) ->
  (In k (Obj.keys (Combination.dimensionValues c)) ->
   exists envVar, In envVar (PackageConfig.environmentVariables stdioPackage) /\
                  EnvVarMetadata.name envVar = k /\
                  declaresChoices (EnvVarMetadata.choices envVar) = true /\
                  EnvVarMetadata.isMandatoryForMatrix envVar <> Some false) /\
  (In k (Obj.keys (Combination.defaults c)) ->
   exists envVar, In envVar (PackageConfig.environmentVariables stdioPackage) /\
                  EnvVarMetadata.name envVar = k /\
                  truthyOpt (nullish (EnvVarMetadata.default envVar)
                                     (EnvVarMetadata.value envVar)) = true) /\
  ~ (In k (Obj.keys (Combination.defaults c)) /\
     In k (Obj.keys (Combination.dimensionValues c))).
Proof.
  unfold matrixCombinations. intros Hc.
  apply in_map_iff in Hc as (c0 & <- & Hc0). simpl.
  assert (Hdim : In k (Obj.keys (Combination.dimensionValues c0)) ->
                 In k (map EnvVarMetadata.name (envVarsWithChoices stdioPackage))).
  { intros Hk. apply (conditional_keys_declared _ _ _ Hc0) in Hk.
    unfold envVarsForMatrix in Hk. now rewrite map_map in Hk. }
  split; [|split].
  - intros Hk. apply Hdim, in_map_iff in Hk as (envVar & Hn & He).
    unfold envVarsWithChoices in He. apply filter_In in He as [He Hf].
    apply andb_true_iff in Hf as [Hf1 Hf2].
    exists envVar. repeat split; try assumption.
    unfold mandatoryForMatrix in Hf2. intros E. rewrite E in Hf2. discriminate.
  - intros Hk. now apply matrixDefaults_keys in Hk.
  - intros [Hd Hk]. apply matrixDefaults_keys in Hd as [_ Hd]. now apply Hd, Hdim.
Qed.

Lemma matrix_defaults_and_dimensions_witness :
  In loopbackWithDefaults (matrixCombinations matrixPackage) /\
  ~ (In "LOG_LEVEL" (Obj.keys (Combination.defaults loopbackWithDefaults)) /\
     In "LOG_LEVEL" (Obj.keys (Combination.dimensionValues loopbackWithDefaults))).
Proof.
  assert (H : In loopbackWithDefaults (matrixCombinations matrixPackage))
    by (left; reflexivity).
  split; [exact H|].
  exact (proj2 (proj2 (matrix_defaults_and_dimensions matrixPackage
                         loopbackWithDefaults "LOG_LEVEL" H))).
Defined.

(* ================================================================= *)
(** ** Interactive combinations *)

Lemma interactiveDimensionValues_entries dims values k v :
  In (k, v) (interactiveDimensionValues dims values) ->
  isSkip v = false /\
  exists i d, nth_error values i = Some v /\ nth_error dims i = Some d /\
              Dimension.name d = k.
Proof.
  unfold interactiveDimensionValues.
  assert (G : forall (l : list (nat * string)) (acc : Obj.t string),
    In (k, v) (fold_left
                 (fun dimensionValues ivalue =>
                    let '(i, value) := ivalue in
                    match nth_error dims i with
                    | Some dimension =>
                        if negb (isSkip value)
                        then Obj.set (Dimension.name dimension) value dimensionValues
                        else dimensionValues
                    | None => dimensionValues
                    end) l acc) ->
    In (k, v) acc \/
    (isSkip v = false /\
     exists i d, In (i, v) l /\ nth_error dims i = Some d /\ Dimension.name d = k)).
  { induction l as [|[i value] l IH]; intros acc; simpl; [auto|].
    intros H. apply IH in H as [H|(Hs & i' & d' & H1 & H2 & H3)].
    - destruct (nth_error dims i) as [d|] eqn:Ed; [|now left].
      destruct (isSkip value) eqn:Es; simpl in H; [now left|].
      apply in_entries_set in H as [[-> ->]|H]; [|now left].
      right. split; [exact Es|]. exists i, d. repeat split; auto.
    - right. split; [exact Hs|]. exists i', d'. repeat split; auto. }
  intros H. apply G in H as [[]|(Hs & i & d & H1 & H2 & H3)].
  split; [exact Hs|]. exists i, d. split; [now apply in_indexed|]. now split.
Qed.

Lemma interactiveNameParts_parts dims values p :
  In p (interactiveNameParts dims values) ->
  isSkip p = false /\
  exists i d, nth_error values i = Some p /\ nth_error dims i = Some d /\
              severalRealChoices d = true.
Proof.
  unfold interactiveNameParts.
  assert (G : forall (l : list (nat * string)) (acc : list string),
    In p (fold_left
            (fun nameParts ivalue =>
               let '(i, value) := ivalue in
               match nth_error dims i with
               | Some dim =>
                   if negb (isSkip value) && severalRealChoices dim
                   then (nameParts ++ [value])%list
                   else nameParts
               | None => nameParts
               end) l acc) ->
    In p acc \/
    (isSkip p = false /\
     exists i d, In (i, p) l /\ nth_error dims i = Some d /\ severalRealChoices d = true)).
  { induction l as [|[i value] l IH]; intros acc; simpl; [auto|].
    intros H. apply IH in H as [H|(Hs & i' & d' & H1 & H2 & H3)].
    - destruct (nth_error dims i) as [d|] eqn:Ed; [|now left].
      destruct (isSkip value) eqn:Es; simpl in H; [now left|].
      destruct (severalRealChoices d) eqn:Ec; [|now left].
      apply in_app_iff in H as [H|[<-|[]]]; [now left|].
      right. split; [exact Es|]. exists i, d. repeat split; auto.
    - right. split; [exact Hs|]. exists i', d'. repeat split; auto. }
  intros H. apply G in H as [[]|(Hs & i & d & H1 & H2 & H3)].
  split; [exact Hs|]. exists i, d. split; [now apply in_indexed|]. now split.
Qed.

Lemma isSkip_false (v : string) : isSkip v = false <-> v <> "skip".
Proof. unfold isSkip. apply String.eqb_neq. Qed.

(** X5.  In the combinations of the interactive flow the sentinel [skip] is
    never configured: every recorded dimension value is a selected choice,
    other than [skip], of a selected dimension of that name; every part of
    the name is such a choice of a dimension with several real choices; and
    the defaults chosen in step 10 are those of every combination. *)
Theorem interactive_skip_never_configured (configMode : ConfigurationMode)
    (stdioPackage : PackageConfig.t) (defaults argDefaults : Obj.t string)
    (dimensions : list Dimension.t) (c : Combination.t) :
  In c (interactiveCombinations configMode stdioPackage defaults argDefaults dimensions) ->
  Combination.defaults c = defaults /\
  Combination.argDefaults c = argDefaults /\
  (forall k v, In (k, v) (Obj.entries (Combination.dimensionValues c)) ->
     v <> "skip" /\
     exists d, In d dimensions /\ Dimension.name d = k /\ In v (Dimension.choices d)) /\
  (Combination.name c = "defaults" \/
   exists nameParts,
     nameParts <> [] /\
     Combination.name c = toLowerCase (join "-" nameParts) /\
     forall p, In p nameParts ->
       p <> "skip" /\
       exists d, In d dimensions /\ In p (Dimension.choices d) /\
                 severalRealChoices d = true).
Proof.
  unfold interactiveCombinations. intros Hc.
  apply in_map_iff in Hc as (values & <- & Hv). simpl.
  split; [reflexivity|]. split; [reflexivity|]. split.
  - intros k v H.
    apply interactiveDimensionValues_entries in H as (Hs & i & d & Hi & Hd & Hk).
    split; [now apply isSkip_false|].
    destruct (product_entries _ _ _ _ _ Hv Hi) as (d0 & Hd0 & Hin).
    rewrite Hd in Hd0. injection Hd0 as <-.
    exists d. split; [now apply nth_error_In in Hd|]. now split.
  - destruct (interactiveNameParts dimensions values) as [|p0 ps] eqn:E; [now left|].
    right. exists (p0 :: ps). split; [discriminate|]. split; [reflexivity|].
    intros p Hp. rewrite <- E in Hp.
    apply interactiveNameParts_parts in Hp as (Hs & i & d & Hi & Hd & Hc).
    split; [now apply isSkip_false|].
    destruct (product_entries _ _ _ _ _ Hv Hi) as (d0 & Hd0 & Hin).
    rewrite Hd in Hd0. injection Hd0 as <-.
    exists d. split; [now apply nth_error_In in Hd|]. now split.
Qed.

Lemma interactive_skip_never_configured_witness :
  In skippedCombination
     (interactiveCombinations ModeEnv (stdioPackage [AUTH_MODE_var])
        [("LOG_LEVEL", "info")] [] [AUTH_MODE_selected]) /\
  Combination.defaults skippedCombination = [("LOG_LEVEL", "info")].
Proof.
  assert (H : In skippedCombination
                 (interactiveCombinations ModeEnv (stdioPackage [AUTH_MODE_var])
                    [("LOG_LEVEL", "info")] [] [AUTH_MODE_selected]))
    by (right; left; reflexivity).
  split; [exact H|].
  exact (proj1 (interactive_skip_never_configured ModeEnv (stdioPackage [AUTH_MODE_var])
                  [("LOG_LEVEL", "info")] [] [AUTH_MODE_selected] skippedCombination H)).
Defined.

(** X6.  When no selected dimension has more than one real choice, every
    combination of the interactive flow is named [defaults], whatever its
    dimension values, so all of them share one file name per transport. *)
Theorem interactive_names_collide (configMode : ConfigurationMode)
    (stdioPackage : PackageConfig.t) (defaults argDefaults : Obj.t string)
    (dimensions : list Dimension.t) (t : string) (c : Combination.t) :
  (forall d, In d dimensions -> severalRealChoices d = false) ->
  In c (interactiveCombinations configMode stdioPackage defaults argDefaults dimensions) ->
  Combination.name c = "defaults" /\
  configFilename c t =
    ".mcp.defaults-" ++ (if t =? "streamable-http" then "http" else t) ++ ".json".
Proof.
  intros Hdims Hc.
  assert (Hname : Combination.name c = "defaults").
  { unfold interactiveCombinations in Hc.
    apply in_map_iff in Hc as (values & <- & Hv). simpl.
    destruct (interactiveNameParts dimensions values) as [|p0 ps] eqn:E; [reflexivity|].
    exfalso.
    assert (Hp : In p0 (interactiveNameParts dimensions values)) by (rewrite E; now left).
    apply interactiveNameParts_parts in Hp as (_ & i & d & _ & Hd & Hs).
    apply nth_error_In in Hd. rewrite (Hdims d Hd) in Hs. discriminate. }
  split; [exact Hname|].
  unfold configFilename. now rewrite Hname.
Qed.

Lemma interactive_names_collide_witness :
  interactiveCombinations ModeEnv (stdioPackage [AUTH_MODE_var])
    [("LOG_LEVEL", "info")] [] [AUTH_MODE_selected]
  = [oauthSelectedCombination; skippedCombination] /\
  configFilename oauthSelectedCombination "stdio" = ".mcp.defaults-stdio.json" /\
  configFilename skippedCombination "stdio" = ".mcp.defaults-stdio.json".
Proof.
  assert (Hd : forall d, In d [AUTH_MODE_selected] -> severalRealChoices d = false)
    by (intros d [<-|[]]; reflexivity).
  split; [reflexivity|]. split.
  - exact (proj2 (interactive_names_collide ModeEnv (stdioPackage [AUTH_MODE_var])
                    [("LOG_LEVEL", "info")] [] [AUTH_MODE_selected] "stdio"
                    oauthSelectedCombination Hd (or_introl eq_refl))).
  - exact (proj2 (interactive_names_collide ModeEnv (stdioPackage [AUTH_MODE_var])
                    [("LOG_LEVEL", "info")] [] [AUTH_MODE_selected] "stdio"
                    skippedCombination Hd (or_intror (or_introl eq_refl)))).
Defined.

(* ================================================================= *)
(** ** Redaction and placeholders *)

Lemma append_assoc (a b c : string) : (a ++ b) ++ c = a ++ (b ++ c).
Proof. induction a as [|x a IH]; simpl; [reflexivity | now rewrite IH]. Qed.

Lemma append_empty_r (a : string) : a ++ "" = a.
Proof. induction a as [|x a IH]; simpl; [reflexivity | now rewrite IH]. Qed.

Lemma prefix_substring (n : nat) (s : string) : prefix (substring 0 n s) s = true.
Proof.
  revert s. induction n as [|n IH]; intros [|c s]; simpl; try reflexivity.
  rewrite IH. now destruct (ascii_dec c c).
Qed.

Lemma length_substring (n : nat) (s : string) :
  String.length (substring 0 n s) = Nat.min n (String.length s).
Proof.
  revert s. induction n as [|n IH]; intros [|c s]; simpl; try reflexivity.
  now rewrite IH.
Qed.

(** X7.  [redactValue] shows a value that is not secret as it is.  Of a
    secret it shows three capital X after a prefix of the value: the empty
    prefix when the value has at most six characters, its first four
    characters otherwise, and never more. *)
Theorem redactValue_reveals_prefix (value : string) :
  redactValue value false = value /\
  exists shown,
    redactValue value true = shown ++ "XXX" /\
    prefix shown value = true /\
    (String.length value <= 6 -> shown = "")%nat /\
    (6 < String.length value -> String.length shown = 4)%nat.
Proof.
  split; [reflexivity|].
  unfold redactValue. simpl.
  destruct (Nat.leb_spec (String.length value) 6) as [Hle|Hgt].
  - exists "". repeat split.
    + now destruct value.
    + lia.
  - exists (substring 0 4 value). repeat split.
    + apply prefix_substring.
    + lia.
    + intros _. rewrite length_substring. lia.
Qed.

Lemma replaceTokens_literal (variables : Obj.t string) (pre rest : string) :
  (forall c, In c (list_ascii_of_string pre) -> c <> "{"%char) ->
  replaceTokens variables None (pre ++ rest) = pre ++ replaceTokens variables None rest.
Proof.
  induction pre as [|c pre IH]; intros H; simpl; [reflexivity|].
  destruct (Ascii.eqb_spec c "{") as [->|_].
  - exfalso. apply (H "{"%char); [now left | reflexivity].
  - rewrite IH; [reflexivity|]. intros c' Hc'. apply H. now right.
Qed.


Lemma replaceTokens_no_variables (pending : option string) (t : string) :
  replaceTokens [] pending t =
    match pending with
    | None => t
    | Some varName => "{" ++ varName ++ t
    end.
Proof.
  revert pending. induction t as [|c t IH]; intros [varName|]; simpl.
  - now rewrite append_empty_r.
  - reflexivity.
  - destruct (Ascii.eqb_spec c "}") as [->|_].
    + rewrite (IH None).
      assert (E : (if truthy varName then replaceToken [] varName else "{}")
                  = "{" ++ varName ++ "}").
      { destruct varName; reflexivity. }
      rewrite E. simpl. now rewrite append_assoc.
    + rewrite (IH (Some (varName ++ String c ""))). simpl.
      now rewrite append_assoc.
  - destruct (Ascii.eqb_spec c "{") as [->|_].
    + now rewrite (IH (Some "")).
    + now rewrite (IH None).
Qed.




(** X9.  [substituteTemplateVars] returns the template as it is when no
    variables are given, when the variables have no entry, and when the
    template has no opening brace. *)
Theorem substituteTemplateVars_unchanged (template : option string)
    (variables : option (Obj.t string)) (t : string) :
  substituteTemplateVars template None = template /\
  substituteTemplateVars template (Some []) = template /\
  ((forall c, In c (list_ascii_of_string t) -> c <> "{"%char) ->
   substituteTemplateVars (Some t) variables = Some t).
Proof.
  split; [|split].
  - now destruct template.
  - destruct template as [s|]; [|reflexivity]. simpl.
    destruct (truthy s); [|reflexivity].
    now rewrite (replaceTokens_no_variables None).
  - intros H. destruct variables as [vars|]; [|reflexivity]. simpl.
    destruct (truthy t); [|reflexivity].
    pose proof (replaceTokens_literal vars t "" H) as E.
    rewrite append_empty_r in E. rewrite E. simpl. now rewrite append_empty_r.
Qed.

(* ================================================================= *)
(** ** Prompting for environment variables *)

(** Resolving a variable leaves the values of the other names alone. *)
Lemma promptForEnvVar_get_other (host : Host) (serverName : string)
    (options : PromptOptions.t) (env : Obj.t string) (envVar : EnvVarMetadata.t)
    (trace : list Event) (k : string) :
  EnvVarMetadata.name envVar <> k ->
  Obj.get (fst (promptForEnvVar host serverName options env envVar trace)) k = Obj.get env k.
Proof.
  intros Hne. unfold promptForEnvVar. run_prompt.
  repeat match goal with
         | |- context [if ?b then _ else _] => destruct b; simpl
         | |- context [match usableFirstChoice ?c with _ => _ end] =>
             destruct (usableFirstChoice c); simpl
         end;
    try reflexivity; now apply get_set_other.
Qed.

Lemma foldM_promptForEnvVar_get_other (host : Host) (serverName : string)
    (options : PromptOptions.t) (envVars : list EnvVarMetadata.t) (k : string) :
  ~ In k (map EnvVarMetadata.name envVars) ->
  forall env trace,
    Obj.get (fst (foldM (promptForEnvVar host serverName options) envVars env trace)) k
    = Obj.get env k.
Proof.
  induction envVars as [|envVar envVars IH]; intros Hk env trace; simpl; [reflexivity|].
  simpl in Hk. unfold bind at 1.
  pose proof (promptForEnvVar_get_other host serverName options env envVar trace k) as Hstep.
  destruct (promptForEnvVar host serverName options env envVar trace) as [env' trace'].
  rewrite IH by tauto. simpl in Hstep. apply Hstep. tauto.
Qed.

(** Without a terminal and without the quick option a variable is resolved
    from the manifest alone, and nothing is shown. *)
Lemma promptForEnvVar_without_terminal (host : Host) (serverName : string)
    (options : PromptOptions.t) (env : Obj.t string) (envVar : EnvVarMetadata.t)
    (trace : list Event) :
  isTTY host = false ->
  isTrue (PromptOptions.yes options) = false ->
  let defaultValue :=
    nullish (EnvVarMetadata.default envVar) (EnvVarMetadata.value envVar) in
  promptForEnvVar host serverName options env envVar trace =
    (match (if truthyOpt defaultValue then defaultValue
            else usableFirstChoice (EnvVarMetadata.choices envVar)) with
     | Some v => Obj.set (EnvVarMetadata.name envVar) v env
     | None => env
     end, trace).
Proof.
  intros Htty Hyes defaultValue. unfold promptForEnvVar.
  fold defaultValue. rewrite Htty, Hyes.
  destruct defaultValue as [d|] eqn:Ed; simpl.
  - destruct (truthy d); [reflexivity|].
    rewrite !andb_false_r. simpl.
    destruct (usableFirstChoice _); [reflexivity|].
    now destruct (isTrue (EnvVarMetadata.isRequired envVar)).
  - rewrite !andb_false_r. simpl.
    destruct (usableFirstChoice _); [reflexivity|].
    now destruct (isTrue (EnvVarMetadata.isRequired envVar)).
Qed.

(** X10.  Without a terminal and without the quick option,
    [promptForEnvVars] shows nothing and asks nothing, and reads neither the
    process environment nor an answer: a variable declared once gets its
    non-empty default (or legacy value), else the first of its choices when
    that is a non-empty string, else no value at all, required or not. *)
Theorem prompting_without_terminal (host : Host) (serverName : string)
    (envVars : list EnvVarMetadata.t) (options : PromptOptions.t) (trace : list Event) :
  isTTY host = false ->
  isTrue (PromptOptions.yes options) = false ->
  NoDup (map EnvVarMetadata.name envVars) ->
  let result := promptForEnvVars host serverName envVars options trace in
  snd result = trace /\
  forall envVar, In envVar envVars ->
    let defaultValue :=
      nullish (EnvVarMetadata.default envVar) (EnvVarMetadata.value envVar) in
    Obj.get (fst result) (EnvVarMetadata.name envVar) =
      if truthyOpt defaultValue then defaultValue
      else usableFirstChoice (EnvVarMetadata.choices envVar).
Proof.
  intros Htty Hyes. unfold promptForEnvVars. cbv zeta.
  assert (G : forall l env tr,
    NoDup (map EnvVarMetadata.name l) ->
    snd (foldM (promptForEnvVar host serverName options) l env tr) = tr /\
    forall envVar, In envVar l ->
      Obj.get env (EnvVarMetadata.name envVar) = None ->
      Obj.get (fst (foldM (promptForEnvVar host serverName options) l env tr))
              (EnvVarMetadata.name envVar) =
        if truthyOpt (nullish (EnvVarMetadata.default envVar) (EnvVarMetadata.value envVar))
        then nullish (EnvVarMetadata.default envVar) (EnvVarMetadata.value envVar)
        else usableFirstChoice (EnvVarMetadata.choices envVar)).
  { induction l as [|e l IH]; intros env tr Hnd; simpl.
    - split; [reflexivity | intros ? []].
    - inversion Hnd as [|? ? Hnotin Hnd']; subst.
      unfold bind at 1 2.
      pose proof (promptForEnvVar_without_terminal host serverName options env e tr
                    Htty Hyes) as Hstep.
      cbv zeta in Hstep. rewrite Hstep.
      split; [now apply IH|].
      intros envVar [<-|Hin] Hget.
      + rewrite foldM_promptForEnvVar_get_other by assumption.
        destruct (if truthyOpt _ then _ else _) as [v|].
        * apply get_set_same.
        * exact Hget.
      + apply IH; [assumption | assumption|].
        assert (Hne : EnvVarMetadata.name e <> EnvVarMetadata.name envVar).
        { intros E. apply Hnotin. rewrite E. now apply in_map. }
        destruct (if truthyOpt _ then _ else _) as [v|]; [|exact Hget].
        rewrite get_set_other by assumption. exact Hget. }
  intros Hnd. destruct (G envVars Obj.empty trace Hnd) as [G1 G2].
  split; [exact G1|]. intros envVar Hin. now apply G2.
Qed.

Lemma prompting_without_terminal_witness :
  isTTY batchHost = false /\
  isTrue (PromptOptions.yes (PromptOptions.mk None None)) = false /\
  NoDup (map EnvVarMetadata.name [LOG_LEVEL_var; LOG_FORMAT; API_KEY_required]) /\
  promptForEnvVars batchHost "server" [LOG_LEVEL_var; LOG_FORMAT; API_KEY_required]
    (PromptOptions.mk None None) [] =
    ([("LOG_LEVEL", "info"); ("LOG_FORMAT", "json")], []) /\
  Obj.get (fst (promptForEnvVars batchHost "server"
                  [LOG_LEVEL_var; LOG_FORMAT; API_KEY_required]
                  (PromptOptions.mk None None) []))
          "API_KEY" = None.
Proof.
  assert (Hnd : NoDup (map EnvVarMetadata.name [LOG_LEVEL_var; LOG_FORMAT; API_KEY_required])).
  { simpl. repeat constructor; simpl; intuition discriminate. }
  split; [reflexivity|]. split; [reflexivity|]. split; [exact Hnd|].
  split; [reflexivity|].
  exact (proj2 (prompting_without_terminal batchHost "server"
                  [LOG_LEVEL_var; LOG_FORMAT; API_KEY_required]
                  (PromptOptions.mk None None) [] eq_refl eq_refl Hnd)
           API_KEY_required (or_intror (or_intror (or_introl eq_refl)))).
Defined.

(** X11.  A non-empty declared default (or legacy value) always wins: on
    every host, with or without the quick option, whatever the process
    environment holds and the user answers, the variable is resolved to it
    without anything being shown, and when it is declared once that is its
    value in the result of [promptForEnvVars]. *)
Theorem declared_default_wins (host : Host) (serverName : string)
    (envVars : list EnvVarMetadata.t) (options : PromptOptions.t) (trace : list Event)
    (envVar : EnvVarMetadata.t) (d : string) :
  nullish (EnvVarMetadata.default envVar) (EnvVarMetadata.value envVar) = Some d ->
  d <> "" ->
  (forall env tr,
     promptForEnvVar host serverName options env envVar tr =
       (Obj.set (EnvVarMetadata.name envVar) d env, tr)) /\
  (NoDup (map EnvVarMetadata.name envVars) -> In envVar envVars ->
   Obj.get (fst (promptForEnvVars host serverName envVars options trace))
           (EnvVarMetadata.name envVar) = Some d).
Proof.
  intros Hd Hne.
  assert (Hstep : forall env tr,
            promptForEnvVar host serverName options env envVar tr =
              (Obj.set (EnvVarMetadata.name envVar) d env, tr)).
  { intros env tr. unfold promptForEnvVar. rewrite Hd. simpl.
    unfold truthy. apply String.eqb_neq in Hne. now rewrite Hne. }
  split; [exact Hstep|].
  unfold promptForEnvVars. generalize (@Obj.empty string) as env. revert trace.
  induction envVars as [|e l IH]; intros tr env Hnd Hin; [destruct Hin|].
  inversion Hnd as [|? ? Hnotin Hnd']; subst.
  simpl. unfold bind at 1.
  destruct Hin as [->|Hin].
  - rewrite Hstep. rewrite foldM_promptForEnvVar_get_other by assumption.
    apply get_set_same.
  - destruct (promptForEnvVar host serverName options env e tr) as [env' tr'].
    now apply IH.
Qed.

Lemma declared_default_wins_witness :
  nullish (EnvVarMetadata.default LOG_LEVEL_var) (EnvVarMetadata.value LOG_LEVEL_var)
    = Some "info" /\
  "info" <> "" /\
  promptForEnvVars interactiveHost "server" [LOG_LEVEL_var] (PromptOptions.mk None None) []
    = ([("LOG_LEVEL", "info")], []).
Proof.
  assert (H1 : nullish (EnvVarMetadata.default LOG_LEVEL_var)
                 (EnvVarMetadata.value LOG_LEVEL_var) = Some "info") by reflexivity.
  assert (H2 : "info" <> "") by discriminate.
  split; [exact H1|]. split; [exact H2|].
  exact (proj1 (declared_default_wins interactiveHost "server" [LOG_LEVEL_var]
                  (PromptOptions.mk None None) [] LOG_LEVEL_var "info" H1 H2)
           Obj.empty []).
Defined.

(* ================================================================= *)
(** ** The command line of a configuration *)

Lemma named_args_appended (entries : list (string * string)) (args : list string) :
  fold_left (fun args entry => let '(argName, argValue) := entry in
                               (args ++ [argName; argValue])%list)
            entries args
  = (args ++ flat_map (fun entry => [fst entry; snd entry]) entries)%list.
Proof.
  revert args. induction entries as [|[n v] entries IH]; intros args; simpl.
  - now rewrite app_nil_r.
  - rewrite IH, <- app_assoc. reflexivity.
Qed.

(** The arguments are the base command line, the named arguments, and for
    http the port. *)
Lemma completeArgs_shape (params : BuildParams.t) (pkg : PackageConfig.t)
    (args0 : list string) :
  completeArgs params pkg args0 =
    (args0
     ++ flat_map (fun entry => [fst entry; snd entry])
          (Obj.entries
             (Obj.spread
                [Combination.argDefaults (BuildParams.combination params);
                 snd (separateDimensions
                        (map CliArgMetadata.name (PackageConfig.packageArguments pkg))
                        (Combination.dimensionValues (BuildParams.combination params)))]))
     ++ (if isHttpTransport (BuildParams.transport params)
         then ["--port";
               stringOfNumber (match BuildParams.httpPort params with
                               | Some p => p
                               | None => 3000%N
                               end)]
         else []))%list.
Proof.
  unfold completeArgs.
  destruct (separateDimensions _ _) as [envDimensions argDimensions].
  rewrite named_args_appended. simpl snd.
  destruct (isHttpTransport (BuildParams.transport params)).
  - rewrite <- app_assoc. reflexivity.
  - now rewrite app_nil_r.
Qed.

(** X12.  [buildServerConfig] fails in exactly two situations: the manifest
    has no package for the transport, or source mode is requested without a
    non-empty package directory and bin path.  In the first it fails before
    anything is asked; in the second only after the environment variables
    have been resolved, so what the prompts showed and were answered is
    lost. *)
Theorem build_failures (host : Host) (envPromptFn : PromptFn) (params : BuildParams.t)
    (trace : list Event) :
  let package :=
    BuildParams.metadataReader params (BuildParams.metadata params)
      (transportTypeOf (BuildParams.transport params)) in
  ((exists message, fst (buildServerConfig host envPromptFn params trace) = inl message) <->
   package = None \/
   (isTrue (BuildParams.useSource params) = true /\
    (truthyOpt (BuildParams.packageDir params) = false \/
     truthyOpt (BuildParams.binPath params) = false))) /\
  (package = None ->
   buildServerConfig host envPromptFn params trace =
     (inl ("No " ++ BuildParams.transport params ++ " transport available"), trace)) /\
  (forall pkg, package = Some pkg ->
   snd (buildServerConfig host envPromptFn params trace) =
     snd (resolveEnv envPromptFn params pkg trace)).
Proof.
  cbv zeta. unfold buildServerConfig.
  destruct (BuildParams.metadataReader params _ _) as [pkg|].
  - unfold bind.
    destruct (resolveEnv envPromptFn params pkg trace) as [env trace'] eqn:Er.
    assert (Hbase : (exists message, baseCommand host params = inl message) <->
                    isTrue (BuildParams.useSource params) = true /\
                    (truthyOpt (BuildParams.packageDir params) = false \/
                     truthyOpt (BuildParams.binPath params) = false)).
    { unfold baseCommand.
      destruct (isTrue (BuildParams.useSource params)).
      - destruct (BuildParams.packageDir params) as [dir|]; simpl.
        + destruct (truthy dir); simpl.
          * destruct (BuildParams.binPath params) as [bin|]; simpl.
            -- destruct (truthy bin); simpl.
               ++ split; [intros (m & H); discriminate | intros (_ & [H|H]); discriminate].
               ++ split; [auto | eauto].
            -- split; [auto | eauto].
          * split; [auto | eauto].
        + split; [auto | eauto].
      - split; [intros (m & H); discriminate | intros (H & _); discriminate]. }
    split; [|split].
    + destruct (baseCommand host params) as [message|[command args0]].
      * split; [intros _; right; apply Hbase; now exists message
               | intros _; now exists message].
      * split.
        -- intros (m & H). destruct (isHttpTransport _); discriminate.
        -- intros [H|H]; [discriminate|]. apply Hbase in H as (m & H). discriminate.
    + discriminate.
    + intros pkg' H. injection H as <-. rewrite Er.
      destruct (baseCommand host params) as [message|[command args0]]; [reflexivity|].
      destruct (isHttpTransport _); reflexivity.
  - split; [|split].
    + split; [auto | intros _; eexists; reflexivity].
    + reflexivity.
    + discriminate.
Qed.

(** X13.  A configuration that is built always has an [args] field: it
    starts with [-y] and the package name after the command [npx], or in
    source mode with the resolved path of the bin entry after the command
    [node].  For the transports [http] and [streamable-http] the arguments
    end with [--port] and the port, the same port as in the [url], and the
    command line is the [start] block; for every other transport it is the
    configuration itself. *)
Theorem command_line_of_config (host : Host) (envPromptFn : PromptFn)
    (params : BuildParams.t) (trace : list Event) (config : ServerConfig) :
  fst (buildServerConfig host envPromptFn params trace) = inr config ->
  let http := isHttpTransport (BuildParams.transport params) in
  let port :=
    stringOfNumber (match BuildParams.httpPort params with Some p => p | None => 3000%N end) in
  let httpHost :=
    match BuildParams.httpHost params with Some h => h | None => "localhost" end in
  exists shape named,
    stdioShape config = Some shape /\
    let rest := (named ++ (if http then ["--port"; port] else []))%list in
    ((isTrue (BuildParams.useSource params) = false /\
      ServerConfigStdio.command shape = "npx" /\
      ServerConfigStdio.args shape
        = Some ("-y" :: BuildParams.packageName params :: rest)) \/
     (isTrue (BuildParams.useSource params) = true /\
      exists packageDir binPath,
        BuildParams.packageDir params = Some packageDir /\
        BuildParams.binPath params = Some binPath /\
        ServerConfigStdio.command shape = "node" /\
        ServerConfigStdio.args shape
          = Some (pathJoin host (pathResolve host packageDir) binPath :: rest))) /\
    config =
      (if http
       then HttpConfig
              (ServerConfigHttp.mk ("http://" ++ httpHost ++ ":" ++ port ++ "/mcp")
                 (Some shape))
       else StdioConfig shape).
Proof.
  unfold buildServerConfig.
  destruct (BuildParams.metadataReader params _ _) as [pkg|]; [|discriminate].
  unfold bind.
  destruct (resolveEnv envPromptFn params pkg trace) as [env trace'].
  destruct (baseCommand host params) as [message|[command args0]] eqn:Eb; [discriminate|].
  intros H. cbv zeta.
  exists (stdioObject command (completeArgs params pkg args0) env).
  eexists.
  assert (Hconfig :
    config =
      if isHttpTransport (BuildParams.transport params)
      then HttpConfig
             (ServerConfigHttp.mk
                ("http://"
                 ++ match BuildParams.httpHost params with Some h => h | None => "localhost" end
                 ++ ":"
                 ++ stringOfNumber
                      (match BuildParams.httpPort params with Some p => p | None => 3000%N end)
                 ++ "/mcp")
                (Some (stdioObject command (completeArgs params pkg args0) env)))
      else StdioConfig (stdioObject command (completeArgs params pkg args0) env)).
  { destruct (isHttpTransport (BuildParams.transport params));
      unfold ret in H; simpl in H; injection H as <-; reflexivity. }
  split; [|split; [|exact Hconfig]].
  - rewrite Hconfig. now destruct (isHttpTransport (BuildParams.transport params)).
  - rewrite completeArgs_shape. unfold baseCommand in Eb.
    destruct (isTrue (BuildParams.useSource params)).
    + right. split; [reflexivity|].
      destruct (BuildParams.packageDir params) as [dir|]; [|discriminate].
      destruct (truthy dir); [|discriminate].
      destruct (BuildParams.binPath params) as [bin|]; [|discriminate].
      destruct (truthy bin); [|discriminate].
      simpl in Eb. injection Eb as <- <-.
      exists dir, bin. repeat split.
    + left. injection Eb as <- <-. repeat split.
Qed.

Lemma command_line_of_config_witness :
  fst (buildServerConfig batchHost (promptForEnvVars batchHost) httpChoiceParams [])
    = inr httpChoiceConfig /\
  exists shape named,
    stdioShape httpChoiceConfig = Some shape /\
    ((false = false /\
      ServerConfigStdio.command shape = "npx" /\
      ServerConfigStdio.args shape
        = Some ("-y" :: "@org/server" :: named ++ ["--port"; "3000"])%list) \/
     (false = true /\
      exists packageDir binPath,
        @None string = Some packageDir /\
        @None string = Some binPath /\
        ServerConfigStdio.command shape = "node" /\
        ServerConfigStdio.args shape
          = Some (pathJoin batchHost (pathResolve batchHost packageDir) binPath
                    :: named ++ ["--port"; "3000"])%list)) /\
    httpChoiceConfig =
      HttpConfig (ServerConfigHttp.mk "http://localhost:3000/mcp" (Some shape)).
Proof.
  split; [reflexivity|].
  exact (command_line_of_config batchHost (promptForEnvVars batchHost) httpChoiceParams []
           httpChoiceConfig eq_refl).
Defined.

(* ================================================================= *)
(** ** Dimension values in the configuration *)

Lemma unique_value {V} (o : Obj.t V) (k : string) (v v' : V) :
  NoDup (Obj.keys o) -> In (k, v) o -> In (k, v') o -> v = v'.
Proof.
  unfold Obj.keys. induction o as [|[k0 v0] o IH]; simpl; [intros _ []|].
  intros Hnd. inversion Hnd as [|? ? Hnotin Hnd']; subst.
  intros [H|H] [H'|H'].
  - congruence.
  - injection H as -> ->. elim Hnotin. now apply (in_map fst) in H'.
  - injection H' as -> ->. elim Hnotin. now apply (in_map fst) in H.
  - now apply IH.
Qed.

Lemma get_unique {V} (o : Obj.t V) (k : string) (v : V) :
  In k (Obj.keys o) -> (forall v', In (k, v') o -> v' = v) -> Obj.get o k = Some v.
Proof.
  intros Hin Hv. destruct (Obj.get o k) as [v'|] eqn:E.
  - apply get_Some_In in E. now rewrite (Hv v' E).
  - apply get_None_iff in E. contradiction.
Qed.

(** After [Object.assign] a key of the source has the value of the source. *)
Lemma get_assign_in {V} (target src : Obj.t V) (k : string) (v : V) :
  In k (Obj.keys src) -> (forall v', In (k, v') src -> v' = v) ->
  Obj.get (Obj.assign target src) k = Some v.
Proof.
  unfold Obj.assign, Obj.entries, Obj.keys. revert target.
  induction src as [|[k0 v0] src IH]; intros target Hin Hv; simpl; [destruct Hin|].
  destruct (in_dec string_dec k (map fst src)) as [Hk|Hk].
  - apply IH; [exact Hk|]. intros v' H. apply Hv. now right.
  - pose proof (get_assign_not_in (Obj.set k0 v0 target) src k Hk) as E.
    unfold Obj.assign, Obj.entries in E. rewrite E.
    destruct Hin as [Hin|Hin]; [|contradiction]. simpl in Hin. subst k0.
    rewrite (Hv v0) by now left. apply get_set_same.
Qed.

(** The two records [separateDimensions] fills: their entries are dimension
    values, and every dimension value is a key of one of them. *)
Lemma separateDimensions_entries allPackageArgNames dimensionValues k v :
  In (k, v) (fst (separateDimensions allPackageArgNames dimensionValues)) \/
  In (k, v) (snd (separateDimensions allPackageArgNames dimensionValues)) ->
  In (k, v) dimensionValues.
Proof.
  unfold separateDimensions, Obj.entries.
  assert (G : forall (l : list (string * string)) (acc : Obj.t string * Obj.t string),
    let result :=
      fold_left
        (fun acc entry =>
           let '(envDimensions, argDimensions) := acc in
           let '(key, value) := entry in
           if includes allPackageArgNames key
           then (envDimensions, Obj.set key value argDimensions)
           else (Obj.set key value envDimensions, argDimensions)) l acc in
    In (k, v) (fst result) \/ In (k, v) (snd result) ->
    In (k, v) (fst acc) \/ In (k, v) (snd acc) \/ In (k, v) l).
  { induction l as [|[key value] l IH]; intros [envD argD]; cbv zeta; simpl; [tauto|].
    intros H. apply IH in H.
    destruct (includes allPackageArgNames key); simpl in H.
    - destruct H as [H|[H|H]]; [tauto| |tauto].
      apply in_entries_set in H as [[-> ->]|H]; tauto.
    - destruct H as [H|[H|H]]; [|tauto|tauto].
      apply in_entries_set in H as [[-> ->]|H]; tauto. }
  intros H. apply G in H. simpl in H. tauto.
Qed.

Lemma separateDimensions_keys allPackageArgNames dimensionValues k :
  In k (Obj.keys dimensionValues) ->
  if includes allPackageArgNames k
  then In k (Obj.keys (snd (separateDimensions allPackageArgNames dimensionValues)))
  else In k (Obj.keys (fst (separateDimensions allPackageArgNames dimensionValues))).
Proof.
  unfold separateDimensions, Obj.entries, Obj.keys at 1.
  assert (G : forall (l : list (string * string)) (acc : Obj.t string * Obj.t string),
    let result :=
      fold_left
        (fun acc entry =>
           let '(envDimensions, argDimensions) := acc in
           let '(key, value) := entry in
           if includes allPackageArgNames key
           then (envDimensions, Obj.set key value argDimensions)
           else (Obj.set key value envDimensions, argDimensions)) l acc in
    (if includes allPackageArgNames k
     then In k (Obj.keys (snd acc)) else In k (Obj.keys (fst acc))) \/ In k (map fst l) ->
    if includes allPackageArgNames k
    then In k (Obj.keys (snd result)) else In k (Obj.keys (fst result))).
  { induction l as [|[key value] l IH]; intros [envD argD]; cbv zeta; simpl.
    - intros [H|[]]. exact H.
    - intros H. apply IH.
      destruct (includes allPackageArgNames key) eqn:Ek; simpl.
      + destruct (includes allPackageArgNames k) eqn:Ei.
        * rewrite in_keys_set. destruct H as [H|[H|H]]; auto.
        * destruct H as [H|[H|H]]; auto. subst key. congruence.
      + destruct (includes allPackageArgNames k) eqn:Ei.
        * destruct H as [H|[H|H]]; auto. subst key. congruence.
        * rewrite in_keys_set. destruct H as [H|[H|H]]; auto. }
  intros H. apply (G dimensionValues (Obj.empty, Obj.empty)). now right.
Qed.

(** Nothing that already has a value is handed to the prompt. *)
Lemma selectEnvVarsToPrompt_not_prepopulated optionalVarsToPrompt allEnvVars matching
    prePopulatedEnvKeys dimensionValues envVar :
  In envVar (selectEnvVarsToPrompt optionalVarsToPrompt allEnvVars matching
               prePopulatedEnvKeys dimensionValues) ->
  ~ In (EnvVarMetadata.name envVar) prePopulatedEnvKeys.
Proof.
  unfold selectEnvVarsToPrompt. intros H Hin. apply includes_true_iff in Hin.
  destruct optionalVarsToPrompt as [[|sel selected]|].
  - apply filter_In in H as [_ H]. rewrite Hin in H. discriminate.
  - apply in_app_or in H as [H|H]; apply filter_In in H as [_ H];
      rewrite Hin in H; simpl in H; [discriminate|].
    now rewrite !andb_false_r in H.
  - apply filter_In in H as [_ H]. rewrite Hin in H. discriminate.
Qed.

Lemma consecutive_in_flat_map (entries : list (string * string)) (k v : string) :
  In (k, v) entries ->
  exists before after,
    flat_map (fun entry => [fst entry; snd entry]) entries
    = (before ++ k :: v :: after)%list.
Proof.
  intros H. apply in_split in H as (l1 & l2 & ->).
  rewrite flat_map_app. simpl. eauto.
Qed.

(** X14.  A dimension value of the combination always reaches the
    configuration that is built with [promptForEnvVars]: under the name of
    a package argument it is passed on the command line, the name directly
    followed by the value; under any other name it is the value of that
    name in [env], where neither a default nor the process environment nor
    an answer to a prompt replaces it. *)
Theorem dimension_value_reaches_config (host : Host) (params : BuildParams.t)
    (trace : list Event) (config : ServerConfig) (pkg : PackageConfig.t) (k v : string) :
  let dimensionValues := Combination.dimensionValues (BuildParams.combination params) in
  let argNames := map CliArgMetadata.name (PackageConfig.packageArguments pkg) in
  fst (buildServerConfig host (promptForEnvVars host) params trace) = inr config ->
  BuildParams.metadataReader params (BuildParams.metadata params)
    (transportTypeOf (BuildParams.transport params)) = Some pkg ->
  NoDup (Obj.keys dimensionValues) ->
  In (k, v) (Obj.entries dimensionValues) ->
  (~ In k argNames -> Obj.get (emittedEnv config) k = Some v) /\
  (In k argNames ->
   exists shape before after,
     stdioShape config = Some shape /\
     ServerConfigStdio.args shape = Some (before ++ k :: v :: after)%list).
Proof.
  cbv zeta. intros Hbuild Hpkg Hnd Hkv.
  destruct (buildServerConfig_returns _ _ _ _ _ Hbuild)
    as (pkg' & command & args0 & Hpkg' & Hcmd & Hshape).
  rewrite Hpkg in Hpkg'. injection Hpkg' as <-.
  set (argNames := map CliArgMetadata.name (PackageConfig.packageArguments pkg)) in *.
  set (dimensionValues := Combination.dimensionValues (BuildParams.combination params)) in *.
  assert (Hk : In k (Obj.keys dimensionValues)) by (now apply (in_map fst) in Hkv).
  pose proof (separateDimensions_keys argNames dimensionValues k Hk) as Hkeys.
  assert (Hval : forall v',
            In (k, v') (fst (separateDimensions argNames dimensionValues)) \/
            In (k, v') (snd (separateDimensions argNames dimensionValues)) -> v' = v).
  { intros v' H. apply separateDimensions_entries in H.
    exact (unique_value _ _ _ _ Hnd H Hkv). }
  split.
  - intros Hnot. apply includes_false_iff in Hnot. rewrite Hnot in Hkeys.
    rewrite (emittedEnv_stdioObject _ _ _ _ Hshape).
    unfold resolveEnv. fold dimensionValues. fold argNames.
    destruct (separateDimensions argNames dimensionValues)
      as [envDimensions argDimensions] eqn:Es.
    simpl in Hkeys, Hval. unfold bind, ret.
    match goal with
    | |- context [promptForEnvVars host ?ctx ?vars ?opts trace] =>
        pose proof (promptForEnvVars_keys host ctx vars opts trace k) as Hprompt;
        assert (Hvars : forall e, In e vars ->
                  ~ In (EnvVarMetadata.name e)
                       (Obj.keys (filterDefaults (PackageConfig.environmentVariables pkg)
                                    (BuildParams.combination params))
                        ++ Obj.keys envDimensions)%list)
          by (intros e; apply selectEnvVarsToPrompt_not_prepopulated);
        destruct (promptForEnvVars host ctx vars opts trace) as [promptedEnv trace']
    end.
    simpl fst in *.
    assert (Hnotprompted : ~ In k (Obj.keys promptedEnv)).
    { intros H. apply Hprompt, in_map_iff in H as (e & He & Hin).
      apply (Hvars e Hin). rewrite He. apply in_or_app. now right. }
    unfold Obj.spread. simpl.
    rewrite get_assign_not_in by assumption.
    apply get_assign_in; [exact Hkeys|]. intros v' H. apply Hval. now left.
  - intros Hin. apply includes_true_iff in Hin. rewrite Hin in Hkeys.
    assert (Hget : Obj.get
                     (Obj.spread
                        [Combination.argDefaults (BuildParams.combination params);
                         snd (separateDimensions argNames dimensionValues)]) k = Some v).
    { unfold Obj.spread. simpl.
      apply get_assign_in; [exact Hkeys|]. intros v' H. apply Hval. now right. }
    apply get_Some_In in Hget.
    destruct (consecutive_in_flat_map _ _ _ Hget) as (before & after & E).
    assert (Hargs0 : args0 <> []).
    { unfold baseCommand in Hcmd.
      destruct (isTrue (BuildParams.useSource params)); [|now injection Hcmd as _ <-].
      destruct (BuildParams.packageDir params) as [dir|]; [|discriminate].
      destruct (truthy dir); [|discriminate].
      destruct (BuildParams.binPath params) as [bin|]; [|discriminate].
      destruct (truthy bin); [|discriminate].
      now injection Hcmd as _ <-. }
    exists (stdioObject command (completeArgs params pkg args0)
              (fst (resolveEnv (promptForEnvVars host) params pkg trace))).
    exists (args0 ++ before)%list.
    exists (after ++
            (if isHttpTransport (BuildParams.transport params)
             then ["--port";
                   stringOfNumber (match BuildParams.httpPort params with
                                   | Some p => p
                                   | None => 3000%N
                                   end)]
             else []))%list.
    split; [exact Hshape|].
    rewrite completeArgs_shape. fold dimensionValues. fold argNames.
    unfold Obj.entries. rewrite E.
    destruct args0 as [|a args0]; [contradiction|].
    simpl. rewrite <- !app_assoc. reflexivity.
Qed.

Lemma dimension_value_reaches_config_witness :
  fst (buildServerConfig batchHost (promptForEnvVars batchHost) dcrDebugParams [])
    = inr dcrDebugConfig /\
  BuildParams.metadataReader dcrDebugParams (BuildParams.metadata dcrDebugParams)
    (transportTypeOf (BuildParams.transport dcrDebugParams)) = Some packageWithArg /\
  NoDup (Obj.keys (Combination.dimensionValues dcrDebugCombination)) /\
  In ("AUTH_MODE", "dcr") (Obj.entries (Combination.dimensionValues dcrDebugCombination)) /\
  Obj.get (emittedEnv dcrDebugConfig) "AUTH_MODE" = Some "dcr".
Proof.
  assert (Hnd : NoDup (Obj.keys (Combination.dimensionValues dcrDebugCombination))).
  { simpl. repeat constructor; simpl; intuition discriminate. }
  assert (Hin : In ("AUTH_MODE", "dcr")
                  (Obj.entries (Combination.dimensionValues dcrDebugCombination)))
    by (left; reflexivity).
  split; [reflexivity|]. split; [reflexivity|]. split; [exact Hnd|]. split; [exact Hin|].
  refine (proj1 (dimension_value_reaches_config batchHost dcrDebugParams [] dcrDebugConfig
                   packageWithArg "AUTH_MODE" "dcr" eq_refl eq_refl Hnd Hin) _).
  simpl. intros [H|[]]. discriminate H.
Defined.

(* ================================================================= *)
(** ** Generated configurations under the validator *)

Lemma baseCommand_inv (host : Host) (params : BuildParams.t) (command : string)
    (args0 : list string) :
  baseCommand host params = inr (command, args0) ->
  (command = "npx" \/ command = "node") /\ args0 <> [].
Proof.
  unfold baseCommand.
  destruct (isTrue (BuildParams.useSource params)).
  - destruct (BuildParams.packageDir params) as [dir|]; [|discriminate].
    destruct (truthy dir); [|discriminate].
    destruct (BuildParams.binPath params) as [bin|]; [|discriminate].
    destruct (truthy bin); [|discriminate].
    simpl. intros H. injection H as <- <-. split; [now right | discriminate].
  - intros H. injection H as <- <-. split; [now left | discriminate].
Qed.

(** The configuration that is built, as an object. *)
Lemma buildServerConfig_config (host : Host) (envPromptFn : PromptFn)
    (params : BuildParams.t) (trace : list Event) (config : ServerConfig) :
  fst (buildServerConfig host envPromptFn params trace) = inr config ->
  exists pkg command args0 env,
    baseCommand host params = inr (command, args0) /\
    let shape := stdioObject command (completeArgs params pkg args0) env in
    config =
      if isHttpTransport (BuildParams.transport params)
      then HttpConfig
             (ServerConfigHttp.mk
                ("http://"
                 ++ match BuildParams.httpHost params with Some h => h | None => "localhost" end
                 ++ ":"
                 ++ stringOfNumber
                      (match BuildParams.httpPort params with Some p => p | None => 3000%N end)
                 ++ "/mcp")
                (Some shape))
      else StdioConfig shape.
Proof.
  unfold buildServerConfig.
  destruct (BuildParams.metadataReader params _ _) as [pkg|]; [|discriminate].
  unfold bind.
  destruct (resolveEnv envPromptFn params pkg trace) as [env trace'].
  destruct (baseCommand host params) as [message|[command args0]] eqn:Eb; [discriminate|].
  intros H. exists pkg, command, args0, env. split; [reflexivity|]. cbv zeta.
  destruct (isHttpTransport (BuildParams.transport params));
    unfold ret in H; simpl in H; injection H as <-; reflexivity.
Qed.

Lemma completeArgs_nonempty (params : BuildParams.t) (pkg : PackageConfig.t)
    (args0 : list string) :
  args0 <> [] -> omitIfEmpty (completeArgs params pkg args0) = Some (completeArgs params pkg args0).
Proof.
  intros H. rewrite completeArgs_shape. destruct args0; [contradiction | reflexivity].
Qed.

(** X15.  A configuration that is built never has a structural error when
    it is read back from its file: the validator takes it for an http
    server exactly when it was built for [http] or [streamable-http], and
    reports an error for it only when the manifest found under the server
    name has no package for that kind of server. *)
Theorem generated_config_is_well_formed (host : Host) (envPromptFn : PromptFn)
    (params : BuildParams.t) (trace : list Event) (config : ServerConfig) :
  fst (buildServerConfig host envPromptFn params trace) = inr config ->
  let http := isHttpTransport (BuildParams.transport params) in
  structuralError (parsedConfig config) = None /\
  isHttpServer (parsedConfig config) = http /\
  forall (validatorHost : Host) (serverName : string),
    ValidationResult.severity
      (validateServerConfig validatorHost serverName (parsedConfig config))
      = Some SeverityError ->
    exists metadata,
      readServerMetadata validatorHost serverName = inr metadata /\
      getPackageForTransport metadata (if http then StreamableHttp else Stdio) = None.
Proof.
  intros H. cbv zeta.
  destruct (buildServerConfig_config _ _ _ _ _ H)
    as (pkg & command & args0 & env & Hcmd & Hconfig).
  cbv zeta in Hconfig.
  destruct (baseCommand_inv _ _ _ _ Hcmd) as [Hcommand Hargs0].
  assert (Hstruct : structuralError (parsedConfig config) = None).
  { rewrite Hconfig.
    destruct (isHttpTransport (BuildParams.transport params));
      unfold structuralError, isHttpServer; simpl;
      rewrite completeArgs_nonempty by assumption;
      destruct Hcommand as [-> | ->]; reflexivity. }
  assert (Hhttp : isHttpServer (parsedConfig config)
                  = isHttpTransport (BuildParams.transport params)).
  { rewrite Hconfig.
    destruct (isHttpTransport (BuildParams.transport params)); reflexivity. }
  split; [exact Hstruct|]. split; [exact Hhttp|].
  intros validatorHost serverName. unfold validateServerConfig.
  rewrite Hstruct, Hhttp.
  destruct (readServerMetadata validatorHost serverName) as [message|metadata];
    [discriminate|].
  destruct (getPackageForTransport metadata _) as [vpkg|] eqn:Ep.
  - destruct (missingEnvVars vpkg _); [|discriminate].
    destruct (unknownArgs vpkg _); discriminate.
  - intros _. now exists metadata.
Qed.

Lemma generated_config_is_well_formed_witness :
  fst (buildServerConfig batchHost (promptForEnvVars batchHost) httpChoiceParams [])
    = inr httpChoiceConfig /\
  structuralError (parsedConfig httpChoiceConfig) = None /\
  isHttpServer (parsedConfig httpChoiceConfig) = true.
Proof.
  split; [reflexivity|].
  pose proof (generated_config_is_well_formed batchHost (promptForEnvVars batchHost)
                httpChoiceParams [] httpChoiceConfig eq_refl) as H.
  exact (conj (proj1 H) (proj1 (proj2 H))).
Defined.

(** X16.  The validator warns about every configuration generated for
    [http] or [streamable-http] unless the manifest declares a package
    argument named [--port]: the generated command line passes [--port],
    which is then an unknown argument (when no required variable is missing,
    which is reported first). *)
Theorem generated_http_config_port_warning (host : Host) (envPromptFn : PromptFn)
    (params : BuildParams.t) (trace : list Event) (config : ServerConfig)
    (validatorHost : Host) (serverName : string) (metadata : ServerMetadata.t)
    (pkg : PackageConfig.t) :
  fst (buildServerConfig host envPromptFn params trace) = inr config ->
  isHttpTransport (BuildParams.transport params) = true ->
  readServerMetadata validatorHost serverName = inr metadata ->
  getPackageForTransport metadata StreamableHttp = Some pkg ->
  ~ In "--port" (map CliArgMetadata.name (PackageConfig.packageArguments pkg)) ->
  let result := validateServerConfig validatorHost serverName (parsedConfig config) in
  ValidationResult.valid result = false /\
  ValidationResult.severity result = Some SeverityWarning /\
  (missingEnvVars pkg (envToCheck (parsedConfig config)) = [] ->
   exists unknown,
     In "--port" unknown /\
     ValidationResult.message result =
       Some ("Unknown arguments: " ++ join ", " unknown
             ++ ". May be outdated - consider regenerating config.")).
Proof.
  intros H Hhttp Hread Hpkg Hport.
  destruct (buildServerConfig_config _ _ _ _ _ H)
    as (bpkg & command & args0 & env & Hcmd & Hconfig).
  cbv zeta in Hconfig. rewrite Hhttp in Hconfig.
  destruct (baseCommand_inv _ _ _ _ Hcmd) as [Hcommand Hargs0].
  assert (Hunknown : In "--port" (unknownArgs pkg (completeArgs params bpkg args0))).
  { unfold unknownArgs. apply filter_In. split.
    - rewrite completeArgs_shape, Hhttp. apply in_or_app. right.
      apply in_or_app. right. now left.
    - simpl. apply includes_false_iff in Hport. now rewrite Hport. }
  cbv zeta. unfold validateServerConfig.
  assert (Hstruct : structuralError (parsedConfig config) = None).
  { rewrite Hconfig. unfold structuralError, isHttpServer. simpl.
    rewrite completeArgs_nonempty by assumption.
    destruct Hcommand as [-> | ->]; reflexivity. }
  rewrite Hstruct, Hread.
  assert (Eh : isHttpServer (parsedConfig config) = true) by (now rewrite Hconfig).
  rewrite Eh, Hpkg. unfold isStdioServer. rewrite Eh. simpl negb. cbv iota.
  assert (Eargs : match ParsedServerConfig.start (parsedConfig config) with
                  | Some start => argsOrEmpty (ParsedStdio.args start)
                  | None => []
                  end = completeArgs params bpkg args0).
  { rewrite Hconfig. simpl. now rewrite completeArgs_nonempty by assumption. }
  rewrite Eargs.
  destruct (missingEnvVars pkg (envToCheck (parsedConfig config))) as [|m ms].
  - destruct (unknownArgs pkg (completeArgs params bpkg args0)) as [|u us] eqn:Eu;
      [destruct Hunknown|].
    split; [reflexivity|]. split; [reflexivity|].
    intros _. exists (u :: us). split; [exact Hunknown | reflexivity].
  - split; [reflexivity|]. split; [reflexivity|]. discriminate.
Qed.

Lemma generated_http_config_port_warning_witness :
  fst (buildServerConfig batchHost (promptForEnvVars batchHost) httpChoiceParams [])
    = inr httpChoiceConfig /\
  isHttpTransport (BuildParams.transport httpChoiceParams) = true /\
  validateServerConfig (hostWithManifest httpManifest) "server" (parsedConfig httpChoiceConfig)
    = failure SeverityWarning
        "Unknown arguments: --port. May be outdated - consider regenerating config." /\
  ValidationResult.valid
    (validateServerConfig (hostWithManifest httpManifest) "server"
       (parsedConfig httpChoiceConfig)) = false.
Proof.
  split; [reflexivity|]. split; [reflexivity|]. split; [reflexivity|].
  refine (proj1 (generated_http_config_port_warning batchHost (promptForEnvVars batchHost)
                   httpChoiceParams [] httpChoiceConfig (hostWithManifest httpManifest)
                   "server" httpManifest
                   (PackageConfig.mk "npm" "@org/server" StreamableHttp None [] [])
                   eq_refl eq_refl eq_refl eq_refl _)).
  simpl. intros [].
Defined.

(* ================================================================= *)
(** ** Placeholders and the validation command *)



Lemma reportServer_step (host : Host) (flags : bool * bool)
    (entry : string * ParsedServerConfig.t) (trace : list Event) :
  exists line warned,
    reportServer host flags entry trace =
      ((fst flags || isErrorResult (validateServerConfig host (fst entry) (snd entry)),
        warned),
       (trace ++ [ConsoleLog line])%list).
Proof.
  destruct flags as [hasErrors hasWarnings], entry as [serverName serverConfig].
  unfold reportServer, isErrorResult. simpl.
  destruct (ValidationResult.valid _); simpl.
  - eexists _, _. run_prompt. now rewrite orb_false_r.
  - destruct (ValidationResult.severity _) as [[|]|]; eexists _, _; run_prompt;
      rewrite ?orb_true_r, ?orb_false_r; reflexivity.
Qed.

Lemma reportServers_fold (host : Host) (servers : list (string * ParsedServerConfig.t))
    (flags : bool * bool) (trace : list Event) :
  exists lines warned,
    foldM (reportServer host) servers flags trace =
      ((fst flags
        || existsb (fun entry =>
                      isErrorResult (validateServerConfig host (fst entry) (snd entry)))
                   servers,
        warned),
       (trace ++ map ConsoleLog lines)%list) /\
    List.length lines = List.length servers.
Proof.
  revert flags trace. induction servers as [|entry servers IH]; intros flags trace; simpl.
  - exists [], (snd flags). unfold ret. simpl.
    rewrite orb_false_r, app_nil_r. now destruct flags.
  - unfold bind at 1.
    destruct (reportServer_step host flags entry trace) as (line & warned & ->).
    destruct (IH (fst flags
                  || isErrorResult (validateServerConfig host (fst entry) (snd entry)),
                  warned)
                 (trace ++ [ConsoleLog line])%list)
      as (lines & warned' & -> & Hlen).
    exists (line :: lines), warned'. simpl.
    rewrite <- app_assoc, orb_assoc. simpl. split; [reflexivity | now rewrite Hlen].
Qed.

(** X18.  For a file with servers, [validateCommand] fails exactly when some
    server has an error; warnings, such as a missing required variable or
    an unknown argument, never make it fail.  It reports every server, also
    after an error: besides the two header lines there is one line per
    server, an empty line and, unless it fails, the summary. *)
Theorem validateCommand_outcome (host : Host) (filePath : string)
    (mcpServers : Obj.t ParsedServerConfig.t) (trace : list Event) :
  mcpServers <> [] ->
  let result := validateCommand host filePath (Some (Json (Some mcpServers))) trace in
  let failed :=
    existsb (fun entry => isErrorResult (validateServerConfig host (fst entry) (snd entry)))
            (Obj.entries mcpServers) in
  fst result = (if failed then Some "Validation failed with errors" else None) /\
  (failed = true <->
   exists serverName serverConfig,
     In (serverName, serverConfig) (Obj.entries mcpServers) /\
     ValidationResult.valid (validateServerConfig host serverName serverConfig) = false /\
     ValidationResult.severity (validateServerConfig host serverName serverConfig)
       = Some SeverityError) /\
  exists lines,
    snd result = (trace ++ map ConsoleLog lines)%list /\
    List.length lines = List.length mcpServers + (if failed then 3 else 4).
Proof.
  intros Hservers. cbv zeta.
  assert (Hrun : exists lines warned,
    validateCommand host filePath (Some (Json (Some mcpServers))) trace =
      (let failed :=
         existsb (fun entry =>
                    isErrorResult (validateServerConfig host (fst entry) (snd entry)))
                 (Obj.entries mcpServers) in
       if failed
       then (Some "Validation failed with errors",
             (trace ++ map ConsoleLog
                         (("✅ " ++ filePath ++ " has valid JSON structure" ++ newline)%string
                          :: ("Server Configuration Validation:" ++ newline)%string
                          :: lines ++ [""]))%list)
       else (None,
             (trace ++ map ConsoleLog
                         (("✅ " ++ filePath ++ " has valid JSON structure" ++ newline)%string
                          :: ("Server Configuration Validation:" ++ newline)%string
                          :: lines
                          ++ [""; if warned : bool
                                  then "⚠️  Validation passed with warnings"
                                  else "✅ All validations passed"]))%list)) /\
    List.length lines = List.length mcpServers).
  { unfold validateCommand, Obj.entries.
    destruct mcpServers as [|entry servers]; [contradiction|].
    unfold bind at 1 2. unfold consoleLog, emit. cbv beta iota. unfold bind at 1.
    match goal with
    | |- context [foldM (reportServer host) ?l ?f ?t] =>
        destruct (reportServers_fold host l f t) as (lines & warned & E & Hlen)
    end.
    rewrite E. clear E. exists lines, warned. split; [|exact Hlen].
    cbv zeta. cbn [fst orb].
    destruct (existsb _ (entry :: servers)).
    - unfold bind, ret. simpl. rewrite !map_app. simpl.
      rewrite <- !app_assoc. reflexivity.
    - destruct warned; unfold bind, ret; simpl; rewrite !map_app; simpl;
        rewrite <- !app_assoc; reflexivity. }
  destruct Hrun as (lines & warned & Hrun & Hlen). cbv zeta in Hrun.
  split; [|split].
  - rewrite Hrun. now destruct (existsb _ (Obj.entries mcpServers)).
  - rewrite existsb_exists. unfold isErrorResult. split.
    + intros ([serverName serverConfig] & Hin & H). simpl in H.
      apply andb_true_iff in H as [Hv Hs]. apply negb_true_iff in Hv.
      exists serverName, serverConfig. split; [exact Hin|]. split; [exact Hv|].
      destruct (ValidationResult.severity _) as [[|]|]; try discriminate. reflexivity.
    + intros (serverName & serverConfig & Hin & Hv & Hs).
      exists (serverName, serverConfig). split; [exact Hin|]. simpl.
      now rewrite Hv, Hs.
  - rewrite Hrun. destruct (existsb _ (Obj.entries mcpServers)).
    + eexists. split; [reflexivity|]. simpl. rewrite length_app, Hlen. simpl. lia.
    + eexists. split; [reflexivity|]. simpl. rewrite length_app, Hlen. simpl. lia.
Qed.

Lemma validateCommand_outcome_witness :
  [("drive", loopbackConfigFile)] <> [] /\
  validateServerConfig (hostWithManifest apiKeyManifest) "drive" loopbackConfigFile
    = failure SeverityWarning "Missing or placeholder required env vars: API_KEY" /\
  fst (validateCommand (hostWithManifest apiKeyManifest) ".mcp.json"
         (Some (Json (Some [("drive", loopbackConfigFile)]))) []) = None.
Proof.
  assert (H : [("drive", loopbackConfigFile)] <> []) by discriminate.
  split; [exact H|]. split; [reflexivity|].
  exact (proj1 (validateCommand_outcome (hostWithManifest apiKeyManifest) ".mcp.json"
                  [("drive", loopbackConfigFile)] [] H)).
Defined.

(* ================================================================= *)
(** ** Configuration files *)



(** X20.  When the file exists, the standard input is a terminal and the
    user declines to overwrite, [generateConfigFile] returns false after the
    question and one line about the skipped file: it creates no directory,
    writes nothing and resolves no environment variable. *)
Theorem declined_overwrite_keeps_file (host : Host) (fs : FileSystem)
    (stringify : MCPConfiguration.t -> string) (envPromptFn : PromptFn)
    (serverName outputDir : string) (params : BuildParams.t) (trace : list Event) :
  let filename :=
    configFilename (BuildParams.combination params) (BuildParams.transport params) in
  let question := Confirm (filename ++ " already exists. Overwrite?") false in
  existsSync fs (pathJoin host outputDir filename) = true ->
  isTTY host = true ->
  answerConfirm host (trace ++ [question])%list = false ->
  exists line,
    generateConfigFile host fs stringify envPromptFn serverName outputDir params trace
    = ((false, []), (trace ++ [question; ConsoleLog line])%list).
Proof.
  cbv zeta. intros Hexists Htty Hanswer.
  unfold generateConfigFile. rewrite Hexists, Htty. simpl andb. cbv iota.
  unfold bind at 1. unfold confirm. rewrite Hanswer. simpl negb. cbv iota.
  eexists. run_prompt. rewrite <- app_assoc. reflexivity.
Qed.

Lemma declined_overwrite_keeps_file_witness :
  existsSync existingFiles
    (pathJoin decliningHost "out"
       (configFilename (BuildParams.combination minimalStdioParams)
          (BuildParams.transport minimalStdioParams))) = true /\
  isTTY decliningHost = true /\
  answerConfirm decliningHost
    [Confirm (".mcp.minimal-stdio.json" ++ " already exists. Overwrite?") false] = false /\
  exists line,
    generateConfigFile decliningHost existingFiles (fun _ => "{}")
      (promptForEnvVars decliningHost) "server" "out" minimalStdioParams []
    = ((false, []),
       [Confirm (".mcp.minimal-stdio.json" ++ " already exists. Overwrite?") false;
        ConsoleLog line]).
Proof.
  split; [reflexivity|]. split; [reflexivity|]. split; [reflexivity|].
  exact (declined_overwrite_keeps_file decliningHost existingFiles (fun _ => "{}")
           (promptForEnvVars decliningHost) "server" "out" minimalStdioParams []
           eq_refl eq_refl eq_refl).
Defined.

(** X21.  Without a terminal [generateConfigFile] never asks before it
    overwrites: it behaves on an existing file as if no file existed. *)
Theorem overwrite_without_terminal (host : Host) (fs : FileSystem)
    (stringify : MCPConfiguration.t -> string) (envPromptFn : PromptFn)
    (serverName outputDir : string) (params : BuildParams.t) (trace : list Event) :
  isTTY host = false ->
  generateConfigFile host fs stringify envPromptFn serverName outputDir params trace
  = generateConfigFile host
      (mkFileSystem (fun _ => false) (mkdirSync fs) (writeFileSync fs))
      stringify envPromptFn serverName outputDir params trace.
Proof.
  intros Htty. unfold generateConfigFile. rewrite Htty, andb_false_r. reflexivity.
Qed.

Lemma overwrite_without_terminal_witness :
  isTTY batchHost = false /\
  generateConfigFile batchHost existingFiles (fun _ => "{}")
    (promptForEnvVars batchHost) "server" "out" minimalStdioParams []
  = generateConfigFile batchHost
      (mkFileSystem (fun _ => false) (mkdirSync existingFiles) (writeFileSync existingFiles))
      (fun _ => "{}") (promptForEnvVars batchHost) "server" "out" minimalStdioParams [] /\
  fst (generateConfigFile batchHost existingFiles (fun _ => "{}")
         (promptForEnvVars batchHost) "server" "out" minimalStdioParams [])
  = (true, [MadeDirectory "out";
            WroteFile "out/.mcp.minimal-stdio.json" ("{}" ++ newline)]).
Proof.
  split; [reflexivity|]. split; [|reflexivity].
  exact (overwrite_without_terminal batchHost existingFiles (fun _ => "{}")
           (promptForEnvVars batchHost) "server" "out" minimalStdioParams [] eq_refl).
Defined.

(* ================================================================= *)
(** ** Dependencies between conditional dimensions *)

Lemma shouldPromptEnvVar_missing (deps : Obj.t (list string)) (selectedValues : Obj.t string)
    (depName : string) (allowedValues : list string) :
  In (depName, allowedValues) (Obj.entries deps) ->
  Obj.get selectedValues depName = None ->
  shouldPromptEnvVar (Some deps) selectedValues = false.
Proof.
  intros Hin Hget. unfold shouldPromptEnvVar.
  destruct (forallb _ (Obj.entries deps)) eqn:E; [|reflexivity].
  rewrite forallb_forall in E. specialize (E _ Hin). simpl in E.
  now rewrite Hget in E.
Qed.

(** The variables and dimension values of the combinations pushed for one
    tuple of primary values: the primary dimensions and the conditional
    dimensions whose [dependsOn] holds for the primary values. *)
Lemma combinationsForPrimary_keys primaryDims conditionalDims primaryValues c k :
  In c (combinationsForPrimary primaryDims conditionalDims primaryValues) ->
  In k (Combination.envKeys c) \/ In k (Obj.keys (Combination.dimensionValues c)) ->
  In k (map EnvDim.name primaryDims) \/
  exists cond,
    In cond conditionalDims /\ EnvDim.name cond = k /\
    shouldPromptEnvVar (EnvDim.dependsOn cond)
      (assignDimensionValues primaryDims primaryValues Obj.empty) = true.
Proof.
  unfold combinationsForPrimary.
  set (base := assignDimensionValues primaryDims primaryValues Obj.empty).
  assert (Hbase : forall k, In k (Obj.keys (Obj.spread [base])) ->
                            In k (map EnvDim.name primaryDims)).
  { intros k0. rewrite in_keys_spread. intros (src & [<-|[]] & Hk).
    apply in_keys_assignDimensionValues in Hk as [[]|Hk]. exact Hk. }
  assert (Happ : forall k0,
            In k0 (map EnvDim.name
                     (filter (fun cond => shouldPromptEnvVar (EnvDim.dependsOn cond) base)
                             conditionalDims)) ->
            exists cond, In cond conditionalDims /\ EnvDim.name cond = k0 /\
                         shouldPromptEnvVar (EnvDim.dependsOn cond) base = true).
  { intros k0 H. apply in_map_iff in H as (cond & Hn & H).
    apply filter_In in H as [H1 H2]. now exists cond. }
  destruct (filter _ conditionalDims) as [|a applicable'] eqn:Eapp.
  - intros [<-|[]]. simpl. intros [H|H]; left; [exact H | now apply Hbase].
  - rewrite <- Eapp in *. clear Eapp a applicable'.
    intros Hc. apply in_map_iff in Hc as (condValues & <- & _). simpl.
    intros [H|H].
    + rewrite map_app, in_app_iff in H. destruct H as [H|H]; [now left | right; now apply Happ].
    + apply in_keys_assignDimensionValues in H as [H|H];
        [left; now apply Hbase | right; now apply Happ].
Qed.

(** X22.  A conditional dimension is judged against the values of the
    primary dimensions only.  When every declaration of a name depends on
    some name that is not a primary dimension, for instance on another
    conditional dimension, that name is in no combination: neither among
    its variables nor among its dimension values. *)
Theorem chained_dependency_never_applies (envVars : list EnvDim.t) (n : string)
    (c : Combination.t) :
  (forall d, In d envVars -> EnvDim.name d = n ->
     exists deps depName allowedValues,
       EnvDim.dependsOn d = Some deps /\
       In (depName, allowedValues) (Obj.entries deps) /\
       ~ In depName (map EnvDim.name (filter isPrimary envVars))) ->
  In c (generateConditionalCombinations envVars) ->
  ~ In n (Combination.envKeys c) /\
  ~ In n (Obj.keys (Combination.dimensionValues c)).
Proof.
  intros Hn Hc.
  assert (G : ~ (In n (Combination.envKeys c) \/
                 In n (Obj.keys (Combination.dimensionValues c)))); [|tauto].
  destruct (filter isPrimary envVars) as [|p ps] eqn:E.
  - rewrite (generateConditionalCombinations_no_primary _ E) in Hc.
    destruct Hc as [<-|[]]. simpl. tauto.
  - assert (Hp : filter isPrimary envVars <> []) by (rewrite E; discriminate).
    destruct (generateConditionalCombinations_primary _ _ Hp Hc) as (pv & _ & Hin).
    rewrite <- E in *. clear E p ps.
    intros H. apply (combinationsForPrimary_keys _ _ _ _ _ Hin) in H
      as [H|(cond & Hcond & Hname & Hs)].
    + apply in_map_iff in H as (d & Hname & Hd). apply filter_In in Hd as [Hd Hprim].
      destruct (Hn d Hd Hname) as (deps & _ & _ & Hdeps & _).
      unfold isPrimary in Hprim. rewrite Hdeps in Hprim. discriminate.
    + apply filter_In in Hcond as [Hcond _].
      destruct (Hn cond Hcond Hname) as (deps & depName & allowed & Hdeps & Hentry & Hnot).
      rewrite Hdeps in Hs.
      rewrite (shouldPromptEnvVar_missing deps _ depName allowed Hentry) in Hs;
        [discriminate|].
      apply get_None_iff. intros Hk.
      apply in_keys_assignDimensionValues in Hk as [[]|Hk]. contradiction.
Qed.

Lemma chained_dependency_never_applies_witness :
  In dcrExternalCombination
     (generateConditionalCombinations [AUTH_MODE; DCR_MODE; DCR_OPTION_chained]) /\
  ~ In "DCR_OPTION" (Combination.envKeys dcrExternalCombination) /\
  ~ In "DCR_OPTION" (Obj.keys (Combination.dimensionValues dcrExternalCombination)).
Proof.
  assert (Hin : In dcrExternalCombination
                  (generateConditionalCombinations [AUTH_MODE; DCR_MODE; DCR_OPTION_chained]))
    by (right; right; left; reflexivity).
  split; [exact Hin|].
  refine (chained_dependency_never_applies [AUTH_MODE; DCR_MODE; DCR_OPTION_chained]
            "DCR_OPTION" dcrExternalCombination _ Hin).
  intros d [<-|[<-|[<-|[]]]] Hname; try discriminate Hname.
  exists [("DCR_MODE", ["external"])], "DCR_MODE", ["external"].
  split; [reflexivity|]. split; [left; reflexivity|].
  simpl. intros [H|[]]. discriminate H.
Defined.

(* ================================================================= *)
(** ** Quick mode *)

(** With the quick option or without a terminal no prompt is issued,
    whatever the variables. *)
Lemma batch_never_prompts (host : Host) (serverName : string)
    (options : PromptOptions.t) (envVars : list EnvVarMetadata.t) :
  isTrue (PromptOptions.yes options) = true \/ isTTY host = false ->
  forall env trace,
  exists shown,
    snd (foldM (promptForEnvVar host serverName options) envVars env trace)
      = (trace ++ shown)%list /\
    Forall (fun e => isPrompt e = false) shown.
Proof.
  intros Hbatch.
  destruct (isTrue (PromptOptions.yes options)) eqn:Hyes;
    [now apply quick_mode_never_prompts|].
  destruct Hbatch as [Hbatch|Htty]; [discriminate|].
  induction envVars as [|envVar envVars IH]; intros env trace.
  - exists []. simpl. now rewrite app_nil_r.
  - simpl. unfold bind at 1.
    pose proof (promptForEnvVar_without_terminal host serverName options env envVar trace
                  Htty Hyes) as Hstep.
    cbv zeta in Hstep. rewrite Hstep. apply IH.
Qed.

(** X23.  With the quick option, as in matrix mode, or without a terminal,
    [generateConfigFile] asks nothing unless the file exists and the
    standard input is a terminal: everything it shows is a console line. *)
Theorem quick_file_generation_is_silent (host : Host) (fs : FileSystem)
    (stringify : MCPConfiguration.t -> string) (serverName outputDir : string)
    (params : BuildParams.t) (trace : list Event) :
  isTrue (BuildParams.quick params) = true \/ isTTY host = false ->
  existsSync fs
    (pathJoin host outputDir
       (configFilename (BuildParams.combination params) (BuildParams.transport params)))
  && isTTY host = false ->
  exists shown,
    snd (generateConfigFile host fs stringify (promptForEnvVars host) serverName outputDir
           params trace) = (trace ++ shown)%list /\
    Forall (fun e => isPrompt e = false) shown.
Proof.
  intros Hquick Hask. unfold generateConfigFile. rewrite Hask.
  unfold bind at 1. unfold ret at 1. cbn [negb]. cbv iota.
  destruct (mkdirSync fs outputDir) as [message|].
  - run_prompt. eexists. split; [reflexivity|]. now repeat constructor.
  - unfold bind at 1. unfold generateConfigObject. unfold bind at 1.
    unfold buildServerConfig.
    destruct (BuildParams.metadataReader params _ _) as [pkg|].
    + unfold bind at 1. unfold resolveEnv.
      destruct (separateDimensions _ _) as [envDimensions argDimensions].
      unfold bind at 1.
      match goal with
      | |- context [promptForEnvVars host ?ctx ?vars ?opts trace] =>
          destruct (batch_never_prompts host ctx opts vars Hquick Obj.empty trace)
            as (shown & Eshown & Hshown);
          unfold promptForEnvVars;
          destruct (foldM (promptForEnvVar host ctx opts) vars Obj.empty trace)
            as [promptedEnv trace1]
      end.
      simpl in Eshown. subst trace1. unfold ret at 1. cbv beta iota.
      destruct (baseCommand host params) as [message|[command args0]].
      * run_prompt. eexists (shown ++ [_])%list. split; [now rewrite app_assoc|].
        apply Forall_app. split; [exact Hshown | now repeat constructor].
      * destruct (isHttpTransport (BuildParams.transport params));
          unfold ret at 1; cbv beta iota; unfold ret at 1; cbv beta iota;
          (destruct (writeFileSync fs _ _) as [message|];
           run_prompt; (eexists (shown ++ [_])%list; split; [now rewrite app_assoc|]);
           apply Forall_app; (split; [exact Hshown | now repeat constructor])).
    + run_prompt. eexists. split; [reflexivity|]. now repeat constructor.
Qed.

Lemma quick_file_generation_is_silent_witness :
  (isTrue (BuildParams.quick loopbackDefaultsParams) = true \/ isTTY batchHost = false) /\
  existsSync existingFiles
    (pathJoin batchHost "examples"
       (configFilename (BuildParams.combination loopbackDefaultsParams)
          (BuildParams.transport loopbackDefaultsParams)))
  && isTTY batchHost = false /\
  exists shown,
    snd (generateConfigFile batchHost existingFiles (fun _ => "{}")
           (promptForEnvVars batchHost) "server" "examples" loopbackDefaultsParams [])
      = shown /\
    Forall (fun e => isPrompt e = false) shown.
Proof.
  split; [left; reflexivity|]. split; [reflexivity|].
  exact (quick_file_generation_is_silent batchHost existingFiles (fun _ => "{}")
           "server" "examples" loopbackDefaultsParams [] (or_introl eq_refl) eq_refl).
Defined.

(* ================================================================= *)
(** ** The variables handed to the prompt *)

(** The choice of the variables handed to the prompt, by cases on the
    filter of optional variables. *)
Lemma selectEnvVarsToPrompt_iff (optionalVarsToPrompt : option (list string))
    (allEnvVars matching : list EnvVarMetadata.t) (prePopulatedEnvKeys : list string)
    (dimensionValues : Obj.t string) (envVar : EnvVarMetadata.t) :
  let prompted :=
    selectEnvVarsToPrompt optionalVarsToPrompt allEnvVars matching prePopulatedEnvKeys
      dimensionValues in
  let required := isTrue (EnvVarMetadata.isRequired envVar) in
  let hasValue := includes prePopulatedEnvKeys (EnvVarMetadata.name envVar) in
  (required = true ->
   (In envVar prompted <-> In envVar matching /\ hasValue = false)) /\
  (required = false ->
   (In envVar prompted <->
    hasValue = false /\
    match optionalVarsToPrompt with
    | None => In envVar matching
    | Some [] => False
    | Some selected =>
        In envVar allEnvVars /\ In (EnvVarMetadata.name envVar) selected /\
        shouldPromptEnvVar (EnvVarMetadata.dependsOn envVar) dimensionValues = true
    end)).
Proof.
  cbv zeta. unfold selectEnvVarsToPrompt.
  destruct optionalVarsToPrompt as [[|sel selected]|].
  - split; intros Hr; rewrite filter_In, Hr, andb_true_iff, negb_true_iff.
    + tauto.
    + split; [intros (_ & _ & H); discriminate | tauto].
  - split; intros Hr; rewrite in_app_iff, !filter_In, Hr.
    + rewrite !andb_true_iff, negb_true_iff. simpl.
      split; [intros [H|H]; [tauto | destruct H as (_ & ((H & _) & _) & _); discriminate]
             | tauto].
    + rewrite !andb_true_iff, !negb_true_iff, includes_true_iff. simpl.
      split; [intros [(_ & _ & H)|H]; [discriminate | tauto] | tauto].
  - split; intros Hr; rewrite filter_In, negb_true_iff; tauto.
Qed.

(** X24.  [buildServerConfig] calls the prompt function once, under the
    name of the combination and the transport, with the quick option of
    the caller, and merges what it returns over the kept defaults and the
    env dimensions.  Every variable it hands over is declared by the
    package, passes its [dependsOn] and has no value yet; and whatever the
    filter of optional variables, every required variable of the
    combination that passes its [dependsOn] and has no value yet is handed
    over. *)
Theorem prompt_request (params : BuildParams.t) (pkg : PackageConfig.t) :
  let combination := BuildParams.combination params in
  let dimensionValues := Combination.dimensionValues combination in
  let declared := PackageConfig.environmentVariables pkg in
  let filteredDefaults := filterDefaults declared combination in
  let envDimensions :=
    fst (separateDimensions (map CliArgMetadata.name (PackageConfig.packageArguments pkg))
           dimensionValues) in
  let hasValue name :=
    In name (Obj.keys filteredDefaults) \/ In name (Obj.keys envDimensions) in
  exists envVarsToPrompt options,
    (forall envPromptFn trace,
       resolveEnv envPromptFn params pkg trace =
         let prompted :=
           envPromptFn (Combination.name combination ++ "/" ++ BuildParams.transport params)
             envVarsToPrompt options trace in
         (Obj.spread [filteredDefaults; envDimensions; fst prompted], snd prompted)) /\
    PromptOptions.yes options = BuildParams.quick params /\
    (forall envVar, In envVar envVarsToPrompt ->
       In envVar declared /\
       shouldPromptEnvVar (EnvVarMetadata.dependsOn envVar) dimensionValues = true /\
       ~ hasValue (EnvVarMetadata.name envVar)) /\
    (forall envVar,
       In envVar declared ->
       isTrue (EnvVarMetadata.isRequired envVar) = true ->
       In (EnvVarMetadata.name envVar) (Combination.envKeys combination) ->
       shouldPromptEnvVar (EnvVarMetadata.dependsOn envVar) dimensionValues = true ->
       ~ hasValue (EnvVarMetadata.name envVar) ->
       In envVar envVarsToPrompt).
Proof.
  cbv zeta. unfold resolveEnv.
  destruct (separateDimensions _ _) as [envDimensions argDimensions]. simpl fst.
  eexists _, _. split; [|split; [|split]].
  - intros envPromptFn trace. unfold bind, ret.
    rewrite (surjective_pairing (envPromptFn _ _ _ trace)). cbv iota. reflexivity.
  - reflexivity.
  - intros envVar H.
    pose proof (selectEnvVarsToPrompt_not_prepopulated _ _ _ _ _ _ H) as Hpre.
    apply selectEnvVarsToPrompt_relevant in H as [H1 H2].
    + split; [exact H1|]. split; [exact H2|].
      intros Hv. apply Hpre. now apply in_or_app.
    + intros e He. apply filter_In in He as [He Hs].
      apply filter_In in He as [He _]. now split.
  - intros envVar Hdecl Hreq Hkey Hdep Hno.
    apply (proj1 (selectEnvVarsToPrompt_iff _ _ _ _ _ _)); [exact Hreq|].
    split.
    + apply filter_In. split; [|exact Hdep].
      apply filter_In. split; [exact Hdecl|]. now apply includes_true_iff.
    + apply includes_false_iff. intros Hin. apply Hno. now apply in_app_or.
Qed.

(* ================================================================= *)
(** ** Defaults in the configuration *)

Lemma filterDefaults_entries allEnvVars combination k v :
  In (k, v) (filterDefaults allEnvVars combination) ->
  In (k, v) (Combination.defaults combination).
Proof.
  unfold filterDefaults, Obj.entries.
  assert (G : forall (l : list (string * string)) (acc : Obj.t string),
    In (k, v) (fold_left
      (fun filteredDefaults entry =>
         let '(envName, envValue) := entry in
         match find (fun e => EnvVarMetadata.name e =? envName) allEnvVars with
         | None => Obj.set envName envValue filteredDefaults
         | Some envVarMeta =>
             if shouldPromptEnvVar (EnvVarMetadata.dependsOn envVarMeta)
                  (Combination.dimensionValues combination)
             then Obj.set envName envValue filteredDefaults
             else filteredDefaults
         end) l acc) ->
    In (k, v) acc \/ In (k, v) l).
  { induction l as [|[envName envValue] l IH]; intros acc; simpl; [auto|].
    intros H. apply IH in H as [H|H]; [|now auto].
    destruct (find _ allEnvVars) as [meta|].
    - destruct (shouldPromptEnvVar _ _); [|now auto].
      apply in_entries_set in H as [[-> ->]|H]; auto.
    - apply in_entries_set in H as [[-> ->]|H]; auto. }
  intros H. apply G in H as [[]|H]. exact H.
Qed.

Lemma filterDefaults_kept allEnvVars combination k :
  In k (Obj.keys (Combination.defaults combination)) ->
  match find (fun e => EnvVarMetadata.name e =? k) allEnvVars with
  | None => True
  | Some envVarMeta =>
      shouldPromptEnvVar (EnvVarMetadata.dependsOn envVarMeta)
        (Combination.dimensionValues combination) = true
  end ->
  In k (Obj.keys (filterDefaults allEnvVars combination)).
Proof.
  unfold filterDefaults, Obj.entries, Obj.keys at 1. intros Hin Hkeep.
  assert (G : forall (l : list (string * string)) (acc : Obj.t string),
    In k (Obj.keys acc) \/ In k (map fst l) ->
    In k (Obj.keys (fold_left
      (fun filteredDefaults entry =>
         let '(envName, envValue) := entry in
         match find (fun e => EnvVarMetadata.name e =? envName) allEnvVars with
         | None => Obj.set envName envValue filteredDefaults
         | Some envVarMeta =>
             if shouldPromptEnvVar (EnvVarMetadata.dependsOn envVarMeta)
                  (Combination.dimensionValues combination)
             then Obj.set envName envValue filteredDefaults
             else filteredDefaults
         end) l acc))).
  { induction l as [|[envName envValue] l IH]; intros acc; simpl.
    - intros [H|[]]. exact H.
    - intros H. apply IH.
      destruct H as [H|[H|H]]; [| |now right].
      + left.
        destruct (find (fun e => EnvVarMetadata.name e =? envName) allEnvVars) as [meta|].
        * destruct (shouldPromptEnvVar (EnvVarMetadata.dependsOn meta) _);
            [|exact H]. apply in_keys_set. now right.
        * apply in_keys_set. now right.
      + left. simpl in H. subst envName.
        destruct (find (fun e => EnvVarMetadata.name e =? k) allEnvVars) as [meta|].
        * rewrite Hkeep. apply in_keys_set. now left.
        * apply in_keys_set. now left. }
  apply G. now right.
Qed.

(** X25.  A default of the combination reaches the [env] of the
    configuration that is built with [promptForEnvVars] whenever its name is
    not a dimension of the combination and the package either does not
    declare the name or the first declaration of it passes its [dependsOn]:
    nothing is asked for such a name, and neither the process environment
    nor a declared default of the manifest replaces the value. *)
Theorem kept_default_reaches_config (host : Host) (params : BuildParams.t)
    (trace : list Event) (config : ServerConfig) (pkg : PackageConfig.t) (k v : string) :
  let combination := BuildParams.combination params in
  fst (buildServerConfig host (promptForEnvVars host) params trace) = inr config ->
  BuildParams.metadataReader params (BuildParams.metadata params)
    (transportTypeOf (BuildParams.transport params)) = Some pkg ->
  NoDup (Obj.keys (Combination.defaults combination)) ->
  In (k, v) (Obj.entries (Combination.defaults combination)) ->
  ~ In k (Obj.keys (Combination.dimensionValues combination)) ->
  match find (fun e => EnvVarMetadata.name e =? k) (PackageConfig.environmentVariables pkg) with
  | None => True
  | Some envVarMeta =>
      shouldPromptEnvVar (EnvVarMetadata.dependsOn envVarMeta)
        (Combination.dimensionValues combination) = true
  end ->
  Obj.get (emittedEnv config) k = Some v.
Proof.
  cbv zeta. intros Hbuild Hpkg Hnd Hkv Hdim Hkeep.
  destruct (buildServerConfig_returns _ _ _ _ _ Hbuild)
    as (pkg' & command & args0 & Hpkg' & Hcmd & Hshape).
  rewrite Hpkg in Hpkg'. injection Hpkg' as <-.
  rewrite (emittedEnv_stdioObject _ _ _ _ Hshape).
  assert (Hk : In k (Obj.keys (Combination.defaults (BuildParams.combination params))))
    by (now apply (in_map fst) in Hkv).
  pose proof (filterDefaults_kept (PackageConfig.environmentVariables pkg)
                (BuildParams.combination params) k Hk Hkeep) as Hkept.
  assert (Hval : forall v',
            In (k, v') (filterDefaults (PackageConfig.environmentVariables pkg)
                          (BuildParams.combination params)) -> v' = v).
  { intros v' H. apply filterDefaults_entries in H.
    exact (unique_value _ _ _ _ Hnd H Hkv). }
  unfold resolveEnv.
  pose proof (separateDimensions_env_keys
                (map CliArgMetadata.name (PackageConfig.packageArguments pkg))
                (Combination.dimensionValues (BuildParams.combination params)) k) as Hsep.
  destruct (separateDimensions _ _) as [envDimensions argDimensions].
  simpl fst in Hsep. unfold bind, ret.
  match goal with
  | |- context [promptForEnvVars host ?ctx ?vars ?opts trace] =>
      pose proof (promptForEnvVars_keys host ctx vars opts trace k) as Hprompt;
      assert (Hvars : forall e, In e vars ->
                ~ In (EnvVarMetadata.name e)
                     (Obj.keys (filterDefaults (PackageConfig.environmentVariables pkg)
                                  (BuildParams.combination params))
                      ++ Obj.keys envDimensions)%list)
        by (intros e; apply selectEnvVarsToPrompt_not_prepopulated);
      destruct (promptForEnvVars host ctx vars opts trace) as [promptedEnv trace']
  end.
  simpl fst in *.
  assert (Hnotprompted : ~ In k (Obj.keys promptedEnv)).
  { intros H. apply Hprompt, in_map_iff in H as (e & He & Hin).
    apply (Hvars e Hin). rewrite He. apply in_or_app. now left. }
  assert (Hnotdim : ~ In k (Obj.keys envDimensions)).
  { intros H. apply Hsep in H as [H _]. contradiction. }
  unfold Obj.spread. simpl.
  rewrite !get_assign_not_in by assumption.
  now apply get_assign_in.
Qed.

Lemma kept_default_reaches_config_witness :
  fst (buildServerConfig batchHost (promptForEnvVars batchHost) loopbackDefaultsParams [])
    = inr (StdioConfig
             (ServerConfigStdio.mk "npx" (Some ["-y"; "@test/server"])
                (Some [("LOG_LEVEL", "info"); ("AUTH_MODE", "loopback-oauth")]))) /\
  NoDup (Obj.keys (Combination.defaults loopbackWithDefaults)) /\
  In ("LOG_LEVEL", "info") (Obj.entries (Combination.defaults loopbackWithDefaults)) /\
  ~ In "LOG_LEVEL" (Obj.keys (Combination.dimensionValues loopbackWithDefaults)) /\
  Obj.get
    (emittedEnv
       (StdioConfig
          (ServerConfigStdio.mk "npx" (Some ["-y"; "@test/server"])
             (Some [("LOG_LEVEL", "info"); ("AUTH_MODE", "loopback-oauth")]))))
    "LOG_LEVEL" = Some "info".
Proof.
  assert (Hnd : NoDup (Obj.keys (Combination.defaults loopbackWithDefaults))).
  { simpl. repeat constructor; simpl; intuition discriminate. }
  assert (Hin : In ("LOG_LEVEL", "info")
                  (Obj.entries (Combination.defaults loopbackWithDefaults)))
    by (left; reflexivity).
  assert (Hdim : ~ In "LOG_LEVEL"
                   (Obj.keys (Combination.dimensionValues loopbackWithDefaults))).
  { simpl. intros [H|[]]. discriminate H. }
  split; [reflexivity|]. split; [exact Hnd|]. split; [exact Hin|]. split; [exact Hdim|].
  exact (kept_default_reaches_config batchHost loopbackDefaultsParams [] _
           (stdioPackage [AUTH_MODE_var; LOG_LEVEL_var; DCR_STORE_URI_var])
           "LOG_LEVEL" "info" eq_refl eq_refl Hnd Hin Hdim eq_refl).
Defined.

(* ================================================================= *)
(** ** Required variables on a terminal *)

(** Resolving a variable never removes a value. *)
Lemma promptForEnvVar_keeps_keys (host : Host) (serverName : string)
    (options : PromptOptions.t) (env : Obj.t string) (envVar : EnvVarMetadata.t)
    (trace : list Event) (k : string) :
  In k (Obj.keys env) ->
  In k (Obj.keys (fst (promptForEnvVar host serverName options env envVar trace))).
Proof.
  intros Hk. unfold promptForEnvVar. run_prompt.
  repeat match goal with
         | |- context [if ?b then _ else _] => destruct b; simpl
         | |- context [match usableFirstChoice ?c with _ => _ end] =>
             destruct (usableFirstChoice c); simpl
         end;
    try assumption; apply in_keys_set; now right.
Qed.

Lemma foldM_promptForEnvVar_keeps_keys (host : Host) (serverName : string)
    (options : PromptOptions.t) (envVars : list EnvVarMetadata.t) (k : string) :
  forall env trace,
    In k (Obj.keys env) ->
    In k (Obj.keys (fst (foldM (promptForEnvVar host serverName options) envVars env trace))).
Proof.
  induction envVars as [|envVar envVars IH]; intros env trace Hk; simpl; [exact Hk|].
  unfold bind at 1.
  pose proof (promptForEnvVar_keeps_keys host serverName options env envVar trace k Hk)
    as Hstep.
  destruct (promptForEnvVar host serverName options env envVar trace) as [env' trace'].
  now apply IH.
Qed.

Lemma map_snd_plainChoices (l : list string) : map snd (plainChoices l) = l.
Proof.
  unfold plainChoices. rewrite map_map. simpl. apply map_id.
Qed.

Lemma required_variable_step (host : Host) (serverName : string)
    (options : PromptOptions.t) (env : Obj.t string) (envVar : EnvVarMetadata.t)
    (trace : list Event) :
  isTTY host = true ->
  isTrue (PromptOptions.yes options) = false ->
  isTrue (EnvVarMetadata.isRequired envVar) = true ->
  answersFromChoices host ->
  ~ In skipOptional
       (match EnvVarMetadata.choices envVar with Some cs => cs | None => [] end) ->
  In (EnvVarMetadata.name envVar)
     (Obj.keys (fst (promptForEnvVar host serverName options env envVar trace))).
Proof.
  intros Htty Hyes Hreq Hanswers Hskip.
  assert (Hset : forall v tr,
            In (EnvVarMetadata.name envVar)
               (Obj.keys (fst (ret (Obj.set (EnvVarMetadata.name envVar) v env) tr))))
    by (intros v tr; apply in_keys_set; now left).
  unfold promptForEnvVar. rewrite Htty, Hyes, Hreq. simpl negb.
  destruct (truthyOpt (nullish _ _)); [apply Hset|].
  rewrite !andb_true_r.
  destruct (truthyOpt (Obj.get (processEnv host) (EnvVarMetadata.name envVar))).
  - cbv iota. destruct (declaresChoices (EnvVarMetadata.choices envVar)).
    + unfold bind at 1. unfold select at 1.
      match goal with
      | |- context [answerText host (trace ++ [Select ?m ?c])%list] =>
          pose proof (Hanswers trace m c) as Hin;
          set (value := answerText host (trace ++ [Select m c])%list) in *
      end.
      rewrite map_snd_plainChoices in Hin.
      destruct (value =? _) eqn:Euse; [apply Hset|].
      destruct (String.eqb_spec value skipOptional) as [Es|_].
      * exfalso. apply String.eqb_neq in Euse.
        assert (Hin' : In value _) by (apply Hin; discriminate).
        simpl in Hin'. destruct Hin' as [Hin'|Hin']; [congruence|].
        apply in_app_or in Hin' as [Hin'|[Hin'|[]]].
        -- rewrite Es in Hin'. contradiction.
        -- rewrite Es in Hin'. discriminate Hin'.
      * destruct (value =? enterCustomValue); [|apply Hset].
        unfold bind, promptFn. apply Hset.
    + unfold bind at 1. unfold select at 1.
      match goal with
      | |- context [answerText host (trace ++ [Select ?m ?c])%list] =>
          pose proof (Hanswers trace m c) as Hin;
          set (action := answerText host (trace ++ [Select m c])%list) in *
      end.
      destruct (action =? "use-env"); [apply Hset|].
      destruct (String.eqb_spec action "skip") as [Es|_].
      * exfalso. assert (Hin' : In action _) by (apply Hin; discriminate).
        simpl in Hin'. rewrite Es in Hin'.
        destruct Hin' as [Hin'|[Hin'|[]]]; discriminate Hin'.
      * unfold bind, promptFn. apply Hset.
  - cbv iota.
    destruct (usableFirstChoice (EnvVarMetadata.choices envVar)) as [firstChoice|] eqn:Ef.
    + unfold bind at 1. unfold select at 1.
      match goal with
      | |- context [answerText host (trace ++ [Select ?m ?c])%list] =>
          pose proof (Hanswers trace m c) as Hin;
          set (value := answerText host (trace ++ [Select m c])%list) in *
      end.
      rewrite map_snd_plainChoices, app_nil_r in Hin.
      destruct (String.eqb_spec value skipOptional) as [Es|_]; [|apply Hset].
      exfalso. apply Hskip. rewrite <- Es. apply Hin.
      destruct (EnvVarMetadata.choices envVar) as [[|c cs]|]; discriminate.
    + unfold bind, promptFn. apply Hset.
Qed.

(** X26.  On a terminal and without the quick option, a required variable
    is never left out: for a user who answers each selection with one of the
    values offered, and unless the variable declares the choice
    [Skip (optional)] itself, the result of [promptForEnvVars] has a value
    under the name of every required variable it was given. *)
Theorem required_variable_on_terminal (host : Host) (serverName : string)
    (envVars : list EnvVarMetadata.t) (options : PromptOptions.t) (trace : list Event)
    (envVar : EnvVarMetadata.t) :
  isTTY host = true ->
  isTrue (PromptOptions.yes options) = false ->
  answersFromChoices host ->
  In envVar envVars ->
  isTrue (EnvVarMetadata.isRequired envVar) = true ->
  ~ In skipOptional
       (match EnvVarMetadata.choices envVar with Some cs => cs | None => [] end) ->
  Obj.has (fst (promptForEnvVars host serverName envVars options trace))
          (EnvVarMetadata.name envVar) = true.
Proof.
  intros Htty Hyes Hanswers Hin Hreq Hskip. apply has_true_iff.
  unfold promptForEnvVars. generalize (@Obj.empty string) as env. revert trace.
  induction envVars as [|e l IH]; intros trace env; [destruct Hin|].
  simpl. unfold bind at 1. destruct Hin as [->|Hin].
  - pose proof (required_variable_step host serverName options env envVar trace
                  Htty Hyes Hreq Hanswers Hskip) as Hstep.
    destruct (promptForEnvVar host serverName options env envVar trace) as [env' trace'].
    now apply foldM_promptForEnvVar_keeps_keys.
  - destruct (promptForEnvVar host serverName options env e trace) as [env' trace'].
    now apply IH.
Qed.

Lemma required_variable_on_terminal_witness :
  isTTY firstChoiceHost = true /\
  answersFromChoices firstChoiceHost /\
  promptForEnvVars firstChoiceHost "server" [AUTH_MODE_var; API_KEY_required]
    (PromptOptions.mk None None) [] =
    ([("AUTH_MODE", "loopback-oauth"); ("API_KEY", "typed")],
     [Select "[server] AUTH_MODE"
        [("loopback-oauth", "loopback-oauth"); ("dcr", "dcr");
         ("Skip (optional)", "Skip (optional)")];
      Input true "[server] API_KEY (required)" None true]) /\
  Obj.has (fst (promptForEnvVars firstChoiceHost "server" [AUTH_MODE_var; API_KEY_required]
                  (PromptOptions.mk None None) []))
          "API_KEY" = true.
Proof.
  assert (Hanswers : answersFromChoices firstChoiceHost).
  { intros trace message choices Hne. simpl. rewrite last_last.
    destruct choices as [|[n v] choices]; [contradiction | now left]. }
  split; [reflexivity|]. split; [exact Hanswers|]. split; [reflexivity|].
  refine (required_variable_on_terminal firstChoiceHost "server"
            [AUTH_MODE_var; API_KEY_required] (PromptOptions.mk None None) []
            API_KEY_required eq_refl eq_refl Hanswers
            (or_intror (or_introl eq_refl)) eq_refl _).
  simpl. intros [].
Defined.

(* ================================================================= *)
(** ** Combinations satisfy their own conditions *)

Lemma NoDup_keys_set {V} (k : string) (v : V) (o : Obj.t V) :
  NoDup (Obj.keys o) -> NoDup (Obj.keys (Obj.set k v o)).
Proof.
  unfold Obj.keys. induction o as [|[k0 v0] o IH]; simpl; intros Hnd.
  - constructor; [intros [] | constructor].
  - inversion Hnd as [|? ? Hnotin Hnd']; subst.
    destruct (k =? k0) eqn:E; simpl.
    + now constructor.
    + constructor; [|now apply IH].
      intros Hin. apply (in_keys_set k k0 v o) in Hin as [Hin|Hin].
      * apply String.eqb_neq in E. congruence.
      * contradiction.
Qed.

Lemma NoDup_keys_assignDimensionValues dims values target :
  NoDup (Obj.keys target) -> NoDup (Obj.keys (assignDimensionValues dims values target)).
Proof.
  unfold assignDimensionValues. generalize (indexed dims) as l. intros l. revert target.
  induction l as [|[i dim] l IH]; intros target Hnd; simpl; [exact Hnd|].
  apply IH. now apply NoDup_keys_set.
Qed.

Lemma get_assignDimensionValues_other dims values target k :
  ~ In k (map EnvDim.name dims) ->
  Obj.get (assignDimensionValues dims values target) k = Obj.get target k.
Proof.
  unfold assignDimensionValues. rewrite <- (map_snd_indexed dims) at 1.
  generalize (indexed dims) as l. intros l. revert target.
  induction l as [|[i dim] l IH]; intros target Hk; simpl; [reflexivity|].
  simpl in Hk. rewrite IH by tauto. apply get_set_other. tauto.
Qed.

(** [{ ...o }] has the values of [o]. *)
Lemma get_spread_single {V} (o : Obj.t V) (k : string) :
  NoDup (Obj.keys o) -> Obj.get (Obj.spread [o]) k = Obj.get o k.
Proof.
  intros Hnd. unfold Obj.spread. simpl.
  destruct (Obj.get o k) as [v|] eqn:E.
  - apply get_assign_in.
    + destruct (in_dec string_dec k (Obj.keys o)) as [H|H]; [exact H|].
      apply get_None_iff in H. congruence.
    + intros v' H. apply get_Some_In in E. exact (unique_value _ _ _ _ Hnd H E).
  - apply get_None_iff in E. now rewrite get_assign_not_in.
Qed.

(** [shouldPromptEnvVar] reads the selected values of the names it depends
    on only. *)
Lemma shouldPromptEnvVar_ext (deps : Obj.t (list string)) (s1 s2 : Obj.t string) :
  (forall depName allowedValues, In (depName, allowedValues) (Obj.entries deps) ->
     Obj.get s1 depName = Obj.get s2 depName) ->
  shouldPromptEnvVar (Some deps) s1 = shouldPromptEnvVar (Some deps) s2.
Proof.
  intros H. unfold shouldPromptEnvVar.
  induction (Obj.entries deps) as [|[depName allowed] l IH]; simpl; [reflexivity|].
  rewrite (H depName allowed) by now left.
  rewrite IH; [reflexivity|]. intros d a Hin. apply (H d a). now right.
Qed.

Lemma shouldPromptEnvVar_selected (deps : Obj.t (list string)) (selectedValues : Obj.t string)
    (depName : string) (allowedValues : list string) :
  shouldPromptEnvVar (Some deps) selectedValues = true ->
  In (depName, allowedValues) (Obj.entries deps) ->
  In depName (Obj.keys selectedValues).
Proof.
  intros Hs Hin.
  destruct (in_dec string_dec depName (Obj.keys selectedValues)) as [H|H]; [exact H|].
  apply get_None_iff in H.
  rewrite (shouldPromptEnvVar_missing deps _ depName allowedValues Hin H) in Hs.
  discriminate.
Qed.

Lemma NoDup_map_injective {A B} (f : A -> B) (l : list A) (x y : A) :
  NoDup (map f l) -> In x l -> In y l -> f x = f y -> x = y.
Proof.
  induction l as [|a l IH]; simpl; [intros _ []|].
  intros Hnd. inversion Hnd as [|? ? Hnotin Hnd']; subst.
  intros [->|Hx] [->|Hy] E.
  - reflexivity.
  - elim Hnotin. rewrite E. now apply in_map.
  - elim Hnotin. rewrite <- E. now apply in_map.
  - now apply IH.
Qed.

(** The variables and the dimension values of a combination pushed for one
    tuple of primary values. *)
Lemma combinationsForPrimary_values primaryDims conditionalDims primaryValues c :
  In c (combinationsForPrimary primaryDims conditionalDims primaryValues) ->
  let base := assignDimensionValues primaryDims primaryValues Obj.empty in
  let applicable :=
    filter (fun cond => shouldPromptEnvVar (EnvDim.dependsOn cond) base) conditionalDims in
  Combination.envKeys c = map EnvDim.name (primaryDims ++ applicable)%list /\
  exists condValues,
    Combination.dimensionValues c =
      assignDimensionValues applicable condValues (Obj.spread [base]).
Proof.
  cbv zeta. unfold combinationsForPrimary.
  destruct (filter _ conditionalDims) as [|a applicable'] eqn:Eapp.
  - intros [<-|[]]. simpl. rewrite app_nil_r. split; [reflexivity|]. now exists [].
  - rewrite <- Eapp. clear Eapp a applicable'.
    intros Hc. apply in_map_iff in Hc as (condValues & <- & _). simpl.
    split; [reflexivity|]. now exists condValues.
Qed.

(** X27.  When the declared names are distinct, every variable of a
    combination of [generateConditionalCombinations] passes its own
    [dependsOn] against the dimension values of that combination: a
    conditional dimension is never part of a combination that does not meet
    its condition. *)
Theorem combination_satisfies_dependsOn (envVars : list EnvDim.t) (c : Combination.t)
    (d : EnvDim.t) :
  NoDup (map EnvDim.name envVars) ->
  In c (generateConditionalCombinations envVars) ->
  In d envVars ->
  In (EnvDim.name d) (Combination.envKeys c) ->
  shouldPromptEnvVar (EnvDim.dependsOn d) (Combination.dimensionValues c) = true.
Proof.
  intros Hnd Hc Hd Hkey.
  destruct (EnvDim.dependsOn d) as [deps|] eqn:Edeps; [|reflexivity].
  destruct (filter isPrimary envVars) as [|p ps] eqn:E.
  { rewrite (generateConditionalCombinations_no_primary _ E) in Hc.
    destruct Hc as [<-|[]]. destruct Hkey. }
  assert (Hp : filter isPrimary envVars <> []) by (rewrite E; discriminate).
  destruct (generateConditionalCombinations_primary _ _ Hp Hc) as (pv & _ & Hin).
  clear E p ps Hp.
  destruct (combinationsForPrimary_values _ _ _ _ Hin) as (Hkeys & condValues & Hvalues).
  set (base := assignDimensionValues (filter isPrimary envVars) pv Obj.empty) in *.
  set (applicable :=
         filter (fun cond => shouldPromptEnvVar (EnvDim.dependsOn cond) base)
                (filter isConditional envVars)) in *.
  assert (Hsub : forall x, In x applicable -> In x envVars /\ isPrimary x = false).
  { intros x Hx. apply filter_In in Hx as [Hx _]. apply filter_In in Hx as [Hx Hcond].
    split; [exact Hx|]. unfold isConditional in Hcond. now apply negb_true_iff in Hcond. }
  assert (Happ : In d applicable).
  { rewrite Hkeys in Hkey. apply in_map_iff in Hkey as (d' & Hname & Hd').
    assert (Hd'env : In d' envVars).
    { apply in_app_or in Hd' as [Hd'|Hd']; [now apply filter_In in Hd' | now apply Hsub]. }
    rewrite (NoDup_map_injective EnvDim.name envVars d' d Hnd Hd'env Hd Hname) in Hd'.
    apply in_app_or in Hd' as [Hd'|Hd']; [|exact Hd'].
    apply filter_In in Hd' as [_ Hprim]. unfold isPrimary in Hprim.
    rewrite Edeps in Hprim. discriminate. }
  assert (Hbase : shouldPromptEnvVar (Some deps) base = true).
  { apply filter_In in Happ as [_ Hs]. now rewrite Edeps in Hs. }
  rewrite Hvalues, <- Hbase. apply shouldPromptEnvVar_ext.
  intros depName allowed Hentry.
  pose proof (shouldPromptEnvVar_selected deps base depName allowed Hbase Hentry) as Hsel.
  unfold base in Hsel.
  apply in_keys_assignDimensionValues in Hsel as [[]|Hsel].
  rewrite get_assignDimensionValues_other.
  - apply get_spread_single. unfold base.
    apply NoDup_keys_assignDimensionValues. constructor.
  - intros Hin'. apply in_map_iff in Hin' as (a & Ha & Hain).
    apply in_map_iff in Hsel as (p & Hpn & Hpin).
    destruct (Hsub a Hain) as [Haenv Haprim].
    apply filter_In in Hpin as [Hpenv Hpprim].
    assert (Eq : a = p).
    { apply (NoDup_map_injective EnvDim.name envVars a p Hnd Haenv Hpenv). congruence. }
    subst a. congruence.
Qed.

Lemma combination_satisfies_dependsOn_witness :
  NoDup (map EnvDim.name [AUTH_MODE; DCR_MODE; DCR_OPTION_chained]) /\
  In dcrExternalCombination
     (generateConditionalCombinations [AUTH_MODE; DCR_MODE; DCR_OPTION_chained]) /\
  In "DCR_MODE" (Combination.envKeys dcrExternalCombination) /\
  shouldPromptEnvVar (EnvDim.dependsOn DCR_MODE)
    (Combination.dimensionValues dcrExternalCombination) = true.
Proof.
  assert (Hnd : NoDup (map EnvDim.name [AUTH_MODE; DCR_MODE; DCR_OPTION_chained])).
  { simpl. repeat constructor; simpl; intuition discriminate. }
  assert (Hin : In dcrExternalCombination
                  (generateConditionalCombinations [AUTH_MODE; DCR_MODE; DCR_OPTION_chained]))
    by (right; right; left; reflexivity).
  assert (Hkey : In "DCR_MODE" (Combination.envKeys dcrExternalCombination))
    by (right; left; reflexivity).
  split; [exact Hnd|]. split; [exact Hin|]. split; [exact Hkey|].
  exact (combination_satisfies_dependsOn [AUTH_MODE; DCR_MODE; DCR_OPTION_chained]
           dcrExternalCombination DCR_MODE Hnd Hin (or_intror (or_introl eq_refl)) Hkey).
Defined.

(* ================================================================= *)
(** ** Remote http servers under the validator *)

(** X28.  For an http server with a [url] and without [start] block the
    validator has no [env] and no [args] to read: the entry is valid exactly
    when the streamable-http package of the manifest has no required
    variable, and otherwise every required variable is reported missing. *)
Theorem remote_http_server_validation (host : Host) (serverName : string)
    (config : ParsedServerConfig.t) (metadata : ServerMetadata.t) (pkg : PackageConfig.t) :
  isHttpServer config = true ->
  truthyOpt (ParsedServerConfig.url config) = true ->
  ParsedServerConfig.start config = None ->
  readServerMetadata host serverName = inr metadata ->
  getPackageForTransport metadata StreamableHttp = Some pkg ->
  let required :=
    filter (fun v => isTrue (EnvVarMetadata.isRequired v))
           (PackageConfig.environmentVariables pkg) in
  validateServerConfig host serverName config =
    match required with
    | [] => ValidationResult.mk true None None
    | _ :: _ =>
        failure SeverityWarning
          ("Missing or placeholder required env vars: "
           ++ join ", " (map EnvVarMetadata.name required))
    end.
Proof.
  intros Hhttp Hurl Hstart Hread Hpkg. cbv zeta.
  unfold validateServerConfig, structuralError, envToCheck, isStdioServer.
  rewrite Hhttp, Hurl, Hstart, Hread, Hpkg. simpl negb. cbv iota.
  assert (E : missingEnvVars pkg None =
              filter (fun v => isTrue (EnvVarMetadata.isRequired v))
                     (PackageConfig.environmentVariables pkg)).
  { unfold missingEnvVars. apply filter_ext. intros v. simpl.
    now destruct (isTrue (EnvVarMetadata.isRequired v)). }
  rewrite E.
  destruct (filter _ (PackageConfig.environmentVariables pkg)); reflexivity.
Qed.

Lemma remote_http_server_validation_witness :
  isHttpServer remoteServerEntry = true /\
  truthyOpt (ParsedServerConfig.url remoteServerEntry) = true /\
  ParsedServerConfig.start remoteServerEntry = None /\
  validateServerConfig (hostWithManifest remoteManifest) "server" remoteServerEntry =
    failure SeverityWarning "Missing or placeholder required env vars: API_KEY".
Proof.
  split; [reflexivity|]. split; [reflexivity|]. split; [reflexivity|].
  exact (remote_http_server_validation (hostWithManifest remoteManifest) "server"
           remoteServerEntry remoteManifest remotePackage
           eq_refl eq_refl eq_refl eq_refl eq_refl).
Defined.
